(** * LocalLLM-trainable: the training script [train.py]

    A shallow embedding of [src/LocalLLM.API/train.py] and the properties of
    its orchestration logic: model-name normalisation, dataset construction,
    configuration merge, checkpoint detection and resume, artifact export,
    and the top-level error handler.

    Conventions.
    - A Python [str] is a [string]; its characters are the code points below
      256, so [ascii] stands for one character (not one UTF-8 byte).
    - A path is a POSIX path ([os.path] is [posixpath]).
    - Everything outside the script (the file system, the YAML and JSON
      parsers, torch, transformers, peft, datasets) is reached through
      [call]s answered by a platform; see [Section Platform]. *)

From Stdlib Require Import ZArith Lia Bool List Sorted Ascii String.
From stdpp Require Import base option list strings gmap.

Set Warnings "-register-all".

Local Open Scope string_scope.
Local Open Scope Z_scope.

(* ===================================================================== *)
(** * Python strings *)
(* ===================================================================== *)

Module PyStr.

(** [c.isspace()] for a code point below 256: TAB..CR, FS..US, SPACE,
    NEL (0x85) and NBSP (0xA0). *)
Definition isspace (c : ascii) : bool :=
  let n := nat_of_ascii c in
  ((9 <=? n) && (n <=? 13) || (28 <=? n) && (n <=? 32)
   || (n =? 133) || (n =? 160))%nat.

(** [c.lower()]: the ASCII capitals and the Latin-1 capitals 0xC0..0xDE
    (0xD7, the multiplication sign, is not a letter) move up by 32. *)
Definition lower_char (c : ascii) : ascii :=
  let n := nat_of_ascii c in
  if ((65 <=? n) && (n <=? 90)
      || (192 <=? n) && (n <=? 222) && negb (n =? 215))%nat
  then ascii_of_nat (n + 32) else c.

Fixpoint lower (s : string) : string :=
  match s with
  | EmptyString => EmptyString
  | String c r => String (lower_char c) (lower r)
  end.

Fixpoint lstrip (s : string) : string :=
  match s with
  | EmptyString => EmptyString
  | String c r => if isspace c then lstrip r else s
  end.

(** [rstrip]: a character is dropped when it is white and everything after
    it has been dropped. *)
Fixpoint rstrip (s : string) : string :=
  match s with
  | EmptyString => EmptyString
  | String c r =>
      match rstrip r with
      | EmptyString => if isspace c then EmptyString else String c EmptyString
      | r' => String c r'
      end
  end.

(** [s.strip()] *)
Definition strip (s : string) : string := rstrip (lstrip s).

(** [s.replace(" ", "")] *)
Fixpoint remove_spaces (s : string) : string :=
  match s with
  | EmptyString => EmptyString
  | String c r =>
      if Ascii.eqb c " "%char then remove_spaces r
      else String c (remove_spaces r)
  end.

(** [s.startswith(p)] *)
Fixpoint startswith (p s : string) : bool :=
  match p, s with
  | EmptyString, _ => true
  | String _ _, EmptyString => false
  | String a p', String b s' => Ascii.eqb a b && startswith p' s'
  end.

(** [c in s] for a one-character [c] *)
Fixpoint contains_char (c : ascii) (s : string) : bool :=
  match s with
  | EmptyString => false
  | String d r => Ascii.eqb c d || contains_char c r
  end.

(** [s.split(c)[-1]]: what follows the last [c], or [s] when there is none. *)
Fixpoint last_field (c : ascii) (s : string) : string :=
  match s with
  | EmptyString => EmptyString
  | String d r =>
      if contains_char c s
      then (if Ascii.eqb c d && negb (contains_char c r) then r
            else last_field c r)
      else s
  end.

(** [s * n] *)
Fixpoint times (s : string) (n : nat) : string :=
  match n with
  | O => EmptyString
  | S k => s ++ times s k
  end.

(** [s.split("\n")[0]] *)
Fixpoint first_line (s : string) : string :=
  match s with
  | EmptyString => EmptyString
  | String c r => if Ascii.eqb c "010" then EmptyString else String c (first_line r)
  end.

(** Truth value of a [str]. *)
Definition truthy (s : string) : bool :=
  match s with EmptyString => false | _ => true end.

Definition digit_val (c : ascii) : option Z :=
  let n := nat_of_ascii c in
  if ((48 <=? n) && (n <=? 57))%nat then Some (Z.of_nat n - 48) else None.

(** The digits of a decimal literal, most significant first: a digit, then
    digits each optionally preceded by one underscore.  [after_digit] says
    whether the previous character was a digit (so that an underscore may
    stand here); [acc] is the value read so far. *)
Fixpoint digits (s : string) (after_digit : bool) (acc : Z) : option Z :=
  match s with
  | EmptyString => if after_digit then Some acc else None
  | String c r =>
      match digit_val c with
      | Some d => digits r true (10 * acc + d)
      | None =>
          if Ascii.eqb c "_"%char && after_digit
          then match r with
               | EmptyString => None
               | String c' _ =>
                   match digit_val c' with
                   | Some _ => digits r false acc
                   | None => None
                   end
               end
          else None
      end
  end.

(** The white space that [int] skips at either end of its argument: TAB..CR
    and SPACE, and NEL (0x85) and NBSP (0xA0), which it turns into spaces
    first; unlike [str.strip] it leaves FS..US (0x1C..0x1F) in place, and
    then refuses them. *)
Definition int_space (c : ascii) : bool :=
  let n := nat_of_ascii c in
  ((9 <=? n) && (n <=? 13) || (n =? 32) || (n =? 133) || (n =? 160))%nat.

Fixpoint int_lstrip (s : string) : string :=
  match s with
  | EmptyString => EmptyString
  | String c r => if int_space c then int_lstrip r else s
  end.

Fixpoint int_rstrip (s : string) : string :=
  match s with
  | EmptyString => EmptyString
  | String c r =>
      match int_rstrip r with
      | EmptyString => if int_space c then EmptyString else String c EmptyString
      | r' => String c r'
      end
  end.

(** The number of digits of a literal, leading zeros included. *)
Fixpoint digit_count (s : string) : Z :=
  match s with
  | EmptyString => 0
  | String c r =>
      (match digit_val c with Some _ => 1 | None => 0 end) + digit_count r
  end.

(** [sys.get_int_max_str_digits()], at its default. *)
Definition max_str_digits : Z := 4300.

(** [int(s)] (base 10): white space around, an optional sign, digits, and
    not more of them than the interpreter allows; [None] is
    [ValueError]. *)
Definition to_int (s : string) : option Z :=
  let t := int_rstrip (int_lstrip s) in
  if max_str_digits <? digit_count t then None
  else match t with
       | String "+"%char r => digits r false 0
       | String "-"%char r => Z.opp <$> digits r false 0
       | t => digits t false 0
       end.

End PyStr.

(** [os.path.join(a, b)] of [posixpath]. *)
Definition path_join (a b : string) : string :=
  if PyStr.startswith "/" b then b
  else match a with
       | EmptyString => b
       | _ => if PyStr.contains_char "/"%char (String.substring (String.length a - 1) 1 a)
              then a ++ b else a ++ "/" ++ b
       end.

(* ===================================================================== *)
(** * [normalize_base_model_id] *)
(* ===================================================================== *)

(** The literal [aliases] dictionary. *)
Definition aliases : gmap string string :=
  list_to_map
    [ ("llama3:8b", "meta-llama/Meta-Llama-3-8B-Instruct");
      ("llama3:instruct", "meta-llama/Meta-Llama-3-8B-Instruct");
      ("llama3.2:1b-instruct", "meta-llama/Llama-3.2-1B-Instruct");
      ("llama3.2:3b-instruct", "meta-llama/Llama-3.2-3B-Instruct");
      ("qwen2.5:0.5b", "Qwen/Qwen2.5-0.5B-Instruct");
      ("qwen2.5:1.5b", "Qwen/Qwen2.5-1.5B-Instruct") ].

(** [key = s.strip().lower().replace(" ", "")] *)
Definition alias_key (s : string) : string :=
  PyStr.remove_spaces (PyStr.lower (PyStr.strip s)).

Definition normalize_base_model_id (s : string) : string :=
  if negb (PyStr.truthy s) then s
  else default (PyStr.strip s) (aliases !! alias_key s).

(** ** The resolver as the specification words it *)

Definition chars (s : string) : list ascii := list_ascii_of_string s.

Definition blank (l : list ascii) : Prop :=
  List.Forall (fun c => PyStr.isspace c = true) l.

(** [t] is [s] without the white space at its two ends. *)
Definition trimmed (s t : string) : Prop :=
  exists pre post,
    chars s = (pre ++ chars t ++ post)%list /\ blank pre /\ blank post /\
    (forall c, head (chars t) = Some c -> PyStr.isspace c = false) /\
    (forall c, last (chars t) = Some c -> PyStr.isspace c = false).

(** The key of a trimmed name: its characters that are not spaces, in
    lower case. *)
Definition spec_key (t : string) : list ascii :=
  map PyStr.lower_char
      (List.filter (fun c => negb (Ascii.eqb c " ")) (chars t)).

(* ===================================================================== *)
(** * Checkpoint ordering *)
(* ===================================================================== *)

(** The sort key [lambda n: int(n.split("-")[-1]) if "-" in n else -1];
    [None] stands for the [ValueError] of [int]. *)
Definition checkpoint_key (n : string) : option Z :=
  if PyStr.contains_char "-" n
  then PyStr.to_int (PyStr.last_field "-" n)
  else Some (-1).

(** [list.sort(key=...)] is stable: it orders the entries by key and keeps
    entries of equal key in their order.  Insertion from the right does
    the same. *)
Fixpoint insert_keyed (x : Z * string) (l : list (Z * string)) : list (Z * string) :=
  match l with
  | [] => [x]
  | y :: r => if x.1 <=? y.1 then x :: y :: r else y :: insert_keyed x r
  end.

Fixpoint sort_keyed (l : list (Z * string)) : list (Z * string) :=
  match l with
  | [] => []
  | x :: r => insert_keyed x (sort_keyed r)
  end.

(** [[d for d in entries if d.startswith("checkpoint-")]] *)
Definition checkpoint_entries (entries : list string) : list string :=
  List.filter (PyStr.startswith "checkpoint-") entries.

(** The keyed entries are in the order of their keys. *)
Definition keys_sorted (l : list (Z * string)) : Prop :=
  StronglySorted (fun a b => a.1 <= b.1) l.

(** [n] is an entry of [ckpts] whose key is the greatest. *)
Definition is_latest (ckpts : list string) (n : string) : Prop :=
  In n ckpts /\
  exists k, checkpoint_key n = Some k /\
    forall m, In m ckpts -> exists km, checkpoint_key m = Some km /\ km <= k.

(** One pass from the right over the keyed entries that keeps an entry
    only when its key is strictly greater than every key after it: the
    entry of greatest key, and of those the one that comes last. *)
Fixpoint last_greatest (l : list (Z * string)) : option (Z * string) :=
  match l with
  | [] => None
  | x :: r =>
      match last_greatest r with
      | None => Some x
      | Some b => if b.1 <? x.1 then Some x else Some b
      end
  end.

(** ** Checkpoints as the specification has them *)

(** The number that a string of decimal digits denotes. *)
Fixpoint decimal_from (acc : Z) (s : string) : option Z :=
  match s with
  | EmptyString => Some acc
  | String c r =>
      let n := nat_of_ascii c in
      if ((48 <=? n) && (n <=? 57))%nat
      then decimal_from (10 * acc + (Z.of_nat n - 48)) r
      else None
  end.

Definition decimal (s : string) : option Z :=
  match s with
  | EmptyString => None
  | _ => decimal_from 0 s
  end.

(** [n] is a checkpoint by its name. *)
Definition named_checkpoint (n : string) : Prop :=
  exists rest, n = "checkpoint-" ++ rest.

(** [n] is named [checkpoint-<k>], [k] written with digits only. *)
Definition numbered (n : string) (k : Z) : Prop :=
  exists ds,
    n = "checkpoint-" ++ ds /\ decimal ds = Some k /\
    Z.of_nat (String.length ds) <= PyStr.max_str_digits.

(** [n] is an entry of [entries] of the highest number. *)
Definition highest_numbered (entries : list string) (n : string) : Prop :=
  In n entries /\
  exists k, numbered n k /\
    forall m km, In m entries -> numbered m km -> km <= k.

(* ===================================================================== *)
(** * A stand-in for floating point *)
(* ===================================================================== *)

(** The sample runs need some [float]: decimals [m * 10^e], with the
    conversions of the integers and of the integer literals. *)
Module Dec.

Definition dec : Type := (Z * Z)%type.

Definition truthy (d : dec) : bool := negb (d.1 =? 0).

Definition to_int (d : dec) : string + Z :=
  inr (if 0 <=? d.2 then d.1 * 10 ^ d.2 else Z.quot d.1 (10 ^ (- d.2))).

Definition of_int (z : Z) : string + dec := inr (z, 0).

Definition of_str (s : string) : string + dec :=
  match PyStr.to_int s with
  | Some z => inr (z, 0)
  | None => inl "ValueError"
  end.

End Dec.

(* ===================================================================== *)
(** * Python values, exceptions and the built-ins the script applies *)
(* ===================================================================== *)

Section Model.

(** Binary floating point is not modelled.  A Python [float] is a value of
    the type [float]; the interpreter's conversions to and from it are
    parameters.  A conversion returns its value, or the class of the
    exception it raises ([ValueError], [OverflowError]). *)
Variable float : Type.
Variable float_truthy : float -> bool.              (* [bool(f)] *)
Variable int_of_float : float -> string + Z.        (* [int(f)] *)
Variable float_of_int : Z -> string + float.        (* [float(n)] *)
Variable float_of_str : string -> string + float.   (* [float(s)] *)

(** Values as [yaml.safe_load] and [json.loads] return them, and as
    [argparse] stores them. *)
Inductive pyval : Type :=
| VNone
| VBool (b : bool)
| VInt (z : Z)
| VFloat (f : float)
| VStr (s : string)
| VList (l : list pyval)
| VDict (d : gmap string pyval).

(** An exception (an instance of [Exception]): raised by a built-in of the
    interpreter on a value; raised by a library on what the script handed
    over; or raised by the platform, with the text that [str(e)] returns. *)
Inductive exn : Type :=
| BuiltinError (cls : string) (op : string) (arg : pyval)
| LibraryError (cls : string) (op : string)
| PlatformError (cls : string) (text : string).

Definition result (A : Type) : Type := (exn + A)%type.


Abbreviation ok := inr (only parsing).
Abbreviation fail := inl (only parsing).

Definition rbind {A B} (r : result A) (f : A -> result B) : result B :=
  match r with
  | inl e => inl e
  | inr a => f a
  end.

(** The result of a conversion [op] applied to [arg]. *)
Definition converted {A} (op : string) (arg : pyval) (r : string + A) : result A :=
  match r with
  | inl cls => fail (BuiltinError cls op arg)
  | inr a => ok a
  end.

(** Truth value: [None], [False], zero, and the empty string, list and dict
    are false. *)
Definition truthy (v : pyval) : bool :=
  match v with
  | VNone => false
  | VBool b => b
  | VInt z => negb (z =? 0)
  | VFloat f => float_truthy f
  | VStr s => PyStr.truthy s
  | VList l => match l with [] => false | _ => true end
  | VDict d => negb (bool_decide (d = ∅))
  end.

(** [a or b] *)
Definition py_or (a b : pyval) : pyval := if truthy a then a else b.

(** [int(v)] *)
Definition py_int (v : pyval) : result Z :=
  match v with
  | VInt z => ok z
  | VBool b => ok (if b then 1 else 0)
  | VFloat f => converted "int" v (int_of_float f)
  | VStr s =>
      match PyStr.to_int s with
      | Some z => ok z
      | None => fail (BuiltinError "ValueError" "int" v)
      end
  | _ => fail (BuiltinError "TypeError" "int" v)
  end.

(** [float(v)] *)
Definition py_float (v : pyval) : result float :=
  match v with
  | VFloat f => ok f
  | VInt z => converted "float" v (float_of_int z)
  | VBool b => converted "float" v (float_of_int (if b then 1 else 0))
  | VStr s => converted "float" v (float_of_str s)
  | _ => fail (BuiltinError "TypeError" "float" v)
  end.

(** [v.strip()]: only a [str] has the method. *)
Definition py_strip (v : pyval) : result string :=
  match v with
  | VStr s => ok (PyStr.strip s)
  | _ => fail (BuiltinError "AttributeError" "strip" v)
  end.

(** [v.get(k)] and [v.get(k, dflt)]: only a [dict] has the method. *)
Definition py_get (v : pyval) (k : string) (dflt : pyval) : result pyval :=
  match v with
  | VDict d => ok (default dflt (d !! k))
  | _ => fail (BuiltinError "AttributeError" "get" v)
  end.

(** [os.path.join(v, b)]: [os.fspath] refuses what is not a path. *)
Definition py_path_join (v : pyval) (b : string) : result string :=
  match v with
  | VStr a => ok (path_join a b)
  | _ => fail (BuiltinError "TypeError" "join" v)
  end.

Definition of_opt_str (o : option string) : pyval :=
  match o with Some s => VStr s | None => VNone end.

(** [list.sort] calls the key function on every entry, in order, before
    it compares anything; the first failure is raised. *)
Fixpoint keyed (l : list string) : result (list (Z * string)) :=
  match l with
  | [] => ok []
  | n :: r =>
      match checkpoint_key n with
      | None => fail (BuiltinError "ValueError" "int" (VStr (PyStr.last_field "-" n)))
      | Some k => rbind (keyed r) (fun kr => ok ((k, n) :: kr))
      end
  end.

(** Lines 219-224 of [main], on the entries that [os.listdir(hf_out)]
    returned: the path of the checkpoint to resume from, if any. *)
Definition latest_checkpoint (hf_out : string) (entries : list string)
  : result (option string) :=
  match checkpoint_entries entries with
  | [] => ok None
  | ckpts =>
      rbind (keyed ckpts) (fun ks =>
        ok (Some (path_join hf_out (List.last (map snd (sort_keyed ks)) ""))))
  end.

(* ===================================================================== *)
(** * The platform: calls, answers, programs *)
(* ===================================================================== *)

(** Objects of the libraries are handles. *)
Definition handle : Type := nat.

(** A tokenizer, as far as the script looks into it. *)
Record tokenizer : Type := Tokenizer {
  tok_handle : handle;
  pad_token : option string;
  eos_token : option string
}.

(** What a call of the tokenizer on a batch of texts returns. *)
Record encoding : Type := Encoding {
  enc_input_ids : list (list Z);
  enc_attention_mask : list (list Z)
}.

(** One row of the tokenized dataset. *)
Record example : Type := Example {
  input_ids : list Z;
  attention_mask : list Z;
  labels : list Z
}.

(** JSON written by the script. [JDec] is a decimal literal of the source. *)
Inductive jsonv : Type :=
| JStr (s : string)
| JInt (z : Z)
| JBool (b : bool)
| JDec (literal : string)
| JList (l : list jsonv).

(** An f-string before it is rendered: literal text, [str] of a value,
    [str] of an exception. *)
Inductive frag : Type :=
| Lit (s : string)
| Val (v : pyval)
| ErrText (e : exn).

Definition msg : Type := list frag.

(** The operations the script asks of its platform. *)
Inductive call : Type :=
| CImport (module : string)
| CLoadYaml (path : string)                (* [open] and [yaml.safe_load] *)
| CExists (p : pyval)                      (* [os.path.exists] *)
| CIsdir (p : string)                      (* [os.path.isdir] *)
| CListdir (p : string)                    (* [os.listdir] *)
| CMakedirs (p : pyval)                    (* [os.makedirs(p, exist_ok=True)] *)
| CGetenv (name : string)                  (* [os.getenv(name, None)] *)
| CCpuCount                                (* [os.cpu_count()] *)
| CCudaAvailable                           (* [torch.cuda.is_available()] *)
| CSetNumThreads (n : Z)                   (* [torch.set_num_threads] *)
| CReadLines (p : pyval)                   (* [open(p)]; what the file yields *)
| CJsonLoads (s : string)                  (* [json.loads] *)
| CLoadTokenizer (base : string) (token : option string)
| CDatasetFromList (texts : list string)   (* [datasets.Dataset.from_list] *)
| CMapNoRows                               (* [Dataset.map] on no rows *)
| CTokenize (tk : tokenizer) (texts : list string)
            (truncation : bool) (padding : string) (max_length : Z)
| CLoadModel (base : string) (token : option string) (float32 : bool)
| CSetPadTokenId (model : handle) (tk : tokenizer)
| CGradientCheckpointing (model : handle)
| CLoraConfig
| CGetPeftModel (model lora : handle)
| CTrainingArguments (output_dir : string) (bsz epochs : Z) (lr : float)
                     (use_cuda : bool)
| CDataCollator (tk : tokenizer)
| CTrainer (model targs : handle) (train_ds : list example) (collator : handle)
| CTrain (trainer : handle) (resume_from_checkpoint : option string)
| CSavePretrained (model : handle) (outdir : string)
| CJsonDump (path : string) (obj : list (string * jsonv))
| CWriteText (path : string) (text : string)   (* [open(path, "w")], [write] *)
| CAppendText (path : string) (text : msg).    (* [open(path, "a")], [write] *)

Definition answer_of (c : call) : Type :=
  match c with
  | CLoadYaml _ | CJsonLoads _ => pyval
  | CExists _ | CIsdir _ | CCudaAvailable => bool
  | CListdir _ => list string
  | CReadLines _ => (list string * option exn)%type
  | CGetenv _ => option string
  | CCpuCount => option Z
  | CLoadTokenizer _ _ => tokenizer
  | CTokenize _ _ _ _ _ => encoding
  | CLoadModel _ _ _ | CLoraConfig | CGetPeftModel _ _
  | CTrainingArguments _ _ _ _ _ | CDataCollator _ | CTrainer _ _ _ _ => handle
  | _ => unit
  end.

(** A program: returns, raises, prints a line, or asks the platform and
    goes on with the answer, which may be an exception. *)
Inductive prog (A : Type) : Type :=
| Ret (a : A)
| Raise (e : exn)
| Log (m : msg) (k : prog A)
| Call (c : call) (k : result (answer_of c) -> prog A).

Arguments Ret {A} a.
Arguments Raise {A} e.
Arguments Log {A} m k.
Arguments Call {A} c k.

Fixpoint bind {A B} (p : prog A) (f : A -> prog B) : prog B :=
  match p with
  | Ret a => f a
  | Raise e => Raise e
  | Log m k => Log m (bind k f)
  | Call c k => Call c (fun r => bind (k r) f)
  end.

(** [try: p except Exception as e: h e] *)
Fixpoint catch {A} (p : prog A) (h : exn -> prog A) : prog A :=
  match p with
  | Ret a => Ret a
  | Raise e => h e
  | Log m k => Log m (catch k h)
  | Call c k => Call c (fun r => catch (k r) h)
  end.

(** A call whose exception propagates. *)
Definition call_ (c : call) : prog (answer_of c) :=
  Call c (fun r => match r with inl e => Raise e | inr a => Ret a end).

(** A call inside [try: ... except Exception: pass]. *)
Definition try_call (c : call) : prog (result (answer_of c)) := Call c Ret.

Definition log (m : msg) : prog unit := Log m (Ret tt).

Definition lift {A} (r : result A) : prog A :=
  match r with inl e => Raise e | inr a => Ret a end.

Notation "x <- p ; q" := (bind p (fun x => q))
  (at level 100, p at next level, right associativity, only parsing).
Notation "p ;; q" := (bind p (fun _ => q))
  (at level 100, right associativity, only parsing).

Fixpoint mapM {A B} (f : A -> prog B) (l : list A) : prog (list B) :=
  match l with
  | [] => Ret []
  | x :: r => y <- f x; ys <- mapM f r; Ret (y :: ys)
  end.

(* ===================================================================== *)
(** * [load_jsonl_rows] and [build_dataset] *)
(* ===================================================================== *)

Definition nl : string := String "010"%char EmptyString.   (* "\n" *)
Definition dq : string := String "034"%char EmptyString.   (* the double quote *)

(** [open] answers with what iterating over the file yields: its lines
    and, when the iteration ends early, the error that ends it.  The loop
    takes the lines one at a time and parses each before it asks for the
    next, so an error of [json.loads] is raised before an error of the file
    that lies further on, and the error of the file after the lines before
    it have been parsed. *)
Definition load_jsonl_rows (path : pyval) : prog (list pyval) :=
  f <- call_ (CReadLines path);
  rows <- mapM (fun s => call_ (CJsonLoads s))
               (List.filter PyStr.truthy (map PyStr.strip f.1));
  match f.2 with
  | Some e => Raise e
  | None => Ret rows
  end.

Definition to_text (ex : pyval) : result string :=
  rbind (py_get ex "prompt" VNone) (fun p =>
  rbind (py_strip (py_or p (VStr ""))) (fun prompt =>
  rbind (py_get ex "response" VNone) (fun r =>
  rbind (py_strip (py_or r (VStr ""))) (fun resp =>
  ok ("User: " ++ prompt ++ nl ++ "Assistant: " ++ resp))))).

Fixpoint map_result {A B} (f : A -> result B) (l : list A) : result (list B) :=
  match l with
  | [] => ok []
  | x :: r => rbind (f x) (fun y => rbind (map_result f r) (fun ys => ok (y :: ys)))
  end.

(** The rows of a batch, from its columns; the dataset library refuses
    columns of different lengths. *)
Fixpoint rows_of (ids mask lbl : list (list Z)) : result (list example) :=
  match ids, mask, lbl with
  | [], [], [] => ok []
  | i :: ids', m :: mask', l :: lbl' =>
      rbind (rows_of ids' mask' lbl') (fun r => ok (Example i m l :: r))
  | _, _, _ => fail (LibraryError "ArrowInvalid" "Dataset.map")
  end.

(** The inner function [tok] of [build_dataset], on one batch. *)
Definition tok (tk : tokenizer) (max_length : Z) (texts : list string)
  : prog (list example) :=
  out <- call_ (CTokenize tk texts true "max_length" max_length);
  let out_labels := enc_input_ids out in      (* [out["input_ids"].copy()] *)
  lift (rows_of (enc_input_ids out) (enc_attention_mask out) out_labels).

(** [Dataset.map(..., batched=True)] hands over 1000 rows at a time. *)
Fixpoint batches_fuel {A} (fuel n : nat) (l : list A) : list (list A) :=
  match fuel with
  | O => []
  | S f =>
      match l with
      | [] => []
      | _ => take n l :: batches_fuel f n (drop n l)
      end
  end.

Definition batches {A} (n : nat) (l : list A) : list (list A) :=
  batches_fuel (length l) n l.

(** [ds.map(tok, batched=True, remove_columns=["text"])].  On a dataset
    without rows [tok] is never called and the dataset has no "text"
    column; what the library then does is the platform's answer to
    [CMapNoRows]. *)
Definition build_dataset (jsonl_path : pyval) (tk : tokenizer) (max_length : Z)
  : prog (list example) :=
  call_ (CImport "datasets");;
  rows <- load_jsonl_rows jsonl_path;
  texts <- lift (map_result to_text rows);
  call_ (CDatasetFromList texts);;
  match texts with
  | [] => call_ CMapNoRows;; Ret []
  | _ => bs <- mapM (tok tk max_length) (batches 1000 texts); Ret (concat bs)
  end.

(* ===================================================================== *)
(** * Configuration: [parse_args] and the merge at the head of [main] *)
(* ===================================================================== *)

(** The namespace that [parse_args] returns. *)
Record args : Type := Args {
  arg_config : option string;
  arg_data : option string;
  arg_base : string;
  arg_outdir : string;
  arg_epochs : Z;
  arg_lr : float;
  arg_bsz : Z;
  arg_max_length : Z;
  arg_resume : string
}.

(** The choices of [--resume]. *)
Definition resume_choices : list string := ["auto"; "never"; "force"].

(** The values [main] works with after the merge. *)
Record config : Type := Config {
  data_path : pyval;
  base_model_raw : string;
  epochs : Z;
  lr : float;
  outdir : pyval;
  bsz : Z;
  max_length : Z
}.

(** [int(cfg.get("batch_size", cfg.get("bsz", args.bsz)))] *)
Definition resolve_bsz (cfg : pyval) (a : args) : result Z :=
  rbind (py_get cfg "bsz" (VInt (arg_bsz a))) (fun inner =>
  rbind (py_get cfg "batch_size" inner) py_int).

(** Lines 104-110: the branch with a configuration file. *)
Definition merge_config (cfg : pyval) (a : args) : result config :=
  rbind (py_get cfg "dataset_path" VNone) (fun d =>
  let data_path := py_or d (of_opt_str (arg_data a)) in
  rbind (py_get cfg "base_model" VNone) (fun b =>
  rbind (py_strip (py_or b (VStr (arg_base a)))) (fun base_model_raw =>
  rbind (py_get cfg "epochs" (VInt (arg_epochs a))) (fun e =>
  rbind (py_int e) (fun epochs =>
  rbind (py_get cfg "learning_rate" (VFloat (arg_lr a))) (fun l =>
  rbind (py_float l) (fun lr =>
  rbind (py_get cfg "output_dir" (VStr (arg_outdir a))) (fun outdir =>
  rbind (resolve_bsz cfg a) (fun bsz =>
  rbind (py_get cfg "max_length" (VInt (arg_max_length a))) (fun m =>
  rbind (py_int m) (fun max_length =>
  ok (Config data_path base_model_raw epochs lr outdir bsz max_length)))))))))))).

(** Lines 112-114: the branch without one. *)
Definition args_config (a : args) : config :=
  Config (of_opt_str (arg_data a)) (PyStr.strip (arg_base a)) (arg_epochs a)
         (arg_lr a) (VStr (arg_outdir a)) (arg_bsz a) (arg_max_length a).

(** [if args.config:] *)
Definition config_file (a : args) : option string :=
  match arg_config a with
  | Some p => if PyStr.truthy p then Some p else None
  | None => None
  end.

(** [load_yaml_cfg]: [yaml.safe_load(f) or {}] *)
Definition load_yaml_cfg (path : string) : prog pyval :=
  v <- call_ (CLoadYaml path);
  Ret (py_or v (VDict ∅)).

Definition resolve_config (a : args) : prog config :=
  match config_file a with
  | Some p => cfg <- load_yaml_cfg p; lift (merge_config cfg a)
  | None => Ret (args_config a)
  end.

(* ===================================================================== *)
(** * [main] *)
(* ===================================================================== *)

Definition lora_targets : list jsonv :=
  [JStr "q_proj"; JStr "k_proj"; JStr "v_proj"; JStr "o_proj";
   JStr "gate_proj"; JStr "up_proj"; JStr "down_proj"].

(** The adapter configuration written when [save_pretrained] left none. *)
Definition fallback_config (base_model : string) : list (string * jsonv) :=
  [ ("base_model_name_or_path", JStr base_model);
    ("bias", JStr "none");
    ("inference_mode", JBool true);
    ("lora_alpha", JInt 16); ("lora_dropout", JDec "0.05");
    ("peft_type", JStr "LORA");
    ("r", JInt 8); ("target_modules", JList lora_targets);
    ("task_type", JStr "CAUSAL_LM") ].

(** The base model named on the first line of the Modelfile. *)
Definition modelfile_from : string := "llama3:8b".

(** The text written to the Modelfile (lines 256-263). *)
Definition modelfile_text : string :=
  "FROM " ++ modelfile_from ++ nl ++
  "ADAPTER ./adapter_model.safetensors" ++ nl ++ nl ++
  "SYSTEM " ++ dq ++ "You are a concise E-commerce Returns & Refunds assistant. Stick strictly to policy." ++ dq ++ nl ++ nl ++
  "TEMPLATE " ++ dq ++ "User: {{ {{ .Prompt }} }}" ++ nl ++ "Assistant:" ++ dq ++ nl ++ nl ++
  "PARAMETER temperature 0.2" ++ nl ++
  "PARAMETER num_predict 256" ++ nl.

Definition rule : frag := Lit (PyStr.times "=" 53).

Definition msg_dataset_not_found (c : config) : msg :=
  [Lit "[ERROR] dataset_path not found: "; Val (data_path c)].

Definition msg_adapter_missing : msg :=
  [Lit "[ERROR] adapter_model.safetensors not found after save_pretrained."].

Definition msg_resume (ckpt : string) : msg :=
  [Lit "[resume] Found checkpoint: "; Val (VStr ckpt)].

Definition banner (c : config) (base_model : string) : prog unit :=
  log [rule];;
  log [Lit "[train.py] LoRA fine-tune - Meta-Llama-3 family"];;
  log [Lit " dataset_path : "; Val (data_path c)];;
  log [Lit " base_model   : "; Val (VStr base_model)];;
  log [Lit " epochs       : "; Val (VInt (epochs c))];;
  log [Lit " learning_rate: "; Val (VFloat (lr c))];;
  log [Lit " batch_size   : "; Val (VInt (bsz c))];;
  log [Lit " max_length   : "; Val (VInt (max_length c))];;
  log [Lit " output_dir   : "; Val (outdir c)];;
  log [rule].

(** Lines 149-152: [torch.set_num_threads(max(1, os.cpu_count() or 1))]
    inside [try: ... except Exception: pass]. *)
Definition set_threads : prog unit :=
  n <- try_call CCpuCount;
  match n with
  | inl _ => Ret tt
  | inr n => try_call (CSetNumThreads (Z.max 1 (default 1 (if n is Some 0 then None else n))));; Ret tt
  end.

(** Line 148: only without CUDA. *)
Definition cap_threads (cuda : bool) : prog unit :=
  if negb cuda then set_threads else Ret tt.

(** Lines 166-167 *)
Definition fix_pad_token (tk : tokenizer) : tokenizer :=
  match pad_token tk with
  | None => Tokenizer (tok_handle tk) (eos_token tk) (eos_token tk)
  | Some _ => tk
  end.

(** Lines 218-224: look for a checkpoint to resume from. *)
Definition find_checkpoint (hf_out : string) : prog (option string) :=
  isdir <- call_ (CIsdir hf_out);
  if isdir : bool then
    entries <- call_ (CListdir hf_out);
    lift (latest_checkpoint hf_out entries)
  else Ret None.

(** Lines 226-230 *)
Definition train (trainer : handle) (ckpt : option string) : prog unit :=
  match ckpt with
  | Some p =>
      if PyStr.truthy p
      then log (msg_resume p);; call_ (CTrain trainer (Some p))
      else call_ (CTrain trainer None)
  | None => call_ (CTrain trainer None)
  end.

(** Lines 232-266: save the adapter, check it, write the descriptors. *)
Definition export (c : config) (base_model : string) (model : handle) : prog Z :=
  log [Lit "STEP 6/6: Saving LoRA adapter..."];;
  match outdir c with
  | VStr od =>
      call_ (CSavePretrained model od);;
      let adapter := path_join od "adapter_model.safetensors" in
      let cfg := path_join od "adapter_config.json" in
      have_adapter <- call_ (CExists (VStr adapter));
      if negb have_adapter then log msg_adapter_missing;; Ret 1
      else
        have_cfg <- call_ (CExists (VStr cfg));
        (if negb have_cfg then call_ (CJsonDump cfg (fallback_config base_model))
         else Ret tt);;
        call_ (CWriteText (path_join od "Modelfile") modelfile_text);;
        log [Lit "[OK] Artifacts ready in: "; Val (outdir c)];;
        Ret 0
  | v => Raise (BuiltinError "TypeError" "join" v)
  end.

(** Lines 128-230, once the dataset path has been accepted: everything up
    to and including the training call; returns the adapted model. *)
Definition fit (c : config) (base_model : string) : prog handle :=
  call_ (CMakedirs (outdir c));;
  hf_out <- lift (py_path_join (outdir c) "hf_out");
  call_ (CMakedirs (VStr hf_out));;
  banner c base_model;;
  call_ (CImport "torch");;
  cuda <- call_ CCudaAvailable;
  cap_threads cuda;;
  call_ (CImport "transformers");;
  call_ (CImport "peft");;
  log [Lit "STEP 1/6: Loading tokenizer..."];;
  token <- call_ (CGetenv "HUGGINGFACE_HUB_TOKEN");
  tk0 <- call_ (CLoadTokenizer base_model token);
  let tk := fix_pad_token tk0 in
  log [Lit "STEP 2/6: Building & tokenizing dataset..."];;
  train_ds <- build_dataset (data_path c) tk (max_length c);
  log [Lit "STEP 3/6: Loading base model (this can take a while the first time)..."];;
  token' <- call_ (CGetenv "HUGGINGFACE_HUB_TOKEN");
  cuda' <- call_ CCudaAvailable;
  model0 <- call_ (CLoadModel base_model token' (negb cuda'));
  call_ (CSetPadTokenId model0 tk);;
  try_call (CGradientCheckpointing model0);;
  log [Lit "STEP 4/6: Applying LoRA adapters..."];;
  lora_cfg <- call_ CLoraConfig;
  model <- call_ (CGetPeftModel model0 lora_cfg);
  log [Lit "STEP 5/6: Starting training..."];;
  use_cuda <- call_ CCudaAvailable;
  args_train <- call_ (CTrainingArguments hf_out (bsz c) (epochs c) (lr c) use_cuda);
  collator <- call_ (CDataCollator tk);
  trainer <- call_ (CTrainer model args_train train_ds collator);
  ckpt <- find_checkpoint hf_out;
  train trainer ckpt;;
  Ret model.

Definition pipeline (c : config) (base_model : string) : prog Z :=
  model <- fit c base_model;
  export c base_model model.

Definition dataset_not_found (c : config) : prog Z :=
  log (msg_dataset_not_found c);; Ret 1.

(** [main], on the namespace [a] that [parse_args] returned.  The warning
    filter of line 99 changes nothing below; [print] is taken to succeed. *)
Definition main (a : args) : prog Z :=
  c <- resolve_config a;
  let base_model := normalize_base_model_id (base_model_raw c) in
  log [Lit " base_model   : "; Val (VStr (base_model_raw c)); Lit "  ->  ";
       Val (VStr base_model)];;
  if negb (truthy (data_path c)) then dataset_not_found c
  else
    found <- call_ (CExists (data_path c));
    if negb found then dataset_not_found c
    else pipeline c base_model.

(* ===================================================================== *)
(** * The script: [if __name__ == "__main__":] *)
(* ===================================================================== *)

(** How the process ends: [sys.exit(code)], or an exception nobody caught. *)
Inductive outcome : Type :=
| SysExit (code : Z)
| Uncaught (e : exn).

(** The status the interpreter hands to the operating system: the code of
    [sys.exit], and 1 after the traceback of an uncaught exception. *)
Definition exit_status (o : outcome) : Z :=
  match o with
  | SysExit code => code
  | Uncaught _ => 1
  end.

(** Lines 275-279: the value that follows the first ["--outdir"] of
    [sys.argv]. *)
Fixpoint scan_outdir (argv : list string) : option string :=
  match argv with
  | [] => None
  | a :: rest =>
      if String.eqb a "--outdir"
      then match rest with
           | v :: _ => Some v
           | [] => scan_outdir rest
           end
      else scan_outdir rest
  end.

(** Lines 273-285: the marker, inside [try: ... except Exception: pass]. *)
Definition write_marker (argv : list string) (e : exn) : prog unit :=
  match scan_outdir argv with
  | Some d =>
      if PyStr.truthy d then
        made <- try_call (CMakedirs (VStr d));
        match made with
        | inl _ => Ret tt
        | inr _ =>
            try_call (CAppendText (path_join d "error.txt") [ErrText e; Lit nl]);;
            Ret tt
        end
      else Ret tt
  | None => Ret tt
  end.

Definition script (argv : list string) (a : args) : prog outcome :=
  catch (code <- main a; Ret (SysExit code))
        (fun e => write_marker argv e;; Ret (Uncaught e)).

(** What [parse_args()] (line 101) does with the command line: it returns
    the namespace, or [argparse] leaves through [sys.exit], with 2 on a
    command line that it rejects and with 0 after [--help]. *)
Inductive command_line : Type :=
| Namespace (a : args)
| ParserExit (code : Z).

(** The process.  [SystemExit] is not an [Exception]: the exit of the
    parser passes the handler, and nothing else is run. *)
Definition process (argv : list string) (p : command_line) : prog outcome :=
  match p with
  | Namespace a => script argv a
  | ParserExit code => Ret (SysExit code)
  end.

(* ===================================================================== *)
(** * Events and traces *)
(* ===================================================================== *)

(** What a run leaves behind: the lines printed and the calls made, each
    with the platform's answer. *)
Inductive event : Type :=
| EvLog (m : msg)
| EvCall (c : call) (r : result (answer_of c)).

Definition trace : Type := list event.
Bind Scope list_scope with trace.

(** ** What can be read off a trace *)

Definition log_of (ev : event) : option msg :=
  match ev with EvLog m => Some m | _ => None end.

(** [os.path.exists(p)] answered [b]. *)
Definition exists_of (ev : event) : option (pyval * bool) :=
  match ev with
  | EvCall c r =>
      match c return result (answer_of c) -> option (pyval * bool) with
      | CExists p => fun r => match r with inr b => Some (p, b) | inl _ => None end
      | _ => fun _ => None
      end r
  | _ => None
  end.

(** [os.listdir(p)] answered [entries]. *)
Definition listing_of (ev : event) : option (string * list string) :=
  match ev with
  | EvCall c r =>
      match c return result (answer_of c) -> option (string * list string) with
      | CListdir p => fun r => match r with inr l => Some (p, l) | inl _ => None end
      | _ => fun _ => None
      end r
  | _ => None
  end.

(** [trainer.train] was called, with this [resume_from_checkpoint]. *)
Definition train_of (ev : event) : option (option string) :=
  match ev with
  | EvCall (CTrain _ resume) _ => Some resume
  | _ => None
  end.

(** [from_pretrained] of the model was called on this identifier. *)
Definition model_of (ev : event) : option string :=
  match ev with
  | EvCall (CLoadModel base _ _) _ => Some base
  | _ => None
  end.

(** [save_pretrained(outdir)] returned. *)
Definition save_of (ev : event) : option string :=
  match ev with
  | EvCall c r =>
      match c return result (answer_of c) -> option string with
      | CSavePretrained _ od => fun r => match r with inr _ => Some od | inl _ => None end
      | _ => fun _ => None
      end r
  | _ => None
  end.

(** A text file was written. *)
Definition write_of (ev : event) : option (string * string) :=
  match ev with
  | EvCall c r =>
      match c return result (answer_of c) -> option (string * string) with
      | CWriteText p t => fun r => match r with inr _ => Some (p, t) | inl _ => None end
      | _ => fun _ => None
      end r
  | _ => None
  end.

(** The dataset file was read to its end: its path and its lines. *)
Definition read_of (ev : event) : option (pyval * list string) :=
  match ev with
  | EvCall c r =>
      match c return result (answer_of c) -> option (pyval * list string) with
      | CReadLines p =>
          fun r => match r with inr (l, None) => Some (p, l) | _ => None end
      | _ => fun _ => None
      end r
  | _ => None
  end.

(** The trainer was built on this dataset. *)
Definition trainer_of (ev : event) : option (list example) :=
  match ev with
  | EvCall (CTrainer _ _ ds _) _ => Some ds
  | _ => None
  end.

(** The events that [f] picks, in order. *)
Fixpoint pick {X} (f : event -> option X) (t : trace) : list X :=
  match t with
  | [] => []
  | ev :: r =>
      match f ev with
      | Some x => x :: pick f r
      | None => pick f r
      end
  end.

Definition logs (t : trace) : list msg := pick log_of t.
Definition exists_checks (t : trace) : list (pyval * bool) := pick exists_of t.
Definition listings (t : trace) : list (string * list string) := pick listing_of t.
Definition train_calls (t : trace) : list (option string) := pick train_of t.
Definition model_loads (t : trace) : list string := pick model_of t.
Definition saves (t : trace) : list string := pick save_of t.
Definition writes (t : trace) : list (string * string) := pick write_of t.
Definition reads (t : trace) : list (pyval * list string) := pick read_of t.
Definition trained_on (t : trace) : list (list example) := pick trainer_of t.

(** The calls that none of the projections above looks at. *)
Definition quiet_call (c : call) : bool :=
  match c with
  | CExists _ | CListdir _ | CTrain _ _ | CLoadModel _ _ _
  | CSavePretrained _ _ | CWriteText _ _ => false
  | _ => true
  end.

(** [args] with another value of [--resume]. *)
Definition with_resume (a : args) (r : string) : args :=
  Args (arg_config a) (arg_data a) (arg_base a) (arg_outdir a) (arg_epochs a)
       (arg_lr a) (arg_bsz a) (arg_max_length a) r.

(** ** Further projections *)

(** [json.loads] was called on this text. *)
Definition parse_of (ev : event) : option string :=
  match ev with
  | EvCall (CJsonLoads s) _ => Some s
  | _ => None
  end.

(** [json.loads] returned this value. *)
Definition parsed_of (ev : event) : option pyval :=
  match ev with
  | EvCall c r =>
      match c return result (answer_of c) -> option pyval with
      | CJsonLoads _ => fun r => match r with inr v => Some v | inl _ => None end
      | _ => fun _ => None
      end r
  | _ => None
  end.

(** [Dataset.from_list] was called on these texts. *)
Definition from_list_of (ev : event) : option (list string) :=
  match ev with
  | EvCall (CDatasetFromList texts) _ => Some texts
  | _ => None
  end.

(** The tokenizer was called: the batch, and the values of [truncation],
    [padding] and [max_length]. *)
Definition tokenize_of (ev : event) : option (list string * (bool * string * Z)) :=
  match ev with
  | EvCall (CTokenize _ texts truncation padding n) _ =>
      Some (texts, (truncation, padding, n))
  | _ => None
  end.

(** [os.makedirs] was called on this path. *)
Definition makedirs_of (ev : event) : option pyval :=
  match ev with
  | EvCall (CMakedirs p) _ => Some p
  | _ => None
  end.

(** [json.dump] was called: the path and the object. *)
Definition dump_of (ev : event) : option (string * list (string * jsonv)) :=
  match ev with
  | EvCall (CJsonDump p obj) _ => Some (p, obj)
  | _ => None
  end.

(** [from_pretrained] of the tokenizer was called on this identifier. *)
Definition tokenizer_of (ev : event) : option string :=
  match ev with
  | EvCall (CLoadTokenizer base _) _ => Some base
  | _ => None
  end.

(** [TrainingArguments] was called: [output_dir], batch size, epochs,
    learning rate, and the flag given to [fp16] and [dataloader_pin_memory]. *)
Definition targs_of (ev : event) : option (string * Z * Z * float * bool) :=
  match ev with
  | EvCall (CTrainingArguments od b e l cuda) _ => Some (od, b, e, l, cuda)
  | _ => None
  end.

(** [torch.set_num_threads] was called with this number. *)
Definition threads_of (ev : event) : option Z :=
  match ev with
  | EvCall (CSetNumThreads n) _ => Some n
  | _ => None
  end.

Definition thread_counts (t : trace) : list Z := pick threads_of t.

(** [os.path.isdir(p)] answered [b]. *)
Definition isdir_of (ev : event) : option (string * bool) :=
  match ev with
  | EvCall c r =>
      match c return result (answer_of c) -> option (string * bool) with
      | CIsdir p => fun r => match r with inr b => Some (p, b) | inl _ => None end
      | _ => fun _ => None
      end r
  | _ => None
  end.

Definition isdir_checks (t : trace) : list (string * bool) := pick isdir_of t.
Definition parse_calls (t : trace) : list string := pick parse_of t.
Definition parsed (t : trace) : list pyval := pick parsed_of t.
Definition from_lists (t : trace) : list (list string) := pick from_list_of t.
Definition tokenized (t : trace) : list (list string * (bool * string * Z)) :=
  pick tokenize_of t.
Definition makedirs (t : trace) : list pyval := pick makedirs_of t.
Definition dumps (t : trace) : list (string * list (string * jsonv)) :=
  pick dump_of t.
Definition tokenizer_loads (t : trace) : list string := pick tokenizer_of t.
Definition training_args (t : trace) : list (string * Z * Z * float * bool) :=
  pick targs_of t.

(** The calls of [build_dataset], of [resolve_config] and of
    [cap_threads]. *)
Definition dataset_call (c : call) : bool :=
  match c with
  | CImport _ | CReadLines _ | CJsonLoads _ | CDatasetFromList _
  | CMapNoRows | CTokenize _ _ _ _ _ => true
  | _ => false
  end.

Definition config_call (c : call) : bool :=
  match c with
  | CLoadYaml _ => true
  | _ => false
  end.

Definition thread_call (c : call) : bool :=
  match c with
  | CCpuCount | CSetNumThreads _ => true
  | _ => false
  end.

Definition parse_call (c : call) : bool :=
  match c with
  | CJsonLoads _ => true
  | _ => false
  end.

Definition load_call (c : call) : bool :=
  match c with
  | CReadLines _ | CJsonLoads _ => true
  | _ => false
  end.

Definition tokenize_call (c : call) : bool :=
  match c with
  | CTokenize _ _ _ _ _ => true
  | _ => false
  end.

(* ===================================================================== *)
(** * What the properties speak of *)
(* ===================================================================== *)

(** Where the batch size comes from: the file's [batch_size], else the
    file's [bsz], else the command line. *)
Definition batch_size_source (d : gmap string pyval) (a : args) : pyval :=
  match d !! "batch_size" with
  | Some v => v
  | None =>
      match d !! "bsz" with
      | Some v => v
      | None => VInt (arg_bsz a)
      end
  end.

Definition resume_ok (hf : string) (ls : list (string * list string))
    (resume : option string) : Prop :=
  match resume with
  | Some p =>
      exists entries n,
        ls = [(hf, entries)] /\ p = path_join hf n /\
        is_latest (checkpoint_entries entries) n
  | None =>
      ls = [] \/ exists entries, ls = [(hf, entries)] /\ checkpoint_entries entries = []
  end.

Definition fit_post (c : config) (bm : string)
    (r : result handle) (t : trace) : Prop :=
  exists_checks t = [] /\ saves t = [] /\ writes t = [] /\
  (forall resume, In resume (train_calls t) ->
     exists od, outdir c = VStr od /\
       resume_ok (path_join od "hf_out") (listings t) resume) /\
  (forall m, r = inr m -> model_loads t = [bm]).

(** The path of the adapter weights under [od]. *)
Definition adapter_path (od : string) : string :=
  path_join od "adapter_model.safetensors".

(** What a run of [export] leaves in the trace. *)
Definition export_post (c : config) (r : result Z) (t : trace) : Prop :=
  train_calls t = [] /\ listings t = [] /\ model_loads t = [] /\
  match r with
  | inr code =>
      exists od, outdir c = VStr od /\ saves t = [od] /\
        ((code = 1 /\
          exists_checks t = [(VStr (adapter_path od), false)] /\
          writes t = [] /\
          List.last (logs t) [] = msg_adapter_missing)
         \/
         (code = 0 /\
          (exists b, exists_checks t =
             [(VStr (adapter_path od), true);
              (VStr (path_join od "adapter_config.json"), b)]) /\
          writes t = [(path_join od "Modelfile", modelfile_text)]))
  | inl e => writes t = [] /\ forall p, exists_checks t <> [(p, false)]
  end.

(** The Modelfile was written. *)
Definition completed_in (t : trace) : Prop :=
  exists od, writes t = [(path_join od "Modelfile", modelfile_text)].

(** The run ends like this: [save_pretrained] returned, then
    [os.path.exists] denied the adapter weights in the directory just saved
    to, then the error was printed. *)
Definition adapter_missing_after_save (t : trace) : Prop :=
  exists pre m od u,
    t = (pre ++ [EvCall (CSavePretrained m od) (inr u);
                 EvCall (CExists (VStr (adapter_path od))) (inr false);
                 EvLog msg_adapter_missing])%list.

(** The command line holds ["--outdir"] followed by [d], and no
    ["--outdir"] before it. *)
Definition outdir_flag (argv : list string) (d : string) : Prop :=
  exists pre post,
    argv = (pre ++ "--outdir" :: d :: post)%list /\ ~ In "--outdir" pre.

(** What the training call was given, as the trace shows it: [hf] was
    asked for, and when it is a directory its entries were listed and
    searched. *)
Definition resume_as_found (hf : string) (t : trace) (resume : option string)
  : Prop :=
  exists b, isdir_checks t = [(hf, b)] /\
    if b : bool
    then exists entries,
           listings t = [(hf, entries)] /\
           latest_checkpoint hf entries = inr resume
    else listings t = [] /\ resume = None.

(** The same in the words of the specification: without a directory or
    without an entry named as a checkpoint, no checkpoint is given; with
    such entries, the one of the highest number. *)
Definition resume_as_specified (hf : string) (t : trace) (resume : option string)
  : Prop :=
  exists b, isdir_checks t = [(hf, b)] /\
    (b = false -> listings t = [] /\ resume = None) /\
    (b = true ->
     exists entries,
       listings t = [(hf, entries)] /\
       ((forall m, In m entries -> ~ named_checkpoint m) -> resume = None) /\
       ((exists m, In m entries /\ named_checkpoint m) ->
        exists n, resume = Some (path_join hf n) /\
                  In n entries /\ named_checkpoint n /\
                  is_latest (checkpoint_entries entries) n) /\
       ((exists m, In m entries /\ named_checkpoint m) ->
        (forall m, In m entries -> named_checkpoint m -> exists k, numbered m k) ->
        exists n, resume = Some (path_join hf n) /\ highest_numbered entries n)).

(** The fallback configuration was dumped right after [save_pretrained]
    returned for [od], [os.path.exists] confirmed the weights and denied
    [adapter_config.json] there. *)
Definition dumped_after_save (od bm : string) (t : trace) : Prop :=
  exists pre m u r post,
    t = (pre ++
         [EvCall (CSavePretrained m od) (inr u);
          EvCall (CExists (VStr (adapter_path od))) (inr true);
          EvCall (CExists (VStr (path_join od "adapter_config.json"))) (inr false);
          EvCall (CJsonDump (path_join od "adapter_config.json")
                            (fallback_config bm)) r] ++ post)%list.

Definition fixed_length (n : Z) (ex : example) : Prop :=
  Z.of_nat (length (input_ids ex)) = n /\
  Z.of_nat (length (attention_mask ex)) = n /\
  Z.of_nat (length (labels ex)) = n /\
  labels ex = input_ids ex.

(** What [to_text] makes of the field [k] of a record: nothing for a key
    that is missing or whose value is false ([None], 0, the empty string
    or list), the trimmed text of a string; any other value has no
    [strip]. *)
Definition field_text (d : gmap string pyval) (k : string) : option string :=
  match d !! k with
  | None => Some ""
  | Some v =>
      if truthy v
      then match v with VStr s => Some (PyStr.strip s) | _ => None end
      else Some ""
  end.

(** The lines of a dataset file that are parsed: trimmed, the blank ones
    left out. *)
Definition records_of (lines : list string) : list string :=
  List.filter PyStr.truthy (map PyStr.strip lines).

(** The options that [tok] passes to the tokenizer. *)
Definition tok_options (n : Z) : bool * string * Z := (true, "max_length", n).

(** What the trace of a run of [fit] shows of the configuration [c]. *)
Definition fit_uses (c : config) (bm : string) (t : trace) : Prop :=
  exists od cuda lines,
    outdir c = VStr od /\
    makedirs t = [VStr od; VStr (path_join od "hf_out")] /\
    tokenizer_loads t = [bm] /\
    model_loads t = [bm] /\
    reads t = [(data_path c, lines)] /\
    training_args t =
      [(path_join od "hf_out", bsz c, epochs c, lr c, cuda)].

(** The fallback adapter configuration: not written, or written once to
    [adapter_config.json] under the output directory after
    [os.path.exists] denied it. *)
Definition fallback_written (c : config) (bm : string) (t : trace) : Prop :=
  exists od,
    outdir c = VStr od /\
    exists_checks t =
      [(VStr (adapter_path od), true);
       (VStr (path_join od "adapter_config.json"), false)] /\
    dumps t = [(path_join od "adapter_config.json", fallback_config bm)].

(* ===================================================================== *)
(** * A sample platform *)
(* ===================================================================== *)

(** A tokenizer that honours [truncation=True, padding="max_length"]: one
    token per character, cut or padded with 0 to [n] tokens. *)
Fixpoint codes (s : string) : list Z :=
  match s with
  | EmptyString => []
  | String c r => Z.of_nat (nat_of_ascii c) :: codes r
  end.

Definition pad_to (n : nat) (pad : Z) (l : list Z) : list Z :=
  (take n l ++ repeat pad (n - length l))%list.

Definition encode (n : Z) (texts : list string) : encoding :=
  let k := Z.to_nat n in
  Encoding (map (fun s => pad_to k 0 (codes s)) texts)
           (map (fun s => pad_to k 0 (map (fun _ => 1) (codes s))) texts).

(** [parse_args] on an empty command line, but for [--data]; [lr] is the
    default learning rate, [4e-4]. *)
Definition default_args (lr : float) (data : option string) : args :=
  Args None data "meta-llama/Llama-3.2-1B-Instruct" "artifacts" 3 lr 1 512 "auto".

(** What varies between the sample runs. *)
Record setup : Type := Setup {
  file_lines : list string;          (* the lines of the dataset file *)
  hf_entries : list string;          (* the entries of [hf_out] *)
  absent : list string;              (* paths that do not exist *)
  tokenizer_error : option exn       (* raised when the tokenizer is loaded *)
}.

Definition present (s : setup) (p : pyval) : bool :=
  match p with
  | VStr p => negb (existsb (String.eqb p) (absent s))
  | _ => false
  end.

(** One record per line: the line is the prompt, the response is "ok". *)
Definition parse_line (l : string) : pyval :=
  VDict (<["prompt" := VStr l]> (<["response" := VStr "ok"]> ∅)).

(** What [Dataset.map] raises when it is asked to remove the column
    "text" of a dataset that has no row and therefore no column. *)
Definition no_text_column : exn := LibraryError "ValueError" "Dataset.map".

(** The platform: no state, every call answered from the setup. *)
Definition platform (s : setup) (c : call) (w : unit)
  : result (answer_of c) * unit :=
  (match c return result (answer_of c) with
   | CImport _ => inr tt
   | CLoadYaml _ => inr VNone
   | CExists p => inr (present s p)
   | CIsdir p => inr true
   | CListdir _ => inr (hf_entries s)
   | CMakedirs _ => inr tt
   | CGetenv _ => inr None
   | CCpuCount => inr (Some 4)
   | CCudaAvailable => inr false
   | CSetNumThreads _ => inr tt
   | CReadLines _ => inr (file_lines s, None)
   | CJsonLoads l => inr (parse_line l)
   | CLoadTokenizer _ _ =>
       match tokenizer_error s with
       | Some e => inl e
       | None => inr (Tokenizer 1%nat None (Some "<eos>"))
       end
   | CDatasetFromList _ => inr tt
   | CMapNoRows => inl no_text_column
   | CTokenize _ texts _ _ n => inr (encode n texts)
   | CLoadModel _ _ _ => inr 2%nat
   | CSetPadTokenId _ _ => inr tt
   | CGradientCheckpointing _ => inr tt
   | CLoraConfig => inr 3%nat
   | CGetPeftModel _ _ => inr 4%nat
   | CTrainingArguments _ _ _ _ _ => inr 5%nat
   | CDataCollator _ => inr 6%nat
   | CTrainer _ _ _ _ => inr 7%nat
   | CTrain _ _ => inr tt
   | CSavePretrained _ _ => inr tt
   | CJsonDump _ _ => inr tt
   | CWriteText _ _ => inr tt
   | CAppendText _ _ => inr tt
   end, w).

(** Two records, two checkpoints, every library call succeeds. *)
Definition healthy : setup :=
  Setup ["How do I return an item?"; ""; "Where is my refund?"]
        ["checkpoint-5"; "notes.txt"; "checkpoint-20"] [] None.

(** The dataset file exists and has no line. *)
Definition empty_file : setup := Setup [] [] [] None.

(** The tokenizer cannot be fetched. *)
Definition gated : exn := PlatformError "OSError" "gated repository".

Definition no_tokenizer : setup :=
  Setup ["How do I return an item?"] [] [] (Some gated).

(** The three entries of the specification's example. *)
Definition stray_checkpoint : setup :=
  Setup ["How do I return an item?"]
        ["checkpoint-5"; "checkpoint-20"; "checkpoint-abc"] [] None.

(** A configuration file that sets both keys. *)
Definition both_keys : pyval :=
  VDict (<["batch_size" := VInt 4]> (<["bsz" := VInt 8]> ∅)).

Definition sample_tokenizer : tokenizer :=
  Tokenizer 1%nat (Some "<eos>") (Some "<eos>").

(** The dataset file is not there. *)
Definition no_dataset : setup :=
  Setup [] [] ["data.jsonl"] None.

(** [save_pretrained] leaves the weights and no adapter configuration. *)
Definition no_adapter_config : setup :=
  Setup ["How do I return an item?"] [] ["artifacts/adapter_config.json"] None.

(** The error of [json.loads] on a line that is not JSON. *)
Definition malformed : exn := LibraryError "JSONDecodeError" "json.loads".

(** The error of a byte that cannot be decoded. *)
Definition undecodable : exn := LibraryError "UnicodeDecodeError" "readline".

(** A dataset file with a line that is not JSON between two records. *)
Definition broken_file : setup := Setup ["{}"; ""; "oops"; "{}"] [] [] None.

(** A stricter platform: the configuration file holds a list,
    [json.loads] refuses a line that does not open a brace, and the
    dataset file ends in a byte that cannot be decoded. *)
Definition strict (s : setup) (c : call) (w : unit)
  : result (answer_of c) * unit :=
  match c as c0 return result (answer_of c0) * unit with
  | CLoadYaml _ => (inr (VList [VStr "epochs"]), w)
  | CReadLines _ => (inr (file_lines s, Some undecodable), w)
  | CJsonLoads l =>
      (if PyStr.startswith "{" l then inr (parse_line l) else inl malformed, w)
  | c0 => platform s c0 w
  end.

(** The checkpoints in another order. *)
Definition unordered : setup :=
  Setup ["How do I return an item?"]
        ["checkpoint-20"; "notes.txt"; "checkpoint-5"] [] None.

(** [hf_out] holds one entry, named as a checkpoint. *)
Definition stray_file : setup :=
  Setup ["How do I return an item?"] ["checkpoint-7"] [] None.

(** A platform on which only [dirs] are directories. *)
Definition only_dirs (dirs : list string) (s : setup) (c : call) (w : unit)
  : result (answer_of c) * unit :=
  match c as c0 return result (answer_of c0) * unit with
  | CIsdir p => (inr (existsb (String.eqb p) dirs), w)
  | c0 => platform s c0 w
  end.

(** The command line [--data data.jsonl --outdir out]. *)
Definition out_args (lr : float) : args :=
  Args None (Some "data.jsonl") "meta-llama/Llama-3.2-1B-Instruct" "out" 3
       lr 1 512 "auto".

(** The default command line with [--config train.yaml]. *)
Definition config_args (lr : float) : args :=
  Args (Some "train.yaml") (Some "data.jsonl")
       "meta-llama/Llama-3.2-1B-Instruct" "artifacts" 3 lr 1 512 "auto".

(** A configuration file that sets two keys and leaves [base_model]
    empty. *)
Definition some_keys : pyval :=
  VDict (<["dataset_path" := VStr "records.jsonl"]>
           (<["epochs" := VInt 5]> (<["base_model" := VStr ""]> ∅))).

(** A configuration file whose [epochs] is null. *)
Definition null_epochs : gmap string pyval := <["epochs" := VNone]> ∅.

(* ===================================================================== *)
(** * Runs *)
(* ===================================================================== *)

Section Platform.

(** A platform: a type of worlds, and for each call an answer and the
    world after it. *)
Variable W : Type.
Variable h : forall c : call, W -> result (answer_of c) * W.

Fixpoint run {A} (p : prog A) (w : W) : result A * W * trace :=
  match p with
  | Ret a => (inr a, w, [])
  | Raise e => (inl e, w, [])
  | Log m k => let '(r, w', t) := run k w in (r, w', EvLog m :: t)
  | Call c k =>
      let '(a, w1) := h c w in
      let '(r, w', t) := run (k a) w1 in
      (r, w', EvCall c a :: t)
  end.

(** ** Programs that only make calls of one kind *)

Fixpoint only (P : call -> bool) {A} (p : prog A) : Prop :=
  match p with
  | Ret _ | Raise _ => True
  | Log _ _ => False
  | Call c k => P c = true /\ forall r, only P (k r)
  end.

Definition events_of (P : call -> bool) (ev : event) : Prop :=
  match ev with
  | EvCall c _ => P c = true
  | EvLog _ => False
  end.

(** [wp p Q w]: every run of [p] from [w] ends in a result, a world and a
    trace that satisfy [Q]. *)
Fixpoint wp {A} (p : prog A) (Q : result A -> W -> trace -> Prop) (w : W) : Prop :=
  match p with
  | Ret a => Q (inr a) w []
  | Raise e => Q (inl e) w []
  | Log m k => wp k (fun r w' t => Q r w' (EvLog m :: t)) w
  | Call c k =>
      forall a w1, h c w = (a, w1) ->
        wp (k a) (fun r w' t => Q r w' (EvCall c a :: t)) w1
  end.

(** What [truncation=True, padding="max_length", max_length=n] asks of the
    tokenizer: every row it returns has [n] entries. *)
Definition tokenizer_pads (n : Z) : Prop :=
  forall tk texts w enc w',
    h (CTokenize tk texts true "max_length" n) w = (inr enc, w') ->
    List.Forall (fun row => Z.of_nat (length row) = n) (enc_input_ids enc) /\
    List.Forall (fun row => Z.of_nat (length row) = n) (enc_attention_mask enc).

(** The dataset library refuses to remove the column "text" from a
    dataset without rows. *)
Definition refuses_no_rows : Prop :=
  forall w, exists e w', h CMapNoRows w = (inl e, w').

(** The tokenizer returns one row of input ids for every text of the
    batch. *)
Definition tokenizer_rows : Prop :=
  forall tk texts tr pad n w enc w',
    h (CTokenize tk texts tr pad n) w = (inr enc, w') ->
    length (enc_input_ids enc) = length texts.

(** The configuration was resolved, and the dataset path is empty or
    [os.path.exists] says no. *)
Definition dataset_not_found_at (a : args) (w : W) : Prop :=
  exists c w1 t1,
    run (resolve_config a) w = (inr c, w1, t1) /\
    (truthy (data_path c) = false \/ (h (CExists (data_path c)) w1).1 = inr false).

(** The configuration was resolved, the dataset path is not empty and
    [os.path.exists] says yes. *)
Definition dataset_found_at (a : args) (w : W) : Prop :=
  exists c w1 t1,
    run (resolve_config a) w = (inr c, w1, t1) /\
    truthy (data_path c) = true /\ (h (CExists (data_path c)) w1).1 = inr true.

(** The output directory of the run is [od]. *)
Definition outdir_at (a : args) (w : W) (od : string) : Prop :=
  exists c w1 t1,
    run (resolve_config a) w = (inr c, w1, t1) /\ outdir c = VStr od.


Local Open Scope list_scope.

(* ===================================================================== *)
(** * Properties of the string functions and of the model-name resolver *)
(* ===================================================================== *)

Lemma lower_char_space (c : ascii) :
  Ascii.eqb (PyStr.lower_char c) " " = Ascii.eqb c " ".
Proof. destruct c as [[] [] [] [] [] [] [] []]; vm_compute; reflexivity. Qed.

Lemma lower_remove_spaces (s : string) :
  PyStr.lower (PyStr.remove_spaces s) = PyStr.remove_spaces (PyStr.lower s).
Proof.
  induction s as [|c s IH]; simpl; [reflexivity|].
  rewrite lower_char_space.
  destruct (Ascii.eqb c " "); simpl; rewrite IH; reflexivity.
Qed.

Example normalize_llama3 :
  normalize_base_model_id "Llama3:8B" = "meta-llama/Meta-Llama-3-8B-Instruct".
Proof. vm_compute. reflexivity. Qed.

Example normalize_custom :
  normalize_base_model_id "custom/model-id" = "custom/model-id".
Proof. vm_compute. reflexivity. Qed.

Example to_int_examples :
  PyStr.to_int "20" = Some 20 /\ PyStr.to_int "abc" = None /\
  PyStr.to_int " 1_000 " = Some 1000 /\ PyStr.to_int "1__0" = None /\
  PyStr.to_int "" = None /\ PyStr.to_int "+7" = Some 7 /\
  PyStr.last_field "-" "checkpoint-20" = "20" /\
  PyStr.last_field "-" "a-b-" = "" /\
  path_join "out" "hf_out" = "out/hf_out" /\
  path_join "out/" "hf_out" = "out/hf_out".
Proof. vm_compute. repeat split; reflexivity. Qed.

Lemma lstrip_head (s : string) :
  PyStr.lstrip s = "" \/
  exists c r, PyStr.lstrip s = String c r /\ PyStr.isspace c = false.
Proof.
  induction s as [|c r IH]; [left; reflexivity|].
  cbn [PyStr.lstrip]. destruct (PyStr.isspace c) eqn:E; [exact IH|].
  right. eauto.
Qed.

Lemma rstrip_cons (c : ascii) (r : string) :
  PyStr.rstrip (String c r) =
    match PyStr.rstrip r with
    | EmptyString => if PyStr.isspace c then EmptyString else String c EmptyString
    | r' => String c r'
    end.
Proof. reflexivity. Qed.

Lemma rstrip_head (c : ascii) (r : string) :
  PyStr.isspace c = false -> exists r', PyStr.rstrip (String c r) = String c r'.
Proof.
  intros H. rewrite rstrip_cons. destruct (PyStr.rstrip r); [rewrite H|]; eauto.
Qed.

Lemma chars_lower (s : string) :
  chars (PyStr.lower s) = map PyStr.lower_char (chars s).
Proof.
  unfold chars. induction s as [|c s IH]; [reflexivity|].
  cbn [PyStr.lower list_ascii_of_string map]. f_equal. exact IH.
Qed.

Lemma chars_remove_spaces (s : string) :
  chars (PyStr.remove_spaces s) =
  List.filter (fun c => negb (Ascii.eqb c " ")) (chars s).
Proof.
  unfold chars. induction s as [|c s IH]; [reflexivity|].
  cbn [PyStr.remove_spaces list_ascii_of_string List.filter].
  destruct (Ascii.eqb c " "); cbn [negb list_ascii_of_string];
    [exact IH|f_equal; exact IH].
Qed.

(** The key that the code builds (trim, lowercase, remove the spaces) is
    the key of the specification (trim, remove the spaces, lowercase). *)
Lemma alias_key_spec (s : string) :
  chars (alias_key s) = spec_key (PyStr.strip s).
Proof.
  unfold alias_key, spec_key.
  rewrite <- lower_remove_spaces, chars_lower, chars_remove_spaces.
  reflexivity.
Qed.

Lemma lstrip_split (s : string) :
  exists pre, chars s = pre ++ chars (PyStr.lstrip s) /\ blank pre.
Proof.
  unfold chars, blank. induction s as [|c s IH].
  - exists []. split; [reflexivity|constructor].
  - cbn [PyStr.lstrip]. destruct (PyStr.isspace c) eqn:E.
    + destruct IH as (pre & Hp & Hb). exists (c :: pre).
      cbn [list_ascii_of_string app].
      split; [f_equal; exact Hp|constructor; assumption].
    + exists []. split; [reflexivity|constructor].
Qed.

Lemma rstrip_split (u : string) :
  exists post, chars u = chars (PyStr.rstrip u) ++ post /\ blank post.
Proof.
  unfold chars, blank. induction u as [|c r IH].
  - exists []. split; [reflexivity|constructor].
  - destruct IH as (post & Hp & Hb). rewrite rstrip_cons.
    destruct (PyStr.rstrip r) as [|c' r'] eqn:E.
    + destruct (PyStr.isspace c) eqn:Ec.
      * exists (c :: post). cbn [list_ascii_of_string app] in *.
        split; [f_equal; exact Hp|constructor; assumption].
      * exists post. cbn [list_ascii_of_string app] in *.
        split; [f_equal; exact Hp|assumption].
    + exists post. cbn [list_ascii_of_string app] in *.
      split; [f_equal; exact Hp|assumption].
Qed.

Lemma rstrip_last (u : string) (c : ascii) :
  last (chars (PyStr.rstrip u)) = Some c -> PyStr.isspace c = false.
Proof.
  unfold chars. revert c. induction u as [|a r IH]; intros c.
  - discriminate.
  - rewrite rstrip_cons. destruct (PyStr.rstrip r) as [|c' r'] eqn:E.
    + destruct (PyStr.isspace a) eqn:Ea; cbn; [discriminate|].
      intros H. inversion H; subst. exact Ea.
    + intros H. apply IH. exact H.
Qed.

(** [str.strip] removes the white space of the two ends, and nothing
    else. *)
Lemma strip_trimmed (s : string) : trimmed s (PyStr.strip s).
Proof.
  unfold trimmed, PyStr.strip.
  destruct (lstrip_split s) as (pre & Hpre & Bpre).
  destruct (rstrip_split (PyStr.lstrip s)) as (post & Hpost & Bpost).
  exists pre, post.
  split; [rewrite Hpre, Hpost; reflexivity|].
  split; [assumption|]. split; [assumption|]. split.
  - intros c Hh. destruct (lstrip_head s) as [E|(c0 & r & E & Hc)];
      rewrite E in Hh; [discriminate Hh|].
    destruct (rstrip_head c0 r Hc) as [r' E']. rewrite E' in Hh.
    inversion Hh; subst. exact Hc.
  - apply rstrip_last.
Qed.

Lemma lower_char_capital (c : ascii) :
  (65 <= nat_of_ascii c <= 90)%nat ->
  nat_of_ascii (PyStr.lower_char c) = (nat_of_ascii c + 32)%nat.
Proof.
  intros H. unfold PyStr.lower_char.
  assert (E : ((65 <=? nat_of_ascii c) && (nat_of_ascii c <=? 90))%nat = true)
    by (apply andb_true_intro; split; apply Nat.leb_le; lia).
  rewrite E. cbn [orb]. apply nat_ascii_embedding. lia.
Qed.

Lemma lower_char_other (c : ascii) :
  (nat_of_ascii c < 65 \/ 90 < nat_of_ascii c < 128)%nat ->
  PyStr.lower_char c = c.
Proof.
  intros H. unfold PyStr.lower_char.
  destruct (Nat.leb_spec 65 (nat_of_ascii c)),
           (Nat.leb_spec (nat_of_ascii c) 90),
           (Nat.leb_spec 192 (nat_of_ascii c)); cbn [andb orb];
    try reflexivity; lia.
Qed.

(** C9. [normalize_base_model_id] is a total function of its argument.  On
    every string it takes the string without the white space at its two
    ends, drops the spaces of that and puts the rest in lower case (capitals
    A to Z move to a to z, other ASCII characters stay), and looks the key
    up in the alias table: the result is the table's identifier if there is
    one and the trimmed string itself, with its case and its inner spaces,
    otherwise.  "Llama3:8B" resolves to the Meta-Llama-3-8B-Instruct
    repository and "custom/model-id" comes back unchanged. *)
Theorem normalize_base_model_id_spec :
  (forall s : string,
     exists t k,
       trimmed s t /\ chars k = spec_key t /\
       normalize_base_model_id s = default t (aliases !! k)) /\
  (forall c, (65 <= nat_of_ascii c <= 90)%nat ->
     nat_of_ascii (PyStr.lower_char c) = (nat_of_ascii c + 32)%nat) /\
  (forall c, (nat_of_ascii c < 65 \/ 90 < nat_of_ascii c < 128)%nat ->
     PyStr.lower_char c = c) /\
  normalize_base_model_id "Llama3:8B" = "meta-llama/Meta-Llama-3-8B-Instruct" /\
  normalize_base_model_id "custom/model-id" = "custom/model-id" /\
  normalize_base_model_id "  LLaMA3 : 8b  " =
    "meta-llama/Meta-Llama-3-8B-Instruct" /\
  normalize_base_model_id "  My Org/Custom Model " = "My Org/Custom Model" /\
  normalize_base_model_id "" = "".
Proof.
  split; [|split; [exact lower_char_capital|split; [exact lower_char_other|]]].
  - intros s. exists (PyStr.strip s), (alias_key s).
    split; [apply strip_trimmed|]. split; [apply alias_key_spec|].
    destruct s as [|c s]; reflexivity.
  - repeat split; vm_compute; reflexivity.
Qed.

(* ===================================================================== *)
(** * Properties of the checkpoint ordering *)
(* ===================================================================== *)

(** Every name that passes the prefix filter contains the separator, so the
    [else -1] of the sort key is never taken on a filtered entry. *)
Lemma checkpoint_prefix_has_dash (n : string) :
  PyStr.startswith "checkpoint-" n = true -> PyStr.contains_char "-" n = true.
Proof.
  intros H.
  do 11 (destruct n as [|? n]; [discriminate H|];
         cbn [PyStr.startswith] in H; apply andb_prop in H as [Hc H];
         apply Ascii.eqb_eq in Hc; subst).
  vm_compute. reflexivity.
Qed.

Lemma checkpoint_entries_prefix (entries : list string) (n : string) :
  In n (checkpoint_entries entries) <->
  In n entries /\ PyStr.startswith "checkpoint-" n = true.
Proof. unfold checkpoint_entries. apply filter_In. Qed.

Lemma insert_keyed_In x y l : In y (insert_keyed x l) <-> y = x \/ In y l.
Proof.
  induction l as [|z l IH]; simpl.
  - intuition.
  - destruct (x.1 <=? z.1); simpl; rewrite ?IH; intuition.
Qed.

Lemma sort_keyed_In y l : In y (sort_keyed l) <-> In y l.
Proof.
  induction l as [|x l IH]; simpl; [tauto|].
  rewrite insert_keyed_In, IH. intuition.
Qed.

Lemma insert_keyed_sorted x l : keys_sorted l -> keys_sorted (insert_keyed x l).
Proof.
  unfold keys_sorted. induction 1 as [|z l Hs IH Hz]; simpl.
  - repeat constructor.
  - destruct (Z.leb_spec x.1 z.1).
    + constructor; [constructor; assumption|].
      constructor; [assumption|].
      eapply Forall_impl; [exact Hz|]. simpl. intros; lia.
    + constructor; [assumption|].
      apply List.Forall_forall. intros y Hy. apply insert_keyed_In in Hy.
      destruct Hy as [->|Hy]; [lia|].
      rewrite List.Forall_forall in Hz. apply Hz. assumption.
Qed.

Lemma sort_keyed_sorted l : keys_sorted (sort_keyed l).
Proof.
  induction l; simpl; [constructor|]. apply insert_keyed_sorted. assumption.
Qed.

Lemma sorted_last_max l d :
  keys_sorted l -> forall y, In y l -> y.1 <= (List.last l d).1.
Proof.
  induction 1 as [|z l Hs IH Hz]; intros y Hy; [destruct Hy|].
  destruct l as [|z' l].
  - destruct Hy as [->|[]]. simpl. lia.
  - change (List.last (z :: z' :: l) d) with (List.last (z' :: l) d).
    destruct Hy as [->|Hy]; [|apply IH; assumption].
    rewrite List.Forall_forall in Hz.
    etransitivity; [apply (Hz z'); left; reflexivity|].
    apply IH. left. reflexivity.
Qed.

Lemma last_In {A} (l : list A) d : l <> [] -> In (List.last l d) l.
Proof.
  induction l as [|x l IH]; [congruence|]. intros _.
  destruct l as [|y l]; [left; reflexivity|].
  right. apply IH. discriminate.
Qed.

Lemma last_map {A B} (f : A -> B) (l : list A) d d' :
  l <> [] -> List.last (map f l) d = f (List.last l d').
Proof.
  induction l as [|x l IH]; [congruence|]. intros _.
  destruct l as [|y l]; [reflexivity|].
  change (List.last (f y :: map f l) d = f (List.last (y :: l) d')).
  apply IH. discriminate.
Qed.

Lemma keyed_ok l ks :
  keyed l = inr ks ->
  map snd ks = l /\ forall k n, In (k, n) ks -> checkpoint_key n = Some k.
Proof.
  revert ks. induction l as [|n l IH]; simpl; intros ks H.
  - inversion H; subst. split; [reflexivity|]. intros ? ? [].
  - destruct (checkpoint_key n) as [k|] eqn:Hk; [|discriminate].
    destruct (keyed l) as [e|kr]; simpl in H; [discriminate|].
    inversion H; subst. destruct (IH kr eq_refl) as [Hm Hin].
    split; [simpl; rewrite Hm; reflexivity|].
    intros k' n' [Heq|Hi]; [inversion Heq; subst; assumption|].
    apply Hin. assumption.
Qed.

Lemma keyed_total l :
  (forall n, In n l -> checkpoint_key n <> None) -> exists ks, keyed l = inr ks.
Proof.
  induction l as [|n l IH]; simpl; intros H; [eexists; reflexivity|].
  destruct (checkpoint_key n) as [k|] eqn:Hk.
  - destruct IH as [ks ->]; [intros; apply H; right; assumption|].
    eexists; reflexivity.
  - exfalso. apply (H n); [left; reflexivity|assumption].
Qed.

Lemma keyed_fails l n :
  In n l -> checkpoint_key n = None -> exists e, keyed l = inl e.
Proof.
  induction l as [|m l IH]; simpl; intros Hin Hn; [destruct Hin|].
  destruct (checkpoint_key m) as [k|] eqn:Hk; [|eexists; reflexivity].
  destruct Hin as [->|Hin]; [congruence|].
  destruct (IH Hin Hn) as [e ->]. eexists; reflexivity.
Qed.

Lemma latest_checkpoint_some hf entries p :
  latest_checkpoint hf entries = inr (Some p) ->
  exists n, p = path_join hf n /\ is_latest (checkpoint_entries entries) n.
Proof.
  unfold latest_checkpoint.
  destruct (checkpoint_entries entries) as [|c0 cs] eqn:Hc; [discriminate|].
  destruct (keyed (c0 :: cs)) as [e|ks] eqn:Hk; simpl; [discriminate|].
  intros H. inversion H; subst; clear H.
  destruct (keyed_ok _ _ Hk) as [Hm Hin].
  assert (Hne : sort_keyed ks <> []).
  { intros E. assert (Hi : In (List.hd (0, "") ks) (sort_keyed ks)).
    { apply sort_keyed_In. destruct ks; [discriminate Hm|left; reflexivity]. }
    rewrite E in Hi. destruct Hi. }
  set (top := List.last (sort_keyed ks) (0, "")).
  assert (Htop : In top ks) by (apply sort_keyed_In, last_In, Hne).
  exists top.2. split.
  - f_equal. apply last_map. assumption.
  - split.
    + rewrite <- Hm. apply in_map. assumption.
    + exists top.1. split; [apply Hin; destruct top; assumption|].
      intros m Him. rewrite <- Hm in Him. apply in_map_iff in Him.
      destruct Him as [[km m'] [<- Him]]. exists km. split.
      * apply Hin. assumption.
      * apply (sorted_last_max (sort_keyed ks) (0, "") (sort_keyed_sorted ks) (km, m')).
        apply sort_keyed_In. assumption.
Qed.

Lemma latest_checkpoint_none hf entries :
  latest_checkpoint hf entries = inr None -> checkpoint_entries entries = [].
Proof.
  unfold latest_checkpoint.
  destruct (checkpoint_entries entries) as [|c0 cs]; [reflexivity|].
  destruct (keyed (c0 :: cs)); simpl; discriminate.
Qed.

(** With a key for every checkpoint entry the search returns. *)
Lemma latest_checkpoint_total hf entries :
  (forall n, In n (checkpoint_entries entries) -> checkpoint_key n <> None) ->
  exists r, latest_checkpoint hf entries = inr r.
Proof.
  intros H. unfold latest_checkpoint.
  destruct (checkpoint_entries entries) as [|c0 cs]; [eexists; reflexivity|].
  destruct (keyed_total _ H) as [ks ->]. eexists; reflexivity.
Qed.

(** A checkpoint path is never the empty string, so [if ckpt:] succeeds
    whenever a checkpoint was found. *)
Lemma latest_checkpoint_truthy hf entries p :
  latest_checkpoint hf entries = inr (Some p) -> PyStr.truthy p = true.
Proof.
  intros H. destruct (latest_checkpoint_some _ _ _ H) as (n & -> & Hin & _).
  apply checkpoint_entries_prefix in Hin as [_ Hp].
  destruct n as [|c n]; [discriminate Hp|].
  cbn [PyStr.startswith] in Hp. apply andb_prop in Hp as [Hc _].
  apply Ascii.eqb_eq in Hc. subst c.
  unfold path_join. cbn [PyStr.startswith]. simpl (Ascii.eqb _ _). cbn [andb].
  destruct hf as [|a hf]; [reflexivity|].
  destruct (PyStr.contains_char _ _); reflexivity.
Qed.

(** One checkpoint entry whose suffix [int] refuses makes the search raise. *)
Lemma latest_checkpoint_raises hf entries n :
  In n entries -> PyStr.startswith "checkpoint-" n = true ->
  PyStr.to_int (PyStr.last_field "-" n) = None ->
  exists e, latest_checkpoint hf entries = inl e.
Proof.
  intros Hin Hp Hi.
  assert (Hc : In n (checkpoint_entries entries))
    by (apply checkpoint_entries_prefix; split; assumption).
  assert (Hk : checkpoint_key n = None).
  { unfold checkpoint_key. rewrite checkpoint_prefix_has_dash; assumption. }
  unfold latest_checkpoint.
  destruct (checkpoint_entries entries) as [|c0 cs]; [destruct Hc|].
  destruct (keyed_fails _ _ Hc Hk) as [e ->]. eexists; reflexivity.
Qed.

(* ===================================================================== *)
(** * The configuration merge *)
(* ===================================================================== *)

Lemma resolve_bsz_dict (d : gmap string pyval) (a : args) :
  resolve_bsz (VDict d) a = py_int (batch_size_source d a).
Proof.
  unfold resolve_bsz, batch_size_source. simpl.
  destruct (d !! "batch_size"), (d !! "bsz"); reflexivity.
Qed.

Ltac rbind_ok H :=
  repeat match type of H with
         | rbind ?r _ = inr _ =>
             let E := fresh "E" in
             destruct r eqn:E; simpl in H; [discriminate H|]
         end.

(** C10. When the merge with a configuration file succeeds, the file is a
    mapping and the batch size is [int] of the file's [batch_size] if the
    key is there, else of the file's [bsz] if that key is there, else the
    command-line value. *)
Theorem merge_config_batch_size (cfg : pyval) (a : args) (c : config) :
  merge_config cfg a = inr c ->
  exists d : gmap string pyval,
    cfg = VDict d /\
    py_int (batch_size_source d a) = inr (bsz c) /\
    (forall z, d !! "batch_size" = Some (VInt z) -> bsz c = z) /\
    (d !! "batch_size" = None ->
       forall z, d !! "bsz" = Some (VInt z) -> bsz c = z) /\
    (d !! "batch_size" = None -> d !! "bsz" = None -> bsz c = arg_bsz a).
Proof.
  intros H. unfold merge_config in H.
  destruct cfg as [| | | | | |d]; simpl in H; try discriminate H.
  exists d. split; [reflexivity|].
  rbind_ok H. inversion H; subst c; clear H. simpl.
  match goal with E : resolve_bsz _ _ = inr _ |- _ =>
    rewrite resolve_bsz_dict in E; rename E into Hb end.
  split; [exact Hb|].
  unfold batch_size_source in Hb.
  repeat split.
  - intros zz Hz. rewrite Hz in Hb. simpl in Hb. congruence.
  - intros Hn zz Hz. rewrite Hn, Hz in Hb. simpl in Hb. congruence.
  - intros Hn Hn'. rewrite Hn, Hn' in Hb. simpl in Hb. congruence.
Qed.

(* ===================================================================== *)
(** * Runs: composition and traces *)
(* ===================================================================== *)


Lemma run_bind {A B} (p : prog A) (k : A -> prog B) (w : W) :
  run (bind p k) w =
    let '(r, w1, t1) := run p w in
    match r with
    | inl e => (inl e, w1, t1)
    | inr a => let '(r2, w2, t2) := run (k a) w1 in (r2, w2, (t1 ++ t2)%list)
    end.
Proof.
  revert w. induction p as [a|e|m p IH|c k' IH]; intros w; simpl.
  - destruct (run (k a) w) as [[r2 w2] t2]. reflexivity.
  - reflexivity.
  - rewrite IH. destruct (run p w) as [[[e|a] w1] t1]; [reflexivity|].
    destruct (run (k a) w1) as [[r2 w2] t2]. reflexivity.
  - destruct (h c w) as [r w0]. rewrite IH.
    destruct (run (k' r) w0) as [[[e|a] w1] t1]; [reflexivity|].
    destruct (run (k a) w1) as [[r2 w2] t2]. reflexivity.
Qed.

Lemma run_catch {A} (p : prog A) (hdl : exn -> prog A) (w : W) :
  run (catch p hdl) w =
    let '(r, w1, t1) := run p w in
    match r with
    | inl e => let '(r2, w2, t2) := run (hdl e) w1 in (r2, w2, (t1 ++ t2)%list)
    | inr a => (inr a, w1, t1)
    end.
Proof.
  revert w. induction p as [a|e|m p IH|c k' IH]; intros w; simpl.
  - reflexivity.
  - destruct (run (hdl e) w) as [[r2 w2] t2]. reflexivity.
  - rewrite IH. destruct (run p w) as [[[e|a] w1] t1]; [|reflexivity].
    destruct (run (hdl e) w1) as [[r2 w2] t2]. reflexivity.
  - destruct (h c w) as [r w0]. rewrite IH.
    destruct (run (k' r) w0) as [[[e|a] w1] t1]; [|reflexivity].
    destruct (run (hdl e) w1) as [[r2 w2] t2]. reflexivity.
Qed.

Lemma only_run (P : call -> bool) {A} (p : prog A) (w : W) :
  only P p -> List.Forall (events_of P) (run p w).2.
Proof.
  revert w. induction p as [a|e|m p IH|c k IH]; intros w; simpl.
  - constructor.
  - constructor.
  - intros [].
  - intros [Hc Hk]. destruct (h c w) as [r w0].
    specialize (IH r w0 (Hk r)).
    destruct (run (k r) w0) as [[r2 w2] t2]. simpl in *.
    constructor; assumption.
Qed.

Lemma only_bind (P : call -> bool) {A B} (p : prog A) (k : A -> prog B) :
  only P p -> (forall a, only P (k a)) -> only P (bind p k).
Proof.
  induction p as [a|e|m p IH|c k' IH]; simpl; intros Hp Hk.
  - apply Hk.
  - exact I.
  - destruct Hp.
  - destruct Hp as [Hc Hp]. split; [assumption|].
    intros r. apply IH; [apply Hp|assumption].
Qed.

Lemma only_call (P : call -> bool) (c : call) : P c = true -> only P (call_ c).
Proof. intros H. simpl. split; [assumption|]. intros [e|a]; exact I. Qed.

Lemma only_lift (P : call -> bool) {A} (r : result A) : only P (lift r).
Proof. destruct r; exact I. Qed.

Lemma only_mapM (P : call -> bool) {A B} (f : A -> prog B) (l : list A) :
  (forall x, only P (f x)) -> only P (mapM f l).
Proof.
  intros Hf. induction l as [|x l IH]; simpl; [exact I|].
  apply only_bind; [apply Hf|]. intros y.
  apply only_bind; [apply IH|]. intros ys. exact I.
Qed.

Lemma wp_exec {A} (p : prog A) (Q : result A -> W -> trace -> Prop) (w : W) :
  wp p Q w <-> Q (run p w).1.1 (run p w).1.2 (run p w).2.
Proof.
  revert Q w. induction p as [a|e|m p IH|c k IH]; intros Q w; simpl.
  - tauto.
  - tauto.
  - rewrite IH. destruct (run p w) as [[r w'] t]. simpl. tauto.
  - destruct (h c w) as [a w1] eqn:Hc. split.
    + intros H. specialize (H a w1 eq_refl). apply IH in H.
      destruct (run (k a) w1) as [[r w'] t]. exact H.
    + intros H a' w1' E. inversion E; subst. apply IH.
      destruct (run (k a') w1') as [[r w'] t]. exact H.
Qed.

Lemma wp_bind {A B} (p : prog A) (k : A -> prog B)
    (Q : result B -> W -> trace -> Prop) (w : W) :
  wp p (fun r w1 t1 =>
          match r with
          | inl e => Q (inl e) w1 t1
          | inr a => wp (k a) (fun r2 w2 t2 => Q r2 w2 (t1 ++ t2)%list) w1
          end) w ->
  wp (bind p k) Q w.
Proof.
  rewrite !wp_exec, run_bind.
  destruct (run p w) as [[[e|a] w1] t1]; simpl; [tauto|].
  rewrite wp_exec. destruct (run (k a) w1) as [[r2 w2] t2]. simpl. tauto.
Qed.


(* ===================================================================== *)
(** * Properties of the runs of the script *)
(* ===================================================================== *)

(** ** The resume flag *)

Lemma main_with_resume (a : args) (r : string) : main (with_resume a r) = main a.
Proof. destruct a. reflexivity. Qed.

Lemma resume_choice_not_outdir (r : string) :
  In r resume_choices -> String.eqb r "--outdir" = false.
Proof. intros [<-|[<-|[<-|[]]]]; reflexivity. Qed.

Lemma scan_outdir_resume (pre post : list string) (r : string) :
  In r resume_choices ->
  scan_outdir (pre ++ "--resume" :: r :: post) =
  scan_outdir (pre ++ "--resume" :: "auto" :: post).
Proof.
  intros Hr. induction pre as [|x pre IH].
  - simpl. rewrite (resume_choice_not_outdir r Hr). reflexivity.
  - change (scan_outdir (x :: (pre ++ "--resume" :: r :: post)%list) =
            scan_outdir (x :: (pre ++ "--resume" :: "auto" :: post)%list)).
    cbn [scan_outdir]. destruct (String.eqb x "--outdir"); [|exact IH].
    destruct pre; reflexivity.
Qed.

(** C7. Two invocations that differ only in the value given to [--resume]
    behave alike: on the same platform, from the same world, the script
    ends the same way, leaves the same world and the same trace of lines
    printed, calls made and answers received. *)
Theorem resume_flag_ignored
    (a : args) (pre post : list string) (r1 r2 : string) (w : W) :
  In r1 resume_choices -> In r2 resume_choices ->
  run (script (pre ++ "--resume" :: r1 :: post) (with_resume a r1)) w =
  run (script (pre ++ "--resume" :: r2 :: post) (with_resume a r2)) w.
Proof.
  intros H1 H2. unfold script, write_marker.
  rewrite !main_with_resume.
  rewrite (scan_outdir_resume pre post r1 H1), (scan_outdir_resume pre post r2 H2).
  reflexivity.
Qed.

(** ** The tokenized dataset *)

(** The batches are the rows, in order: none is lost or repeated. *)
Lemma batches_fuel_concat {A} (n fuel : nat) (l : list A) :
  (0 < n)%nat -> (length l <= fuel)%nat -> concat (batches_fuel fuel n l) = l.
Proof.
  intros Hn. revert l. induction fuel as [|fuel IH]; intros l Hl.
  - destruct l; [reflexivity|simpl in Hl; lia].
  - destruct l as [|x l]; [reflexivity|].
    cbn [batches_fuel concat]. rewrite IH.
    + apply take_drop.
    + rewrite length_drop. simpl in *. lia.
Qed.

Lemma batches_concat {A} (l : list A) : concat (batches 1000 l) = l.
Proof. apply batches_fuel_concat; lia. Qed.

Lemma rows_of_labels (ids mask : list (list Z)) (exs : list example) :
  rows_of ids mask ids = inr exs ->
  forall ex, In ex exs ->
    In (input_ids ex) ids /\ In (attention_mask ex) mask /\
    labels ex = input_ids ex.
Proof.
  revert mask exs. induction ids as [|i ids IH]; intros [|m mask] exs H;
    simpl in H; try discriminate H.
  - inversion H; subst. intros ex [].
  - destruct (rows_of ids mask ids) as [e|r] eqn:Hr; simpl in H; [discriminate H|].
    inversion H; subst; clear H. intros ex [<-|Hin].
    + simpl. auto.
    + destruct (IH mask r Hr ex Hin) as (Hi & Hm & Hl). simpl. auto.
Qed.

Lemma tok_fixed_length (tk : tokenizer) (n : Z) (texts : list string)
    (w w' : W) (exs : list example) (t : trace) :
  tokenizer_pads n ->
  run (tok tk n texts) w = (inr exs, w', t) ->
  forall ex, In ex exs -> fixed_length n ex.
Proof.
  intros Hpad H. unfold tok in H. simpl in H.
  destruct (h (CTokenize tk texts true "max_length" n) w) as [[e|enc] w0] eqn:Hc;
    simpl in H; [discriminate H|].
  destruct (Hpad _ _ _ _ _ Hc) as [Hids Hmask].
  destruct (rows_of (enc_input_ids enc) (enc_attention_mask enc) (enc_input_ids enc))
    as [e|r] eqn:Hr; simpl in H; [discriminate H|].
  inversion H; subst; clear H. intros ex Hin.
  destruct (rows_of_labels _ _ _ Hr ex Hin) as (Hi & Hm & Hl).
  rewrite List.Forall_forall in Hids, Hmask.
  unfold fixed_length. rewrite Hl. auto.
Qed.

Lemma mapM_tok_fixed_length (tk : tokenizer) (n : Z) (bs : list (list string))
    (w w' : W) (rs : list (list example)) (t : trace) :
  tokenizer_pads n ->
  run (mapM (tok tk n) bs) w = (inr rs, w', t) ->
  forall ex, In ex (concat rs) -> fixed_length n ex.
Proof.
  intros Hpad. revert w w' rs t.
  induction bs as [|b bs IH]; intros w w' rs t H.
  - simpl in H. inversion H; subst. intros ex [].
  - cbn [mapM] in H. rewrite run_bind in H.
    destruct (run (tok tk n b) w) as [[[e|r] w1] t1] eqn:Hb; [discriminate H|].
    rewrite run_bind in H.
    destruct (run (mapM (tok tk n) bs) w1) as [[[e|rs'] w2] t2] eqn:Hbs;
      [discriminate H|].
    simpl in H. inversion H; subst; clear H.
    intros ex Hin. simpl in Hin. apply in_app_or in Hin as [Hin|Hin].
    + eapply tok_fixed_length; eassumption.
    + eapply IH; eassumption.
Qed.

(** C4. Whenever the tokenizer honours truncation and padding to
    [max_length], every example that [build_dataset] produces has input
    ids, attention mask and labels of exactly [max_length] entries, and its
    labels are its input ids. *)
Theorem build_dataset_fixed_length
    (jsonl_path : pyval) (tk : tokenizer) (max_length : Z)
    (w w' : W) (ds : list example) (t : trace) :
  tokenizer_pads max_length ->
  run (build_dataset jsonl_path tk max_length) w = (inr ds, w', t) ->
  forall ex, In ex ds -> fixed_length max_length ex.
Proof.
  intros Hpad H. unfold build_dataset in H.
  repeat (rewrite run_bind in H;
          match type of H with
          | context [run ?p ?w0] =>
              destruct (run p w0) as [[[?e|?a] ?w] ?t];
              [discriminate H|]
          end).
  destruct a1 as [|x texts].
  - rewrite run_bind in H.
    destruct (run (call_ CMapNoRows) w3) as [[[e|u] w4] t4]; [discriminate H|].
    simpl in H. inversion H; subst. intros ex [].
  - rewrite run_bind in H.
    destruct (run (mapM (tok tk max_length) (batches 1000 (x :: texts))) w3)
      as [[[e|rs] w4] t4] eqn:Hm; [discriminate H|].
    simpl in H. inversion H; subst; clear H.
    eapply mapM_tok_fixed_length; eassumption.
Qed.

(** ** Phases of [main] and what they leave in the trace *)

Lemma pick_app {X} (f : event -> option X) (t1 t2 : trace) :
  pick f (t1 ++ t2) = (pick f t1 ++ pick f t2)%list.
Proof.
  induction t1 as [|ev t1 IH]; simpl; [reflexivity|].
  destruct (f ev); simpl; rewrite IH; reflexivity.
Qed.

Lemma quiet_trace (t : trace) :
  List.Forall (events_of quiet_call) t ->
  logs t = [] /\ exists_checks t = [] /\ listings t = [] /\
  train_calls t = [] /\ model_loads t = [] /\ saves t = [] /\ writes t = [].
Proof.
  unfold logs, exists_checks, listings, train_calls, model_loads, saves, writes.
  induction 1 as [|ev t Hev _ IH]; [repeat split|].
  destruct ev as [m|c r]; [destruct Hev|].
  destruct c; try discriminate Hev; exact IH.
Qed.

Lemma resolve_config_quiet (a : args) : only quiet_call (resolve_config a).
Proof.
  unfold resolve_config. destruct (config_file a); [|exact I].
  apply only_bind.
  - unfold load_yaml_cfg. apply only_bind; [apply only_call; reflexivity|].
    intros v. exact I.
  - intros cfg. apply only_lift.
Qed.

Lemma build_dataset_quiet (p : pyval) (tk : tokenizer) (n : Z) :
  only quiet_call (build_dataset p tk n).
Proof.
  unfold build_dataset, load_jsonl_rows, tok.
  repeat first
    [ apply only_call; reflexivity
    | apply only_lift
    | apply only_mapM; intros ?
    | apply only_bind; [|intros ?]
    | exact I
    | match goal with |- only _ (match ?l with [] => _ | _ => _ end) => destruct l end
    | match goal with |- only _ (match ?o with Some _ => _ | None => _ end) => destruct o end ].
Qed.


Arguments build_dataset : simpl never.
Arguments resolve_config : simpl never.
Arguments latest_checkpoint : simpl never.
Arguments normalize_base_model_id : simpl never.
Arguments path_join : simpl never.
Arguments modelfile_text : simpl never.
Arguments fallback_config : simpl never.
Arguments rule : simpl never.
Arguments export : simpl never.
Arguments fit : simpl never.

Lemma cap_threads_quiet (cuda : bool) : only quiet_call (cap_threads cuda).
Proof.
  unfold cap_threads, set_threads. destruct cuda; simpl; [exact I|].
  split; [reflexivity|]. intros [e|n]; simpl; [exact I|].
  split; [reflexivity|]. intros r. exact I.
Qed.

Arguments cap_threads : simpl never.

Lemma py_path_join_inr (v : pyval) (b s : string) :
  py_path_join v b = inr s -> exists od, v = VStr od /\ s = path_join od b.
Proof.
  destruct v; simpl; try discriminate. intros H. inversion H. eauto.
Qed.

Ltac observers :=
  unfold logs, exists_checks, listings, train_calls, model_loads, saves, writes in *.

(** Step over a sub-program that makes quiet calls only. *)
Ltac wp_quiet p w lem :=
  let Hq := fresh "Hq" in
  pose proof (quiet_trace _ (only_run quiet_call p w lem)) as Hq;
  apply wp_bind; apply wp_exec;
  destruct (run p w) as [[[?e|?a] ?w] ?t];
  cbn [fst snd] in *.

(** One step forward: answer a call, open a [lift], or decide a test. *)
Ltac wp_step :=
  cbn [wp bind call_ try_call log lift banner find_checkpoint train];
  lazymatch goal with
  | |- forall a w1, h (CGradientCheckpointing _) _ = _ -> _ => intros ? ? _
  | |- forall a w1, h _ _ = _ -> _ =>
      let e := fresh "e" in let x := fresh "x" in let w := fresh "w" in
      intros [e|x] w _
  | |- wp (bind (lift ?r) _) _ _ =>
      let E := fresh "E" in destruct r eqn:E
  | |- wp (bind (build_dataset ?p ?tk ?n) _) _ ?w =>
      wp_quiet (build_dataset p tk n) w (build_dataset_quiet p tk n)
  | |- wp (bind (cap_threads ?b) _) _ ?w =>
      wp_quiet (cap_threads b) w (cap_threads_quiet b)
  | |- wp (bind (train _ ?o) _) _ _ =>
      unfold train; destruct o as [?p|]; [destruct (PyStr.truthy p) eqn:?|]
  | |- wp (bind (if ?x then _ else _) _) _ _ => destruct x eqn:?
  | |- wp (if ?x then _ else _) _ _ => destruct x eqn:?
  | |- wp (match ?x with _ => _ end) _ _ => destruct x eqn:?
  | |- wp (bind (match ?x with _ => _ end) _) _ _ => destruct x eqn:?
  end.

Ltac pick_simpl :=
  cbn [pick log_of exists_of listing_of train_of model_of save_of write_of
       app In].

Ltac trace_simpl :=
  observers;
  repeat match goal with
         | Hq : _ /\ _ |- _ => destruct Hq as [? Hq]
         end;
  pick_simpl; repeat (rewrite !pick_app; pick_simpl);
  repeat match goal with
         | Hq : pick _ _ = [] |- _ => rewrite !Hq
         end;
  pick_simpl.

Lemma fit_trace (c : config) (bm : string) (w : W) :
  wp (fit c bm) (fun r _ t => fit_post c bm r t) w.
Proof.
  unfold fit.
  repeat wp_step.
  all: cbn [wp bind call_ try_call log lift]; unfold fit_post; trace_simpl.
  all: try solve [repeat split; try discriminate; intros ? []].
  all: repeat split; try discriminate; try reflexivity.
  all: intros resume [<-|[]];
    destruct (py_path_join_inr _ _ _ E) as (od & Hod & ->);
    exists od; (split; [exact Hod|]); cbn [resume_ok].
  - destruct (latest_checkpoint_some _ _ _ E0) as (n & -> & Hl). eauto.
  - destruct (latest_checkpoint_some _ _ _ E0) as (n & -> & Hl). eauto.
  - pose proof (latest_checkpoint_truthy _ _ _ E0). congruence.
  - pose proof (latest_checkpoint_truthy _ _ _ E0). congruence.
  - right. eexists. split; [reflexivity|]. eapply latest_checkpoint_none; eassumption.
  - right. eexists. split; [reflexivity|]. eapply latest_checkpoint_none; eassumption.
  - left. reflexivity.
  - left. reflexivity.
Qed.


Lemma export_trace (c : config) (bm : string) (m : handle) (w : W) :
  wp (export c bm m) (fun r _ t => export_post c r t) w.
Proof.
  unfold export.
  repeat wp_step.
  all: repeat match goal with
              | H : negb ?b = _ |- _ => destruct b; try discriminate H; clear H
              end.
  all: cbn [wp bind call_ try_call log lift]; unfold export_post, adapter_path;
       trace_simpl.
  all: repeat split; try reflexivity; try (intros ? ?; discriminate).
  all: eexists; (split; [eassumption|]); (split; [reflexivity|]).
  - left. repeat split.
  - right. repeat split. eexists; reflexivity.
  - right. repeat split. eexists; reflexivity.
Qed.

(** ** The runs of [main] *)

Lemma found_excludes_not_found (a : args) (w : W) :
  dataset_found_at a w -> ~ dataset_not_found_at a w.
Proof.
  intros (c & w1 & t1 & Hc & Ht & Hx) (c' & w1' & t1' & Hc' & Hor).
  rewrite Hc in Hc'. inversion Hc'; subst c' w1' t1'.
  destruct Hor; congruence.
Qed.

(* ===================================================================== *)
(** * Further properties of the functions *)
(* ===================================================================== *)

(** ** Trimming, and the fixed points of the model-name resolver *)

Lemma rstrip_idem (s : string) : PyStr.rstrip (PyStr.rstrip s) = PyStr.rstrip s.
Proof.
  induction s as [|c r IH]; [reflexivity|].
  rewrite rstrip_cons. destruct (PyStr.rstrip r) as [|c' r'] eqn:E.
  - destruct (PyStr.isspace c) eqn:Hc; [reflexivity|].
    rewrite rstrip_cons. cbn [PyStr.rstrip]. rewrite Hc. reflexivity.
  - rewrite rstrip_cons, IH. reflexivity.
Qed.

Lemma strip_idem (s : string) : PyStr.strip (PyStr.strip s) = PyStr.strip s.
Proof.
  unfold PyStr.strip.
  destruct (lstrip_head s) as [E|(c & r & E & Hc)]; rewrite E; [reflexivity|].
  destruct (rstrip_head c r Hc) as [r' E']. rewrite E'.
  cbn [PyStr.lstrip]. rewrite Hc, <- E'. apply rstrip_idem.
Qed.

Lemma alias_key_strip (s : string) : alias_key (PyStr.strip s) = alias_key s.
Proof. unfold alias_key. rewrite strip_idem. reflexivity. Qed.

(** Every identifier of the alias table is trimmed and is not itself a
    key of the table. *)
Lemma aliases_values (k v : string) :
  aliases !! k = Some v ->
  normalize_base_model_id v = v /\ PyStr.strip v = v.
Proof.
  unfold aliases. intros H. apply elem_of_list_to_map_2 in H.
  repeat (apply elem_of_cons in H as [H|H];
          [inversion H; subst; split; vm_compute; reflexivity|]).
  apply elem_of_nil in H. destruct H.
Qed.

Lemma normalize_nonempty (c : ascii) (r : string) :
  normalize_base_model_id (String c r) =
  default (PyStr.strip (String c r)) (aliases !! alias_key (String c r)).
Proof. reflexivity. Qed.

(** X1. Resolving a model name twice gives what resolving it once gives:
    an identifier of the alias table is never a key of the table, and a
    name that is passed through is already trimmed. *)
Theorem normalize_base_model_id_idempotent (s : string) :
  normalize_base_model_id (normalize_base_model_id s) = normalize_base_model_id s.
Proof.
  destruct s as [|c r]; [reflexivity|].
  rewrite (normalize_nonempty c r).
  destruct (aliases !! alias_key (String c r)) as [v|] eqn:E; cbn [default].
  - apply (aliases_values _ _ E).
  - destruct (PyStr.strip (String c r)) as [|c' r'] eqn:Es; [reflexivity|].
    rewrite normalize_nonempty, <- Es, alias_key_strip, E. cbn [default].
    apply strip_idem.
Qed.

(** X2. The identifier that the resolver returns has no white space at
    either end, whether it comes from the alias table or is the name
    passed through. *)
Theorem normalize_base_model_id_trimmed (s : string) :
  PyStr.strip (normalize_base_model_id s) = normalize_base_model_id s.
Proof.
  destruct s as [|c r]; [reflexivity|].
  rewrite normalize_nonempty.
  destruct (aliases !! alias_key (String c r)) as [v|] eqn:E; cbn [default].
  - apply (aliases_values _ _ E).
  - apply strip_idem.
Qed.

(** ** The scan of the command line for [--outdir] *)

Lemma scan_outdir_flag (argv : list string) (v : string) :
  scan_outdir argv = Some v <-> outdir_flag argv v.
Proof.
  unfold outdir_flag. split.
  - induction argv as [|a rest IH]; [discriminate|].
    cbn [scan_outdir]. destruct (String.eqb a "--outdir") eqn:E.
    + apply String.eqb_eq in E. subst a.
      destruct rest as [|v' rest']; [discriminate|].
      intros H. inversion H; subst. exists [], rest'.
      split; [reflexivity|intros []].
    + intros H. destruct (IH H) as (pre & post & -> & Hn).
      exists (a :: pre), post. split; [reflexivity|].
      intros [->|Hin]; [rewrite String.eqb_refl in E; discriminate|auto].
  - intros (pre & post & -> & Hn).
    induction pre as [|a pre IH]; cbn [app scan_outdir].
    + rewrite String.eqb_refl. reflexivity.
    + destruct (String.eqb a "--outdir") eqn:E.
      * apply String.eqb_eq in E. subst a. exfalso. apply Hn. left. reflexivity.
      * apply IH. intros Hin. apply Hn. right. assumption.
Qed.

(** X3. The handler's scan returns [v] exactly when the command line has
    an argument ["--outdir"] that is followed by [v] and preceded by no
    other ["--outdir"]; a trailing ["--outdir"] and the one-token form
    [--outdir=v] give nothing. *)
Theorem scan_outdir_first (argv : list string) (v : string) :
  scan_outdir argv = Some v <->
  exists pre post,
    argv = pre ++ "--outdir" :: v :: post /\ ~ In "--outdir" pre.
Proof. exact (scan_outdir_flag argv v). Qed.

(** ** The order of the checkpoints *)

Lemma last_greatest_none (l : list (Z * string)) :
  last_greatest l = None -> l = [].
Proof.
  destruct l as [|x r]; [reflexivity|]. cbn [last_greatest].
  destruct (last_greatest r) as [b|]; [destruct (b.1 <? x.1)|]; discriminate.
Qed.

Lemma sort_keyed_nil (l : list (Z * string)) : sort_keyed l = [] -> l = [].
Proof.
  destruct l as [|x r]; [reflexivity|]. intros E.
  assert (Hi : In x (sort_keyed (x :: r))) by (apply sort_keyed_In; left; reflexivity).
  rewrite E in Hi. destruct Hi.
Qed.

Lemma insert_keyed_last (x : Z * string) (l : list (Z * string)) (d : Z * string) :
  keys_sorted l ->
  List.last (insert_keyed x l) d =
    match l with
    | [] => x
    | _ => if (List.last l d).1 <? x.1 then x else List.last l d
    end.
Proof.
  intros Hs. induction Hs as [|z l Hs IH Hz]; [reflexivity|].
  cbn [insert_keyed]. destruct (Z.leb_spec x.1 z.1) as [Hle|Hgt].
  - change (List.last (x :: z :: l) d) with (List.last (z :: l) d).
    assert (Hm : z.1 <= (List.last (z :: l) d).1).
    { apply sorted_last_max; [constructor; assumption|left; reflexivity]. }
    destruct (Z.ltb_spec (List.last (z :: l) d).1 x.1); [lia|reflexivity].
  - assert (Hne : insert_keyed x l <> []).
    { destruct l as [|y l']; cbn [insert_keyed]; [discriminate|].
      destruct (x.1 <=? y.1); discriminate. }
    destruct (insert_keyed x l) as [|i il] eqn:Ei; [congruence|].
    change (List.last (z :: i :: il) d) with (List.last (i :: il) d).
    rewrite IH. destruct l as [|y l'].
    + cbn [List.last]. destruct (Z.ltb_spec z.1 x.1); [reflexivity|lia].
    + reflexivity.
Qed.

(** The last entry of the sorted list is the one that the single pass
    finds. *)
Lemma sort_keyed_last (l : list (Z * string)) (d : Z * string) :
  List.last (sort_keyed l) d = default d (last_greatest l).
Proof.
  induction l as [|x r IH]; [reflexivity|].
  cbn [sort_keyed last_greatest].
  rewrite insert_keyed_last by apply sort_keyed_sorted.
  destruct (sort_keyed r) as [|y s'] eqn:Es.
  - apply sort_keyed_nil in Es. subst r. reflexivity.
  - rewrite IH. destruct (last_greatest r) as [b|] eqn:Eb.
    + simpl. destruct (b.1 <? x.1); reflexivity.
    + apply last_greatest_none in Eb. subst r. discriminate Es.
Qed.

(** X4. Sorting the checkpoint entries by key and taking the last one is
    one pass that keeps the entry of greatest key and, among entries of
    the same key (such as checkpoint-5 and checkpoint-05), the one that
    [os.listdir] returned last; without a checkpoint entry the result is
    [None] and the key function is never called. *)
Theorem latest_checkpoint_last_greatest (hf : string) (entries : list string) :
  latest_checkpoint hf entries =
    rbind (keyed (checkpoint_entries entries)) (fun ks =>
      ok ((fun b => path_join hf b.2) <$> last_greatest ks)).
Proof.
  unfold latest_checkpoint.
  destruct (checkpoint_entries entries) as [|c0 cs]; [reflexivity|].
  destruct (keyed (c0 :: cs)) as [e|ks] eqn:Hk; [reflexivity|].
  cbn [rbind]. destruct (keyed_ok _ _ Hk) as [Hm _].
  assert (Hne : sort_keyed ks <> []).
  { intros E. apply sort_keyed_nil in E. subst ks. discriminate Hm. }
  rewrite (last_map snd _ "" (0, "") Hne), sort_keyed_last.
  destruct (last_greatest ks) as [b|] eqn:Eb; [reflexivity|].
  apply last_greatest_none in Eb. subst ks. discriminate Hm.
Qed.

Lemma latest_checkpoint_keys (hf : string) (entries : list string)
    (r : option string) :
  latest_checkpoint hf entries = inr r ->
  forall n, In n (checkpoint_entries entries) -> checkpoint_key n <> None.
Proof.
  intros H n Hin. destruct r as [p|].
  - destruct (latest_checkpoint_some _ _ _ H) as (m & _ & _ & k & _ & Hall).
    destruct (Hall n Hin) as (kn & Hkn & _). congruence.
  - apply latest_checkpoint_none in H. rewrite H in Hin. destruct Hin.
Qed.

(** X5. When no two checkpoint entries have the same key, the checkpoint
    found does not depend on the order in which [os.listdir] returns the
    entries. *)
Theorem latest_checkpoint_any_order
    (hf : string) (entries entries' : list string) (r : option string) :
  Permutation entries entries' ->
  (forall m n, In m (checkpoint_entries entries) ->
               In n (checkpoint_entries entries) ->
               checkpoint_key m = checkpoint_key n -> m = n) ->
  latest_checkpoint hf entries = inr r ->
  latest_checkpoint hf entries' = inr r.
Proof.
  intros Hp Hinj H.
  assert (Hsame : forall n, In n (checkpoint_entries entries') <->
                            In n (checkpoint_entries entries)).
  { intros n. rewrite !checkpoint_entries_prefix. split; intros [Hi Hs]; split;
      try assumption.
    - eapply Permutation_in; [symmetry; exact Hp|exact Hi].
    - eapply Permutation_in; [exact Hp|exact Hi]. }
  destruct (latest_checkpoint_total hf entries') as [r' H'].
  { intros n Hn. apply Hsame in Hn. eapply latest_checkpoint_keys; eassumption. }
  rewrite H'. f_equal.
  destruct r as [p|], r' as [p'|].
  - destruct (latest_checkpoint_some _ _ _ H) as (n & -> & Hn & k & Hk & Hall).
    destruct (latest_checkpoint_some _ _ _ H') as (n' & -> & Hn' & k' & Hk' & Hall').
    apply Hsame in Hn'.
    destruct (Hall n' Hn') as (k1 & Hk1 & Hle1).
    destruct (Hall' n (proj2 (Hsame n) Hn)) as (k2 & Hk2 & Hle2).
    assert (k = k') by (rewrite Hk' in Hk1; rewrite Hk in Hk2;
                        inversion Hk1; inversion Hk2; lia).
    subst k'. rewrite (Hinj n' n Hn' Hn); [reflexivity|congruence].
  - destruct (latest_checkpoint_some _ _ _ H) as (n & _ & Hn & _).
    apply latest_checkpoint_none in H'. apply Hsame in Hn.
    rewrite H' in Hn. destruct Hn.
  - destruct (latest_checkpoint_some _ _ _ H') as (n & _ & Hn & _).
    apply latest_checkpoint_none in H. apply Hsame in Hn.
    rewrite H in Hn. destruct Hn.
  - reflexivity.
Qed.

(** ** The sign of a checkpoint key *)

Lemma digits_cons (c : ascii) (r : string) (b : bool) (acc : Z) :
  PyStr.digits (String c r) b acc =
    match PyStr.digit_val c with
    | Some d => PyStr.digits r true (10 * acc + d)
    | None =>
        if Ascii.eqb c "_"%char && b
        then match r with
             | EmptyString => None
             | String c' _ =>
                 match PyStr.digit_val c' with
                 | Some _ => PyStr.digits r false acc
                 | None => None
                 end
             end
        else None
    end.
Proof. reflexivity. Qed.

Lemma digit_val_nonneg (c : ascii) (d : Z) : PyStr.digit_val c = Some d -> 0 <= d.
Proof.
  unfold PyStr.digit_val.
  destruct ((48 <=? nat_of_ascii c)%nat && (nat_of_ascii c <=? 57)%nat) eqn:E;
    [|discriminate].
  intros H. inversion H. apply andb_prop in E as [E _].
  apply Nat.leb_le in E. lia.
Qed.

Lemma digits_nonneg (s : string) :
  forall b acc k, 0 <= acc -> PyStr.digits s b acc = Some k -> 0 <= k.
Proof.
  induction s as [|c r IH]; intros b acc k Hacc H.
  - cbn [PyStr.digits] in H. destruct b; [inversion H; subst; assumption|discriminate].
  - rewrite digits_cons in H.
    destruct (PyStr.digit_val c) as [d|] eqn:Ed.
    + apply digit_val_nonneg in Ed. eapply IH; [|exact H]. lia.
    + destruct (Ascii.eqb c "_"%char && b); [|discriminate].
      destruct r as [|c' r']; [discriminate|].
      destruct (PyStr.digit_val c'); [|discriminate].
      eapply IH; [|exact H]. assumption.
Qed.

Lemma int_rstrip_cons (c : ascii) (r : string) :
  PyStr.int_rstrip (String c r) =
    match PyStr.int_rstrip r with
    | EmptyString => if PyStr.int_space c then EmptyString else String c EmptyString
    | r' => String c r'
    end.
Proof. reflexivity. Qed.

Lemma contains_int_lstrip (c : ascii) (s : string) :
  PyStr.contains_char c (PyStr.int_lstrip s) = true ->
  PyStr.contains_char c s = true.
Proof.
  induction s as [|d r IH]; [discriminate|].
  cbn [PyStr.int_lstrip]. destruct (PyStr.int_space d); [|trivial].
  intros H. cbn [PyStr.contains_char]. rewrite (IH H). apply orb_true_r.
Qed.

Lemma contains_int_rstrip (c : ascii) (s : string) :
  PyStr.contains_char c (PyStr.int_rstrip s) = true ->
  PyStr.contains_char c s = true.
Proof.
  induction s as [|d r IH]; [discriminate|].
  rewrite int_rstrip_cons. cbn [PyStr.contains_char].
  destruct (PyStr.int_rstrip r) as [|d' r'].
  - destruct (PyStr.int_space d); [discriminate|].
    cbn [PyStr.contains_char]. rewrite orb_false_r. intros ->. reflexivity.
  - cbn [PyStr.contains_char] in *. intros H.
    apply orb_prop in H as [->|H]; [reflexivity|].
    rewrite (IH H). apply orb_true_r.
Qed.

Lemma last_field_no_sep (c : ascii) (s : string) :
  PyStr.contains_char c (PyStr.last_field c s) = false.
Proof.
  induction s as [|d r IH]; [reflexivity|].
  cbn [PyStr.last_field].
  destruct (PyStr.contains_char c (String d r)) eqn:E; [|exact E].
  destruct (Ascii.eqb c d && negb (PyStr.contains_char c r)) eqn:E2; [|exact IH].
  apply andb_prop in E2 as [_ E2]. apply negb_true_iff in E2. exact E2.
Qed.

Lemma to_int_cases (s : string) :
  PyStr.to_int s =
    if PyStr.max_str_digits <? PyStr.digit_count (PyStr.int_rstrip (PyStr.int_lstrip s))
    then None
    else match PyStr.int_rstrip (PyStr.int_lstrip s) with
         | EmptyString => None
         | String c r =>
             if Ascii.eqb c "+"%char then PyStr.digits r false 0
             else if Ascii.eqb c "-"%char then Z.opp <$> PyStr.digits r false 0
             else PyStr.digits (String c r) false 0
         end.
Proof.
  unfold PyStr.to_int. cbv zeta.
  destruct (PyStr.max_str_digits <? _); [reflexivity|].
  destruct (PyStr.int_rstrip (PyStr.int_lstrip s)) as [|c r]; [reflexivity|].
  destruct c as [[] [] [] [] [] [] [] []]; reflexivity.
Qed.

(** X6. The sort key of a checkpoint entry is never negative: the part of
    the name after its last ["-"] cannot hold a minus sign. *)
Theorem checkpoint_key_nonneg (n : string) (k : Z) :
  PyStr.startswith "checkpoint-" n = true ->
  checkpoint_key n = Some k ->
  0 <= k.
Proof.
  intros Hp. unfold checkpoint_key.
  rewrite (checkpoint_prefix_has_dash n Hp), to_int_cases.
  destruct (PyStr.max_str_digits <? _); [discriminate|].
  assert (Hf : PyStr.contains_char "-"
                 (PyStr.int_rstrip (PyStr.int_lstrip (PyStr.last_field "-" n))) = false).
  { destruct (PyStr.contains_char "-"
                (PyStr.int_rstrip (PyStr.int_lstrip (PyStr.last_field "-" n)))) eqn:E;
      [|reflexivity].
    apply contains_int_rstrip, contains_int_lstrip in E.
    rewrite last_field_no_sep in E. discriminate E. }
  destruct (PyStr.int_rstrip (PyStr.int_lstrip (PyStr.last_field "-" n))) as [|c r];
    [discriminate|].
  cbn [PyStr.contains_char] in Hf. apply orb_false_elim in Hf as [Hc _].
  rewrite Ascii.eqb_sym in Hc. rewrite Hc.
  destruct (Ascii.eqb c "+"%char); intros H;
    eapply digits_nonneg; try exact H; lia.
Qed.

(** ** Records *)

(** X7. [to_text] on a record: a missing field and a field whose value is
    false ([None], 0, the empty string) count as the empty string, a
    string is trimmed, and any other value of [prompt] or [response]
    raises [AttributeError], [prompt] first. *)
Theorem to_text_fields (d : gmap string pyval) :
  to_text (VDict d) =
    match field_text d "prompt" with
    | None =>
        fail (BuiltinError "AttributeError" "strip" (default VNone (d !! "prompt")))
    | Some p =>
        match field_text d "response" with
        | None =>
            fail (BuiltinError "AttributeError" "strip"
                    (default VNone (d !! "response")))
        | Some r => ok ("User: " ++ p ++ nl ++ "Assistant: " ++ r)%string
        end
    end.
Proof.
  assert (Hf : forall k,
    py_strip (py_or (default VNone (d !! k)) (VStr "")) =
      match field_text d k with
      | Some s => ok s
      | None => fail (BuiltinError "AttributeError" "strip" (default VNone (d !! k)))
      end).
  { intros k. unfold field_text, py_or.
    destruct (d !! k) as [v|]; cbv [default from_option id]; [|reflexivity].
    destruct (truthy v) eqn:Et; [destruct v; reflexivity|reflexivity]. }
  unfold to_text. cbn [py_get rbind]. rewrite !Hf.
  destruct (field_text d "prompt"); [|reflexivity]. cbn [rbind].
  destruct (field_text d "response"); reflexivity.
Qed.

(** What is not a mapping has no [get]. *)
Lemma to_text_not_dict (v : pyval) :
  (forall d, v <> VDict d) ->
  to_text v = fail (BuiltinError "AttributeError" "get" v).
Proof. intros H. destruct v; try reflexivity. exfalso. eapply H. reflexivity. Qed.

(** ** The configuration file *)

Lemma merge_config_empty (a : args) :
  merge_config (VDict ∅) a = inr (args_config a).
Proof.
  unfold merge_config, resolve_bsz. cbn [py_get]. rewrite !lookup_empty.
  reflexivity.
Qed.

Lemma run_call (c : call) (w : W) :
  run (call_ c) w = ((h c w).1, (h c w).2, [EvCall c (h c w).1]).
Proof. cbn [call_ run]. destruct (h c w) as [[e|x] w1]; reflexivity. Qed.

(** X8. A configuration file whose document is empty (or any other false
    value) changes nothing: the configuration is the one of the command
    line, as without [--config]. *)
Theorem empty_config_file (a : args) (p : string) (v : pyval) (w w1 : W) :
  config_file a = Some p ->
  h (CLoadYaml p) w = (inr v, w1) ->
  truthy v = false ->
  run (resolve_config a) w =
    (inr (args_config a), w1, [EvCall (CLoadYaml p) (inr v)]).
Proof.
  intros Hc Hh Ht. unfold resolve_config, load_yaml_cfg. rewrite Hc.
  rewrite !run_bind, run_call, Hh. cbn [fst snd run].
  unfold py_or. rewrite Ht, merge_config_empty. reflexivity.
Qed.

(** X9. A configuration file whose document is not a mapping (a list, a
    string, a number) makes the run raise [AttributeError] as soon as the
    file has been loaded. *)
Theorem config_file_not_a_mapping (a : args) (p : string) (v : pyval) (w w1 : W) :
  config_file a = Some p ->
  h (CLoadYaml p) w = (inr v, w1) ->
  truthy v = true ->
  (forall d, v <> VDict d) ->
  run (resolve_config a) w =
    (inl (BuiltinError "AttributeError" "get" v), w1,
     [EvCall (CLoadYaml p) (inr v)]).
Proof.
  intros Hc Hh Ht Hd. unfold resolve_config, load_yaml_cfg. rewrite Hc.
  rewrite !run_bind, run_call, Hh. cbn [fst snd run].
  unfold py_or. rewrite Ht.
  destruct v; try reflexivity. exfalso. eapply Hd. reflexivity.
Qed.

Ltac lookup_case :=
  intros;
  repeat match goal with
         | Hl : _ !! _ = _ |- _ => rewrite Hl in *; clear Hl
         end;
  cbv [default from_option id py_or] in *;
  repeat match goal with
         | Ht : truthy _ = _ |- _ => rewrite Ht in *
         end;
  cbn [py_int py_float py_strip truthy] in *;
  try congruence.

(** X10. When the merge with a configuration file succeeds, a value of the
    file takes precedence over the command line for every key, and the
    command line fills in the keys that the file does not have; for
    [dataset_path] and [base_model] a value of the file that is false
    (null, empty) also gives way to the command line. *)
Theorem merge_config_precedence (cfg : pyval) (a : args) (c : config) :
  merge_config cfg a = inr c ->
  exists d : gmap string pyval,
    cfg = VDict d /\
    (forall v, d !! "dataset_path" = Some v -> truthy v = true -> data_path c = v) /\
    (forall v, d !! "dataset_path" = Some v -> truthy v = false ->
       data_path c = of_opt_str (arg_data a)) /\
    (d !! "dataset_path" = None -> data_path c = of_opt_str (arg_data a)) /\
    (forall s, d !! "base_model" = Some (VStr s) -> s <> "" ->
       base_model_raw c = PyStr.strip s) /\
    (forall v, d !! "base_model" = Some v -> truthy v = false ->
       base_model_raw c = PyStr.strip (arg_base a)) /\
    (d !! "base_model" = None -> base_model_raw c = PyStr.strip (arg_base a)) /\
    (forall z, d !! "epochs" = Some (VInt z) -> epochs c = z) /\
    (d !! "epochs" = None -> epochs c = arg_epochs a) /\
    (forall f, d !! "learning_rate" = Some (VFloat f) -> lr c = f) /\
    (d !! "learning_rate" = None -> lr c = arg_lr a) /\
    (forall v, d !! "output_dir" = Some v -> outdir c = v) /\
    (d !! "output_dir" = None -> outdir c = VStr (arg_outdir a)) /\
    (forall z, d !! "max_length" = Some (VInt z) -> max_length c = z) /\
    (d !! "max_length" = None -> max_length c = arg_max_length a).
Proof.
  intros H. unfold merge_config in H.
  destruct cfg as [| | | | | |d]; simpl in H; try discriminate H.
  exists d. split; [reflexivity|].
  rbind_ok H. inversion H; subst c; clear H.
  cbn [data_path base_model_raw epochs lr outdir max_length].
  repeat split; try solve [lookup_case].
  - intros s0 Hs Hne. rewrite Hs in *. cbv [default from_option id py_or] in *.
    destruct s0 as [|ch s']; [congruence|]. cbn in *. congruence.
Qed.

(** X11. A numeric key that the configuration file leaves empty (null)
    makes the merge raise: [int] and [float] refuse [None].  (An empty
    [dataset_path] or [base_model] gives way to the command line
    instead.) *)
Theorem merge_config_null_number (d : gmap string pyval) (a : args) :
  d !! "epochs" = Some VNone \/ d !! "learning_rate" = Some VNone \/
  d !! "batch_size" = Some VNone \/ d !! "max_length" = Some VNone ->
  exists e, merge_config (VDict d) a = inl e.
Proof.
  intros H.
  destruct (merge_config (VDict d) a) as [e|c] eqn:Hm; [eauto|exfalso].
  unfold merge_config in Hm. simpl in Hm. rbind_ok Hm.
  match goal with E : resolve_bsz _ _ = inr _ |- _ =>
    rewrite resolve_bsz_dict in E; unfold batch_size_source in E end.
  destruct H as [H|[H|[H|H]]]; lookup_case.
Qed.

(** ** Reading and tokenizing the dataset *)

Lemma parse_trace (t : trace) :
  List.Forall (events_of parse_call) t ->
  reads t = [] /\ from_lists t = [] /\ tokenized t = [].
Proof.
  unfold reads, from_lists, tokenized.
  induction 1 as [|ev t Hev _ IH]; [repeat split|].
  destruct ev as [m|c r]; [destruct Hev|].
  destruct c; try discriminate Hev; exact IH.
Qed.

Lemma tokenize_trace (t : trace) :
  List.Forall (events_of tokenize_call) t ->
  reads t = [] /\ from_lists t = [] /\ parse_calls t = [] /\ parsed t = [].
Proof.
  unfold reads, from_lists, parse_calls, parsed.
  induction 1 as [|ev t Hev _ IH]; [repeat split|].
  destruct ev as [m|c r]; [destruct Hev|].
  destruct c; try discriminate Hev; exact IH.
Qed.

Lemma mapM_parse (l : list string) (w : W) :
  match run (mapM (fun s => call_ (CJsonLoads s)) l) w with
  | (inr rows, _, t) =>
      parse_calls t = l /\ parsed t = rows /\ length rows = length l
  | (inl e, _, t) =>
      exists done bad rest t',
        l = done ++ bad :: rest /\ parse_calls t = done ++ [bad] /\
        t = t' ++ [EvCall (CJsonLoads bad) (inl e)]
  end.
Proof.
  revert w. induction l as [|x l IH]; intros w.
  - cbn [mapM run]. auto.
  - cbn [mapM]. rewrite run_bind, (run_call (CJsonLoads x)).
    destruct (h (CJsonLoads x) w) as [[e|v] w0]; cbn [fst snd].
    + exists [], x, l, []. repeat split.
    + rewrite run_bind. specialize (IH w0).
      destruct (run (mapM _ l) w0) as [[[e|rows] w1] t1].
      * destruct IH as (done & bad & rest & t' & -> & Hp & ->).
        exists (x :: done), bad, rest, (EvCall (CJsonLoads x) (inr v) :: t').
        repeat split. unfold parse_calls in *.
        cbn [app pick parse_of]. rewrite Hp. reflexivity.
      * cbn [run]. destruct IH as (Hp & Hv & Hl).
        unfold parse_calls, parsed in *. rewrite app_nil_r.
        cbn [app pick parse_of parsed_of length]. rewrite Hp, Hv, Hl. auto.
Qed.

Lemma mapM_parse_only (l : list string) :
  only parse_call (mapM (fun s => call_ (CJsonLoads s)) l).
Proof. apply only_mapM. intros s. apply only_call. reflexivity. Qed.

Lemma load_trace (t : trace) :
  List.Forall (events_of load_call) t ->
  from_lists t = [] /\ tokenized t = [].
Proof.
  unfold from_lists, tokenized.
  induction 1 as [|ev t Hev _ IH]; [repeat split|].
  destruct ev as [m|c r]; [destruct Hev|].
  destruct c; try discriminate Hev; exact IH.
Qed.

Lemma load_jsonl_rows_only (p : pyval) : only load_call (load_jsonl_rows p).
Proof.
  unfold load_jsonl_rows. apply only_bind; [apply only_call; reflexivity|].
  intros f. apply only_bind.
  - apply only_mapM. intros s. apply only_call. reflexivity.
  - intros rows. destruct (f.2); exact I.
Qed.

(** How a run of [load_jsonl_rows] that returns went. *)
Lemma load_jsonl_rows_run
    (p : pyval) (w w' : W) (rows : list pyval) (t : trace) :
  run (load_jsonl_rows p) w = (inr rows, w', t) ->
  (from_lists t = [] /\ tokenized t = []) /\
  exists lines,
    reads t = [(p, lines)] /\
    parse_calls t = records_of lines /\
    parsed t = rows /\
    length rows = length (records_of lines).
Proof.
  intros H. split.
  { pose proof (load_trace _ (only_run load_call _ w (load_jsonl_rows_only p)))
      as Hq.
    rewrite H in Hq. exact Hq. }
  revert H.
  unfold load_jsonl_rows. rewrite run_bind, (run_call (CReadLines p)).
  destruct (h (CReadLines p) w) as [[e|[lines err]] w0]; cbn [fst snd];
    [discriminate|].
  fold (records_of lines). rewrite run_bind.
  pose proof (mapM_parse (records_of lines) w0) as Hm.
  pose proof (parse_trace _ (only_run parse_call _ w0
                               (mapM_parse_only (records_of lines)))) as Hq.
  destruct (run (mapM _ (records_of lines)) w0) as [[[e|rows'] w1] t1];
    [discriminate|].
  cbn [fst snd] in Hq. destruct Hq as (Hr & _). destruct Hm as (Hp & Hv & Hl).
  destruct err as [e|]; cbn [run]; [discriminate|].
  intros H. inversion H; subst. exists lines.
  unfold reads, parse_calls, parsed in *. rewrite !app_nil_r.
  cbn [app pick read_of parse_of parsed_of]. rewrite Hr. auto.
Qed.

(** X12. When [load_jsonl_rows] returns, [json.loads] was called once on
    every line of the file that is not blank, trimmed, in the order of
    the file, and the rows returned are its answers: a blank line gives
    no row and no error. *)
Theorem load_jsonl_rows_records
    (p : pyval) (w w' : W) (rows : list pyval) (t : trace) :
  run (load_jsonl_rows p) w = (inr rows, w', t) ->
  exists lines,
    reads t = [(p, lines)] /\
    parse_calls t = records_of lines /\
    parsed t = rows /\
    length rows = length (records_of lines).
Proof.
  intros H. destruct (load_jsonl_rows_run _ _ _ _ _ H) as [_ Hrun]. exact Hrun.
Qed.

(** X13. When [load_jsonl_rows] raises, either the file could not be
    opened, or the file was opened and one of two things happened.  Either
    [json.loads] refused a line: the lines before it were parsed, the
    exception is that of [json.loads] on it, and no line after it is
    parsed, whatever the file holds further on, an error of its own
    included.  Or every line that the file yielded was parsed and the
    exception is the error that ended the reading of the file. *)
Theorem load_jsonl_rows_first_error
    (p : pyval) (w w' : W) (e : exn) (t : trace) :
  run (load_jsonl_rows p) w = (inl e, w', t) ->
  t = [EvCall (CReadLines p) (inl e)] \/
  exists lines err t',
    t = EvCall (CReadLines p) (inr (lines, err)) :: t' /\
    ((exists done bad rest t'',
        records_of lines = done ++ bad :: rest /\
        parse_calls t = done ++ [bad] /\
        t' = t'' ++ [EvCall (CJsonLoads bad) (inl e)]) \/
     (err = Some e /\
      parse_calls t = records_of lines /\
      length (parsed t) = length (records_of lines))).
Proof.
  unfold load_jsonl_rows. rewrite run_bind, (run_call (CReadLines p)).
  destruct (h (CReadLines p) w) as [[e0|[lines err]] w0]; cbn [fst snd].
  { intros H. inversion H; subst. left. reflexivity. }
  fold (records_of lines). rewrite run_bind.
  pose proof (mapM_parse (records_of lines) w0) as Hm.
  destruct (run (mapM _ (records_of lines)) w0) as [[[e1|rows'] w1] t1].
  - destruct Hm as (done & bad & rest & t'' & Hl & Hp & Ht).
    intros H. inversion H; subst e1 w1 t. right.
    exists lines, err, t1. split; [reflexivity|]. left.
    exists done, bad, rest, t''.
    unfold parse_calls in *. cbn [app pick parse_of]. auto.
  - destruct Hm as (Hp & Hv & Hl).
    destruct err as [e2|]; cbn [run]; [|discriminate].
    intros H. inversion H; subst e2 w1 t. right.
    exists lines, (Some e), (t1 ++ []). split; [reflexivity|]. right.
    unfold parse_calls, parsed in *. rewrite !app_nil_r.
    cbn [app pick parse_of parsed_of]. rewrite Hv. auto.
Qed.

Lemma batches_fuel_bound {A} (n fuel : nat) (l : list A) :
  (0 < n)%nat ->
  List.Forall (fun b => (0 < length b <= n)%nat) (batches_fuel fuel n l).
Proof.
  intros Hn. revert l. induction fuel as [|fuel IH]; intros l; [constructor|].
  destruct l as [|x l]; [constructor|].
  cbn [batches_fuel]. constructor; [|apply IH].
  rewrite length_take. cbn [length]. lia.
Qed.

Lemma rows_of_length (ids mask lbl : list (list Z)) (exs : list example) :
  rows_of ids mask lbl = inr exs -> length exs = length ids.
Proof.
  revert mask lbl exs.
  induction ids as [|i ids IH]; intros [|m mask] [|l lbl] exs H;
    cbn [rows_of] in H; try discriminate H.
  - inversion H. reflexivity.
  - destruct (rows_of ids mask lbl) as [e|r] eqn:Hr; cbn [rbind] in H;
      [discriminate H|].
    inversion H; subst. cbn [length]. rewrite (IH _ _ _ Hr). reflexivity.
Qed.

Lemma map_result_length {A B} (f : A -> result B) (l : list A) (ys : list B) :
  map_result f l = inr ys -> length ys = length l.
Proof.
  revert ys. induction l as [|x l IH]; intros ys H; cbn [map_result] in H.
  - inversion H. reflexivity.
  - destruct (f x) as [e|y]; cbn [rbind] in H; [discriminate H|].
    destruct (map_result f l) as [e|r]; cbn [rbind] in H; [discriminate H|].
    inversion H; subst. cbn [length]. rewrite (IH r eq_refl). reflexivity.
Qed.

Lemma tok_only (tk : tokenizer) (n : Z) (texts : list string) :
  only tokenize_call (tok tk n texts).
Proof.
  unfold tok. apply only_bind; [apply only_call; reflexivity|].
  intros out. apply only_lift.
Qed.

Lemma mapM_tok_calls (tk : tokenizer) (n : Z) (bs : list (list string)) (w : W) :
  match run (mapM (tok tk n) bs) w with
  | (inr rs, _, t) =>
      tokenized t = map (fun b => (b, tok_options n)) bs /\
      (tokenizer_rows -> length (concat rs) = length (concat bs))
  | (inl _, _, _) => True
  end.
Proof.
  revert w. induction bs as [|b bs IH]; intros w.
  - cbn [mapM run]. auto.
  - cbn [mapM]. rewrite run_bind. unfold tok at 1.
    rewrite run_bind, (run_call (CTokenize tk b true "max_length" n)).
    destruct (h (CTokenize tk b true "max_length" n) w) as [[e|enc] w0] eqn:Hc;
      cbn [fst snd]; [exact I|].
    destruct (rows_of (enc_input_ids enc) (enc_attention_mask enc)
                      (enc_input_ids enc)) as [e|exs] eqn:Hr;
      cbn [lift run]; [exact I|].
    rewrite run_bind. specialize (IH w0).
    destruct (run (mapM (tok tk n) bs) w0) as [[[e|rs] w1] t1]; [exact I|].
    cbn [run]. destruct IH as [Ht Hl]. split.
    + unfold tokenized in *. rewrite !app_nil_r.
      cbn [app pick tokenize_of map]. rewrite Ht. reflexivity.
    + intros Hrows. cbn [concat]. rewrite !length_app, (Hl Hrows).
      f_equal. rewrite (rows_of_length _ _ _ _ Hr). eapply Hrows. exact Hc.
Qed.

Ltac observers_all :=
  unfold logs, exists_checks, listings, train_calls, model_loads, saves,
    writes, reads, trained_on, parse_calls, parsed, from_lists, tokenized,
    makedirs, dumps, tokenizer_loads, training_args, isdir_checks in *.

Ltac pick_all :=
  cbn [pick log_of exists_of listing_of train_of model_of save_of write_of
       read_of trainer_of parse_of parsed_of from_list_of tokenize_of
       makedirs_of dump_of tokenizer_of targs_of isdir_of app].

Ltac trace_all :=
  observers_all;
  repeat match goal with
         | Hq : _ /\ _ |- _ => destruct Hq as [? Hq]
         end;
  pick_all; repeat (rewrite !pick_app; pick_all);
  repeat match goal with
         | Hq : pick _ _ = _ |- _ => rewrite !Hq
         end;
  pick_all.

(** How a run of [build_dataset] that returns went. *)
Lemma build_dataset_run
    (p : pyval) (tk : tokenizer) (n : Z) (w w' : W)
    (ds : list example) (t : trace) :
  run (build_dataset p tk n) w = (inr ds, w', t) ->
  exists lines texts,
    reads t = [(p, lines)] /\
    parse_calls t = records_of lines /\
    map_result to_text (parsed t) = inr texts /\
    length texts = length (records_of lines) /\
    from_lists t = [texts] /\
    tokenized t = map (fun b => (b, tok_options n)) (batches 1000 texts) /\
    (tokenizer_rows -> length ds = length texts) /\
    (refuses_no_rows -> texts <> []).
Proof.
  unfold build_dataset. rewrite run_bind, (run_call (CImport "datasets")).
  destruct (h (CImport "datasets") w) as [[e|u] w0]; cbn [fst snd];
    [discriminate|].
  rewrite run_bind.
  pose proof (load_jsonl_rows_run p w0) as Hload.
  destruct (run (load_jsonl_rows p) w0) as [[[e|rows] w1] t1]; [discriminate|].
  destruct (Hload _ _ _ eq_refl) as (Hq1 & lines & Hr & Hp & Hv & Hlen).
  clear Hload.
  rewrite run_bind.
  destruct (map_result to_text rows) as [e|texts] eqn:Ht; cbn [lift run];
    [discriminate|].
  pose proof (map_result_length _ _ _ Ht) as Hlt.
  rewrite run_bind, (run_call (CDatasetFromList texts)).
  destruct (h (CDatasetFromList texts) w1) as [[e|u'] w2]; cbn [fst snd];
    [discriminate|].
  destruct texts as [|x texts].
  - rewrite run_bind, (run_call CMapNoRows).
    destruct (h CMapNoRows w2) as [[e|u2] w3] eqn:Hmap; cbn [fst snd run];
      [discriminate|].
    intros H. inversion H; subst ds w' t; clear H.
    exists lines, []. trace_all. rewrite ?app_nil_r.
    repeat split; try assumption; try congruence.
    intros Href _. destruct (Href w2) as (e & w4 & He).
    rewrite He in Hmap. discriminate Hmap.
  - rewrite run_bind.
    pose proof (mapM_tok_calls tk n (batches 1000 (x :: texts)) w2) as Hm.
    pose proof (tokenize_trace _ (only_run tokenize_call _ w2
                  (only_mapM tokenize_call _ (batches 1000 (x :: texts))
                     (tok_only tk n)))) as Hq3.
    destruct (run (mapM (tok tk n) (batches 1000 (x :: texts))) w2)
      as [[[e|rs] w3] t3]; [discriminate|].
    cbn [fst snd run] in *.
    intros H. inversion H; subst ds w' t; clear H.
    destruct Hm as [Htok Hsize].
    exists lines, (x :: texts). trace_all. rewrite ?app_nil_r.
    repeat split; try assumption; try congruence.
    intros Hrows. rewrite (Hsize Hrows), batches_concat. reflexivity.
Qed.

(** X14. When [build_dataset] returns, every record of the file was
    rendered by [to_text] and handed to the tokenizer exactly once, in the
    order of the file, in batches of at most 1000 texts, each with
    truncation and padding to [max_length]. *)
Theorem build_dataset_tokenizes_every_record
    (p : pyval) (tk : tokenizer) (n : Z) (w w' : W)
    (ds : list example) (t : trace) :
  run (build_dataset p tk n) w = (inr ds, w', t) ->
  exists lines texts,
    reads t = [(p, lines)] /\
    parse_calls t = records_of lines /\
    map_result to_text (parsed t) = inr texts /\
    from_lists t = [texts] /\
    concat (map fst (tokenized t)) = texts /\
    List.Forall (fun b => (0 < length b.1 <= 1000)%nat /\ b.2 = tok_options n)
                (tokenized t).
Proof.
  intros H.
  destruct (build_dataset_run _ _ _ _ _ _ _ H)
    as (lines & texts & Hr & Hp & Ht & _ & Hf & Htok & _ & _).
  exists lines, texts. repeat split; try assumption.
  - rewrite Htok, map_map. cbn [fst]. rewrite map_id. apply batches_concat.
  - rewrite Htok. apply List.Forall_forall. intros b Hb.
    apply in_map_iff in Hb as (b0 & <- & Hb0). cbn [fst snd].
    split; [|reflexivity].
    pose proof (batches_fuel_bound 1000 (length texts) texts ltac:(lia)) as Hall.
    rewrite List.Forall_forall in Hall. apply Hall. exact Hb0.
Qed.

(** X15. With a tokenizer that returns one row for every text, the dataset
    that [build_dataset] returns has one example for every line of the
    file that is not blank. *)
Theorem build_dataset_size
    (p : pyval) (tk : tokenizer) (n : Z) (w w' : W)
    (ds : list example) (t : trace) :
  tokenizer_rows ->
  run (build_dataset p tk n) w = (inr ds, w', t) ->
  exists lines,
    reads t = [(p, lines)] /\ length ds = length (records_of lines).
Proof.
  intros Hrows H.
  destruct (build_dataset_run _ _ _ _ _ _ _ H)
    as (lines & texts & Hr & _ & _ & Hl & _ & _ & Hsize & _).
  exists lines. split; [exact Hr|]. rewrite (Hsize Hrows). exact Hl.
Qed.

(** ** The shape of a run of [main] *)

Lemma config_trace (t : trace) :
  List.Forall (events_of config_call) t ->
  logs t = [] /\ makedirs t = [] /\ reads t = [] /\
  tokenizer_loads t = [] /\ model_loads t = [] /\ training_args t = [] /\
  dumps t = [] /\ exists_checks t = [] /\ train_calls t = [] /\
  isdir_checks t = [] /\ listings t = [] /\ saves t = [] /\ writes t = [].
Proof.
  observers_all.
  induction 1 as [|ev t Hev _ IH]; [repeat split|].
  destruct ev as [m|c r]; [destruct Hev|].
  destruct c; try discriminate Hev; exact IH.
Qed.

Lemma resolve_config_only (a : args) : only config_call (resolve_config a).
Proof.
  unfold resolve_config. destruct (config_file a); [|exact I].
  apply only_bind.
  - unfold load_yaml_cfg. apply only_bind; [apply only_call; reflexivity|].
    intros v. exact I.
  - intros cfg. apply only_lift.
Qed.

(** A run of [main], by cases on the configuration and on the check of
    the dataset path. *)
Lemma main_run_eq (a : args) (w : W) :
  run (main a) w =
    match run (resolve_config a) w with
    | (inl e, w1, t0) => (inl e, w1, t0)
    | (inr c, w1, t0) =>
        let bm := normalize_base_model_id (base_model_raw c) in
        let line :=
          EvLog [Lit " base_model   : "; Val (VStr (base_model_raw c));
                 Lit "  ->  "; Val (VStr bm)] in
        if truthy (data_path c) then
          match h (CExists (data_path c)) w1 with
          | (inl e, w2) =>
              (inl e, w2, t0 ++ [line; EvCall (CExists (data_path c)) (inl e)])
          | (inr true, w2) =>
              let '(r, w', t) := run (pipeline c bm) w2 in
              (r, w', t0 ++ line :: EvCall (CExists (data_path c)) (inr true) :: t)
          | (inr false, w2) =>
              (inr 1, w2,
               t0 ++ [line; EvCall (CExists (data_path c)) (inr false);
                      EvLog (msg_dataset_not_found c)])
          end
        else (inr 1, w1, t0 ++ [line; EvLog (msg_dataset_not_found c)])
    end.
Proof.
  unfold main. rewrite run_bind.
  destruct (run (resolve_config a) w) as [[[e|c] w1] t0]; [reflexivity|].
  cbv zeta. cbn [bind log run].
  destruct (truthy (data_path c)); cbn [negb].
  2: { unfold dataset_not_found. cbn [bind log run]. reflexivity. }
  cbn [bind call_ run].
  destruct (h (CExists (data_path c)) w1) as [[e|[|]] w2]; cbn [bind negb run].
  - reflexivity.
  - destruct (run (pipeline c _) w2) as [[r w'] t]. reflexivity.
  - unfold dataset_not_found. cbn [bind log run]. reflexivity.
Qed.


(** X17. When [main] returns a code, the script exits with that code and
    the handler does nothing: the run of the script is the run of [main],
    with no call and no line added, so no [error.txt] is written on a
    return of 1. *)
Theorem script_returns_code
    (argv : list string) (a : args) (w w1 : W) (code : Z) (t : trace) :
  run (main a) w = (inr code, w1, t) ->
  run (script argv a) w = (inr (SysExit code), w1, t).
Proof.
  intros H. unfold script. rewrite run_catch, run_bind, H.
  cbn [run]. rewrite app_nil_r. reflexivity.
Qed.

(** ** What training and export are given *)

Lemma dataset_trace (t : trace) :
  List.Forall (events_of dataset_call) t ->
  makedirs t = [] /\ tokenizer_loads t = [] /\ model_loads t = [] /\
  training_args t = [] /\ train_calls t = [] /\ dumps t = [] /\
  exists_checks t = [] /\ isdir_checks t = [] /\ listings t = [].
Proof.
  observers_all.
  induction 1 as [|ev t Hev _ IH]; [repeat split|].
  destruct ev as [m|c r]; [destruct Hev|].
  destruct c; try discriminate Hev; exact IH.
Qed.

Lemma thread_trace (t : trace) :
  List.Forall (events_of thread_call) t ->
  makedirs t = [] /\ tokenizer_loads t = [] /\ model_loads t = [] /\
  training_args t = [] /\ train_calls t = [] /\ dumps t = [] /\
  exists_checks t = [] /\ reads t = [] /\ isdir_checks t = [] /\
  listings t = [].
Proof.
  observers_all.
  induction 1 as [|ev t Hev _ IH]; [repeat split|].
  destruct ev as [m|c r]; [destruct Hev|].
  destruct c; try discriminate Hev; exact IH.
Qed.

Lemma build_dataset_only (p : pyval) (tk : tokenizer) (n : Z) :
  only dataset_call (build_dataset p tk n).
Proof.
  unfold build_dataset, load_jsonl_rows, tok.
  repeat first
    [ apply only_call; reflexivity
    | apply only_lift
    | apply only_mapM; intros ?
    | apply only_bind; [|intros ?]
    | exact I
    | match goal with |- only _ (match ?l with [] => _ | _ => _ end) => destruct l end
    | match goal with |- only _ (match ?o with Some _ => _ | None => _ end) => destruct o end ].
Qed.

Lemma cap_threads_only (cuda : bool) : only thread_call (cap_threads cuda).
Proof.
  unfold cap_threads, set_threads. destruct cuda; simpl; [exact I|].
  split; [reflexivity|]. intros [e|n]; simpl; [exact I|].
  split; [reflexivity|]. intros r. exact I.
Qed.

Lemma build_dataset_setup (p : pyval) (tk : tokenizer) (n : Z) (w : W) :
  (makedirs (run (build_dataset p tk n) w).2 = [] /\
   tokenizer_loads (run (build_dataset p tk n) w).2 = [] /\
   model_loads (run (build_dataset p tk n) w).2 = [] /\
   training_args (run (build_dataset p tk n) w).2 = [] /\
   train_calls (run (build_dataset p tk n) w).2 = [] /\
   dumps (run (build_dataset p tk n) w).2 = [] /\
   exists_checks (run (build_dataset p tk n) w).2 = [] /\
   isdir_checks (run (build_dataset p tk n) w).2 = [] /\
   listings (run (build_dataset p tk n) w).2 = []) /\
  match (run (build_dataset p tk n) w).1.1 with
  | inr _ =>
      exists lines,
        reads (run (build_dataset p tk n) w).2 = [(p, lines)] /\
        (refuses_no_rows -> records_of lines <> [])
  | inl _ => True
  end.
Proof.
  split.
  - apply dataset_trace, only_run, build_dataset_only.
  - destruct (run (build_dataset p tk n) w) as [[[e|ds] w'] t] eqn:H;
      cbn [fst snd]; [exact I|].
    destruct (build_dataset_run _ _ _ _ _ _ _ H)
      as (lines & texts & Hr & _ & _ & Hlen & _ & _ & _ & Hne).
    exists lines. split; [exact Hr|]. intros Href Hnil.
    apply (Hne Href). rewrite Hnil in Hlen.
    destruct texts; [reflexivity|discriminate Hlen].
Qed.

Ltac wp_over p w fact :=
  let Hq := fresh "Hq" in
  pose proof fact as Hq;
  apply wp_bind; apply wp_exec;
  destruct (run p w) as [[[?e|?a] ?w] ?t];
  cbn [fst snd] in *.

Ltac wp_step_all :=
  cbn [wp bind call_ try_call log lift banner find_checkpoint train];
  lazymatch goal with
  | |- forall a w1, h (CGradientCheckpointing _) _ = _ -> _ => intros ? ? _
  | |- forall a w1, h _ _ = _ -> _ =>
      let e := fresh "e" in let x := fresh "x" in let w := fresh "w" in
      intros [e|x] w _
  | |- wp (bind (lift ?r) _) _ _ =>
      let E := fresh "E" in destruct r eqn:E
  | |- wp (bind (build_dataset ?p ?tk ?n) _) _ ?w =>
      wp_over (build_dataset p tk n) w (build_dataset_setup p tk n w)
  | |- wp (bind (cap_threads ?b) _) _ ?w =>
      wp_over (cap_threads b) w
        (thread_trace _ (only_run thread_call (cap_threads b) w (cap_threads_only b)))
  | |- wp (bind (train _ ?o) _) _ _ =>
      unfold train; destruct o as [?p|]; [destruct (PyStr.truthy p) eqn:?|]
  | |- wp (bind (if ?x then _ else _) _) _ _ => destruct x eqn:?
  | |- wp (if ?x then _ else _) _ _ => destruct x eqn:?
  | |- wp (match ?x with _ => _ end) _ _ => destruct x eqn:?
  | |- wp (bind (match ?x with _ => _ end) _) _ _ => destruct x eqn:?
  end.

Ltac open_facts :=
  repeat match goal with
         | Hq : _ /\ _ |- _ => destruct Hq as [? Hq]
         | Hq : exists _, _ |- _ => destruct Hq as [? Hq]
         | Hq : True |- _ => clear Hq
         end.

Lemma fit_setup_trace (c : config) (bm : string) (w : W) :
  wp (fit c bm)
     (fun r _ t =>
        dumps t = [] /\ exists_checks t = [] /\
        (length (train_calls t) <= 1)%nat /\
        (train_calls t <> [] -> fit_uses c bm t) /\
        (forall m, r = inr m -> train_calls t <> []) /\
        (forall resume, In resume (train_calls t) ->
           exists od, outdir c = VStr od /\
             resume_as_found (path_join od "hf_out") t resume) /\
        (refuses_no_rows -> train_calls t <> [] ->
           exists lines,
             reads t = [(data_path c, lines)] /\ records_of lines <> [])) w.
Proof.
  unfold fit.
  repeat wp_step_all.
  all: cbn [wp bind call_ try_call log lift];
       unfold fit_uses, resume_as_found; open_facts; trace_all.
  all: split; [reflexivity|]; split; [reflexivity|];
       split; [cbn [length]; lia|].
  all: try solve [split; [intros Hn; exfalso; apply Hn; reflexivity|];
                  split; [intros ? Hm; discriminate Hm|];
                  split; [intros ? []|];
                  intros _ Hn; exfalso; apply Hn; reflexivity].
  all: destruct (py_path_join_inr _ _ _ E) as (od & Hod & ->).
  all: split; [intros _; exists od; eexists; eexists; rewrite Hod;
               repeat split; reflexivity|].
  all: split; [intros ? _; discriminate|].
  all: split; [|intros Hr _; eexists; split; [reflexivity|auto]].
  all: intros resume [<-|[]]; exists od; (split; [exact Hod|]);
       eexists; (split; [reflexivity|]); cbv beta iota.
  all: try solve [eexists; split; [reflexivity|assumption]];
       try solve [split; reflexivity];
       try solve [exfalso; pose proof (latest_checkpoint_truthy _ _ _ E0);
                  congruence].
Qed.

Lemma export_setup_trace (c : config) (bm : string) (m : handle) (w : W) :
  wp (export c bm m)
     (fun r _ t =>
        makedirs t = [] /\ tokenizer_loads t = [] /\ training_args t = [] /\
        reads t = [] /\ train_calls t = [] /\ model_loads t = [] /\
        (dumps t = [] \/ fallback_written c bm t) /\
        isdir_checks t = [] /\ listings t = []) w.
Proof.
  unfold export.
  repeat wp_step_all.
  all: repeat match goal with
              | H : negb ?b = _ |- _ => destruct b; try discriminate H; clear H
              end.
  all: cbn [wp bind call_ try_call log lift];
       unfold fallback_written, adapter_path; trace_all.
  all: repeat (split; [reflexivity|]).
  all: split; [|split; reflexivity].
  all: try solve [left; reflexivity].
  all: right; eexists; repeat split; eassumption || reflexivity.
Qed.

Ltac no_training :=
  unfold fit_uses; open_facts; trace_all; rewrite ?app_nil_r;
  split; [intros Hn; exfalso; apply Hn; reflexivity|intros ? ? []].

Ltac training_uses c w1 t0 Huse Hlen :=
  let Hn := fresh "Hn" in
  intros Hn;
  destruct (Huse Hn) as (?od & ?cuda & ?lines & ? & ? & ? & ? & ? & ?);
  exists c, w1, t0; split; [reflexivity|]; split;
  [ eexists _, _, _; repeat split; eassumption
  | match goal with
    | |- length ?l = _ =>
        destruct l as [|? [|? ?]]; cbn [length] in *;
        [congruence|reflexivity|lia]
    end ].

Lemma main_uses (a : args) (w : W) :
  (train_calls (run (main a) w).2 <> [] ->
   exists c w1 t0,
     run (resolve_config a) w = (inr c, w1, t0) /\
     fit_uses c (normalize_base_model_id (base_model_raw c)) (run (main a) w).2 /\
     length (train_calls (run (main a) w).2) = 1%nat) /\
  (forall p obj, In (p, obj) (dumps (run (main a) w).2) ->
   exists c w1 t0 od,
     run (resolve_config a) w = (inr c, w1, t0) /\
     outdir c = VStr od /\
     p = path_join od "adapter_config.json" /\
     obj = fallback_config (normalize_base_model_id (base_model_raw c)) /\
     In (VStr p, false) (exists_checks (run (main a) w).2)).
Proof.
  pose proof (config_trace _ (only_run config_call _ w (resolve_config_only a)))
    as Hq.
  rewrite main_run_eq.
  destruct (run (resolve_config a) w) as [[[e|c] w1] t0]; cbn [fst snd] in *.
  { no_training. }
  cbv zeta.
  destruct (truthy (data_path c)); [|cbn [fst snd]; no_training].
  destruct (h (CExists (data_path c)) w1) as [[e|[|]] w2];
    [cbn [fst snd]; no_training| |cbn [fst snd]; no_training].
  unfold pipeline. rewrite run_bind.
  pose proof (proj1 (wp_exec _ _ _)
                (fit_setup_trace c (normalize_base_model_id (base_model_raw c)) w2))
    as Hfit.
  destruct (run (fit c _) w2) as [[[e|m] w3] t3]; cbn [fst snd] in *.
  - destruct Hfit as (Hd & Hx & Hlen & Huse & _).
    unfold fit_uses in *. open_facts. trace_all. rewrite ?app_nil_r.
    split; [training_uses c w1 t0 Huse Hlen|intros ? ? []].
  - pose proof (proj1 (wp_exec _ _ _)
                  (export_setup_trace c (normalize_base_model_id (base_model_raw c))
                     m w3)) as Hexp.
    destruct (run (export c _ m) w3) as [[r4 w4] t4]. cbn [fst snd] in *.
    destruct Hfit as (Hd & Hx & Hlen & Huse & _).
    destruct Hexp as (He1 & He2 & He3 & He4 & He5 & He6 & Hdump & _).
    unfold fit_uses, fallback_written in *. open_facts. trace_all.
    rewrite ?app_nil_r.
    split; [training_uses c w1 t0 Huse Hlen|].
    intros p obj Hin.
    destruct Hdump as [Hd4|(od & Ho & Hx4 & Hd4)]; rewrite Hd4 in Hin;
      [destruct Hin|].
    destruct Hin as [Heq|[]]. inversion Heq; subst p obj.
    exists c, w1, t0, od. rewrite Hx4.
    repeat split; try assumption. right. right. left. reflexivity.
Qed.

(** X18. In every run of [main] that reaches the training call: the two
    directories created are the output directory and [hf_out] in it; the
    tokenizer and the model were loaded from the same identifier, the
    resolved one; the file read is the resolved dataset path; and
    [TrainingArguments] was given [hf_out], the resolved batch size, number
    of epochs and learning rate.  Training is called once. *)
Theorem training_uses_resolved_config (a : args) (w : W) :
  train_calls (run (main a) w).2 <> [] ->
  exists c w1 t0,
    run (resolve_config a) w = (inr c, w1, t0) /\
    fit_uses c (normalize_base_model_id (base_model_raw c)) (run (main a) w).2 /\
    length (train_calls (run (main a) w).2) = 1%nat.
Proof. apply main_uses. Qed.

(** X20. Whatever [main] writes as a text file is the Modelfile: it goes
    to the output directory, and only after training was called,
    [save_pretrained] returned for that directory and [os.path.exists]
    confirmed the adapter weights there. *)
Theorem modelfile_after_training_and_save
    (a : args) (w : W) (p txt : string) :
  In (p, txt) (writes (run (main a) w).2) ->
  exists c w1 t0 od,
    run (resolve_config a) w = (inr c, w1, t0) /\
    outdir c = VStr od /\
    p = path_join od "Modelfile" /\ txt = modelfile_text /\
    saves (run (main a) w).2 = [od] /\
    length (train_calls (run (main a) w).2) = 1%nat /\
    In (VStr (adapter_path od), true) (exists_checks (run (main a) w).2).
Proof.
  pose proof (quiet_trace _ (only_run quiet_call _ w (resolve_config_quiet a)))
    as Hq.
  rewrite main_run_eq.
  destruct (run (resolve_config a) w) as [[[e|c] w1] t0]; cbn [fst snd] in *.
  { open_facts. trace_all. intros []. }
  cbv zeta.
  destruct (truthy (data_path c));
    [|cbn [fst snd]; open_facts; trace_all; intros []].
  destruct (h (CExists (data_path c)) w1) as [[e|[|]] w2];
    [cbn [fst snd]; open_facts; trace_all; intros []|
    |cbn [fst snd]; open_facts; trace_all; intros []].
  unfold pipeline. rewrite run_bind.
  pose proof (proj1 (wp_exec _ _ _)
                (fit_trace c (normalize_base_model_id (base_model_raw c)) w2))
    as Hfit.
  pose proof (proj1 (wp_exec _ _ _)
                (fit_setup_trace c (normalize_base_model_id (base_model_raw c)) w2))
    as Hset.
  destruct (run (fit c _) w2) as [[[e|m] w3] t3]; cbn [fst snd] in *.
  - destruct Hfit as (Hf1 & Hf2 & Hf3 & _). open_facts. trace_all. intros [].
  - pose proof (proj1 (wp_exec _ _ _)
                  (export_trace c (normalize_base_model_id (base_model_raw c)) m w3))
      as Hexp.
    destruct (run (export c _ m) w3) as [[r4 w4] t4]. cbn [fst snd] in *.
    destruct Hfit as (Hf1 & Hf2 & Hf3 & _).
    destruct Hset as (_ & _ & Hlen & _ & Htrained & _).
    specialize (Htrained m eq_refl).
    destruct Hexp as (He1 & He2 & He3 & He4).
    destruct r4 as [e|code].
    + destruct He4 as [Hw _]. open_facts. trace_all. intros [].
    + destruct He4 as (od & Hod & Hs & [(-> & Hx & Hw & _)|(-> & [b Hx] & Hw)]).
      * open_facts. trace_all. intros [].
      * open_facts. trace_all. rewrite ?app_nil_r.
        intros [Heq|[]]. inversion Heq; subst p txt.
        exists c, w1, t0, od. repeat split; try assumption.
        -- destruct (pick train_of t3) as [|? [|? ?]]; cbn [length] in *;
             [congruence|reflexivity|lia].
        -- right. left. reflexivity.
Qed.

(** ** The thread count *)

(** X21. Capping the threads never fails, whatever [os.cpu_count] and
    [torch.set_num_threads] do.  With CUDA nothing is set; without it, and
    when the number of processors is known, [torch.set_num_threads] is
    called once, with that number or with 1 if it is less (or unknown). *)
Theorem cap_threads_never_fails (cuda : bool) (w : W) :
  (run (cap_threads cuda) w).1.1 = inr tt /\
  thread_counts (run (cap_threads cuda) w).2 =
    if cuda then []
    else match (h CCpuCount w).1 with
         | inl _ => []
         | inr None => [1]
         | inr (Some n) => [Z.max 1 n]
         end.
Proof.
  unfold cap_threads, set_threads, thread_counts. destruct cuda; cbn [negb].
  { split; reflexivity. }
  cbn [bind try_call run].
  destruct (h CCpuCount w) as [[e|n] w1]; cbn [fst snd bind run];
    [split; reflexivity|].
  destruct (h (CSetNumThreads _) w1) as [r w2] eqn:Hs. cbn [fst snd run].
  split; [reflexivity|]. cbn [pick threads_of].
  destruct n as [n|]; [|reflexivity].
  destruct n; reflexivity.
Qed.

(* ===================================================================== *)
(** * Checkpoints by name and by number *)
(* ===================================================================== *)

Lemma named_checkpoint_prefix (n : string) :
  named_checkpoint n <-> PyStr.startswith "checkpoint-" n = true.
Proof.
  split.
  - intros [rest ->]. reflexivity.
  - intros H.
    do 11 (destruct n as [|? n]; [discriminate H|];
           cbn [PyStr.startswith] in H; apply andb_prop in H as [Hc H];
           apply Ascii.eqb_eq in Hc; subst).
    exists n. reflexivity.
Qed.

Lemma digit_not_int_space (c : ascii) :
  ((48 <=? nat_of_ascii c) && (nat_of_ascii c <=? 57))%nat = true ->
  PyStr.int_space c = false /\
  Ascii.eqb c "+" = false /\ Ascii.eqb c "-" = false /\
  Ascii.eqb "-" c = false.
Proof.
  intros H. apply andb_prop in H as [H1 H2].
  apply Nat.leb_le in H1, H2.
  assert (Hne : forall d, (nat_of_ascii d < 48)%nat -> Ascii.eqb c d = false).
  { intros d Hd. apply Ascii.eqb_neq. intros ->. lia. }
  split; [|split; [|split]].
  - unfold PyStr.int_space.
    destruct (Nat.leb_spec 9 (nat_of_ascii c)),
             (Nat.leb_spec (nat_of_ascii c) 13),
             (Nat.eqb_spec (nat_of_ascii c) 32),
             (Nat.eqb_spec (nat_of_ascii c) 133),
             (Nat.eqb_spec (nat_of_ascii c) 160); cbn [andb orb];
      try reflexivity; lia.
  - apply Hne. apply Nat.ltb_lt. reflexivity.
  - apply Hne. apply Nat.ltb_lt. reflexivity.
  - rewrite Ascii.eqb_sym. apply Hne. apply Nat.ltb_lt. reflexivity.
Qed.

Lemma decimal_digits (s : string) :
  forall acc b k,
    decimal_from acc s = Some k -> (s = "" -> b = true) ->
    PyStr.digits s b acc = Some k.
Proof.
  induction s as [|c r IH]; intros acc b k H Hb.
  - cbn in H |- *. rewrite (Hb eq_refl). exact H.
  - rewrite digits_cons. cbn [decimal_from] in H. cbv zeta in H.
    unfold PyStr.digit_val.
    destruct ((48 <=? nat_of_ascii c) && (nat_of_ascii c <=? 57))%nat;
      [|discriminate H].
    apply IH; [exact H|reflexivity].
Qed.

Lemma decimal_plain (s : string) :
  forall acc k,
    decimal_from acc s = Some k ->
    PyStr.int_rstrip s = s /\
    PyStr.digit_count s = Z.of_nat (String.length s) /\
    PyStr.contains_char "-" s = false.
Proof.
  induction s as [|c r IH]; intros acc k H.
  - repeat split.
  - cbn [decimal_from] in H. cbv zeta in H.
    destruct ((48 <=? nat_of_ascii c) && (nat_of_ascii c <=? 57))%nat eqn:E;
      [|discriminate H].
    destruct (IH _ _ H) as (Hr & Hc & Hd).
    destruct (digit_not_int_space c E) as (Hs & _ & _ & Hm).
    split; [|split].
    + rewrite int_rstrip_cons, Hr, Hs. destruct r; reflexivity.
    + cbn [PyStr.digit_count String.length]. unfold PyStr.digit_val.
      rewrite E, Hc. lia.
    + cbn [PyStr.contains_char]. rewrite Hm, Hd. reflexivity.
Qed.

(** On a name made of the prefix and digits, the key of the code is the
    number that the digits denote. *)
Lemma numbered_key (n : string) (k : Z) :
  numbered n k -> checkpoint_key n = Some k.
Proof.
  intros (ds & -> & Hd & Hlen). unfold decimal in Hd.
  destruct ds as [|c r]; [discriminate Hd|].
  destruct (decimal_plain _ _ _ Hd) as (Hr & Hc & Hm).
  assert (E : ((48 <=? nat_of_ascii c) && (nat_of_ascii c <=? 57))%nat = true).
  { cbn [decimal_from] in Hd. cbv zeta in Hd.
    destruct ((48 <=? nat_of_ascii c) && (nat_of_ascii c <=? 57))%nat;
      [reflexivity|discriminate Hd]. }
  destruct (digit_not_int_space c E) as (Hs & Hp & Hn & _).
  unfold checkpoint_key.
  assert (Hfield : forall ds, PyStr.contains_char "-" ds = false ->
            PyStr.contains_char "-" ("checkpoint-" ++ ds)%string = true /\
            PyStr.last_field "-" ("checkpoint-" ++ ds)%string = ds).
  { intros ds Hds. split; [reflexivity|].
    cbv [String.append]. cbn. rewrite Hds. reflexivity. }
  destruct (Hfield _ Hm) as [-> ->].
  rewrite to_int_cases. cbn [PyStr.int_lstrip]. rewrite Hs, Hr, Hc.
  destruct (Z.ltb_spec PyStr.max_str_digits (Z.of_nat (String.length (String c r))));
    [lia|].
  rewrite Hp, Hn. apply decimal_digits; [exact Hd|discriminate].
Qed.

Lemma numbered_named (n : string) (k : Z) : numbered n k -> named_checkpoint n.
Proof. intros (ds & -> & _). exists ds. reflexivity. Qed.

Lemma named_in_checkpoint_entries (entries : list string) (n : string) :
  In n (checkpoint_entries entries) <-> In n entries /\ named_checkpoint n.
Proof. rewrite checkpoint_entries_prefix, named_checkpoint_prefix. reflexivity. Qed.

(** What the search of the code returns, in the words of the
    specification. *)
Lemma resume_found_specified (hf : string) (t : trace) (resume : option string) :
  resume_as_found hf t resume -> resume_as_specified hf t resume.
Proof.
  intros (b & Hb & H). exists b. split; [exact Hb|].
  destruct b.
  2: { split; [intros _; exact H|discriminate]. }
  split; [discriminate|]. intros _.
  destruct H as (entries & Hl & Hlatest). exists entries.
  split; [exact Hl|].
  assert (Hsome : (exists m, In m entries /\ named_checkpoint m) ->
            exists n, resume = Some (path_join hf n) /\
                      is_latest (checkpoint_entries entries) n).
  { intros (m & Hm & Hn). destruct resume as [p|].
    - destruct (latest_checkpoint_some _ _ _ Hlatest) as (n & -> & Hlat). eauto.
    - apply latest_checkpoint_none in Hlatest.
      assert (Hin : In m (checkpoint_entries entries))
        by (apply named_in_checkpoint_entries; auto).
      rewrite Hlatest in Hin. destruct Hin. }
  split; [|split].
  - intros Hnone. destruct resume as [p|]; [|reflexivity].
    destruct (latest_checkpoint_some _ _ _ Hlatest) as (n & _ & Hin & _).
    apply named_in_checkpoint_entries in Hin as [Hin Hn].
    destruct (Hnone n Hin Hn).
  - intros Hex. destruct (Hsome Hex) as (n & -> & Hlat).
    exists n. split; [reflexivity|].
    destruct Hlat as [Hin Hk]. pose proof Hin as Hin'.
    apply named_in_checkpoint_entries in Hin' as [Hin' Hn].
    repeat split; assumption.
  - intros Hex Hnum. destruct (Hsome Hex) as (n & -> & Hin & k & Hk & Hall).
    exists n. split; [reflexivity|].
    apply named_in_checkpoint_entries in Hin as [Hin Hn].
    split; [exact Hin|].
    destruct (Hnum n Hin Hn) as [k' Hk'].
    pose proof (numbered_key _ _ Hk') as Hkey. rewrite Hk in Hkey.
    inversion Hkey; subst k'. exists k. split; [exact Hk'|].
    intros m km Hm Hmk.
    destruct (Hall m) as (km' & Hkm' & Hle).
    { apply named_in_checkpoint_entries. split; [exact Hm|].
      eapply numbered_named. exact Hmk. }
    rewrite (numbered_key _ _ Hmk) in Hkm'. inversion Hkm'; subst. exact Hle.
Qed.

(* ===================================================================== *)
(** * How a run ends *)
(* ===================================================================== *)

(** ** The adapter check and the fallback configuration *)

Lemma adapter_missing_saved (t : trace) :
  adapter_missing_after_save t ->
  saves t <> [] /\ last t = Some (EvLog msg_adapter_missing).
Proof.
  intros (pre & m & od & u & ->). split.
  - unfold saves. rewrite pick_app. cbn [pick save_of].
    destruct (pick save_of pre); simpl; discriminate.
  - rewrite last_app_cons. reflexivity.
Qed.

Lemma adapter_missing_later (pre t : trace) :
  adapter_missing_after_save t -> adapter_missing_after_save (pre ++ t).
Proof.
  intros (p & m & od & u & ->). exists (pre ++ p), m, od, u.
  apply List.app_assoc.
Qed.

Lemma dumped_later (pre t : trace) (od bm : string) :
  dumped_after_save od bm t -> dumped_after_save od bm (pre ++ t).
Proof.
  intros (p & m & u & r & post & ->). exists (pre ++ p), m, u, r, post.
  apply List.app_assoc.
Qed.

Lemma dumped_after_save_checked (od bm : string) (t : trace) :
  dumped_after_save od bm t ->
  In (path_join od "adapter_config.json", fallback_config bm) (dumps t) /\
  In (VStr (path_join od "adapter_config.json"), false) (exists_checks t).
Proof.
  intros (pre & m & u & r & post & ->). unfold dumps, exists_checks.
  rewrite !pick_app. cbn [pick dump_of exists_of app]. split.
  - apply in_or_app. right. left. reflexivity.
  - apply in_or_app. right. right. left. reflexivity.
Qed.

(** A run of [export]: what it returns and how its trace ends. *)
Lemma export_ends (c : config) (bm : string) (m : handle) (w : W) :
  wp (export c bm m)
     (fun r _ t =>
        (forall p obj, In (p, obj) (dumps t) ->
           exists od,
             outdir c = VStr od /\ dumped_after_save od bm t /\
             dumps t = [(p, obj)]) /\
        match r with
        | inr code =>
            (code = 1 /\ adapter_missing_after_save t /\ writes t = []) \/
            (code = 0 /\ completed_in t /\
             last t = Some (EvLog [Lit "[OK] Artifacts ready in: ";
                                   Val (outdir c)]))
        | inl e =>
            writes t = [] /\
            (saves t = [] \/ exists cl, last t = Some (EvCall cl (inl e)))
        end) w.
Proof.
  unfold export.
  repeat wp_step_all.
  all: repeat match goal with
              | H : negb ?b = _ |- _ => destruct b; try discriminate H; clear H
              end.
  all: cbn [wp bind call_ try_call log lift].
  all: split;
    [ first
        [ solve [intros ? ? []]
        | intros ? ? [Heq|[]]; inversion Heq; subst; eexists;
          split; [reflexivity|]; split; [|reflexivity];
          eexists [_], _, _, _, _; reflexivity ]
    | ].
  all: first
    [ solve [split; [reflexivity|]; first
               [ left; reflexivity | right; eexists; reflexivity ]]
    | solve [left; split; [reflexivity|]; split; [|reflexivity];
             eexists [_], _, _, _; reflexivity]
    | solve [right; split; [reflexivity|]; split; [|reflexivity];
             eexists; reflexivity] ].
Qed.

(** ** The handler *)

Lemma write_marker_run (argv : list string) (e : exn) (w : W) :
  exists w2 t2,
    run (write_marker argv e) w = (inr tt, w2, t2) /\
    match scan_outdir argv with
    | Some d =>
        if PyStr.truthy d then
          match h (CMakedirs (VStr d)) w with
          | (inl x, w') => t2 = [EvCall (CMakedirs (VStr d)) (inl x)] /\ w2 = w'
          | (inr u, w') =>
              let marker :=
                CAppendText (path_join d "error.txt") [ErrText e; Lit nl] in
              t2 = [EvCall (CMakedirs (VStr d)) (inr u);
                    EvCall marker (h marker w').1] /\
              w2 = (h marker w').2
          end
        else t2 = [] /\ w2 = w
    | None => t2 = [] /\ w2 = w
    end.
Proof.
  unfold write_marker.
  destruct (scan_outdir argv) as [d|];
    [|eexists _, _; split; [reflexivity|split; reflexivity]].
  destruct (PyStr.truthy d);
    [|eexists _, _; split; [reflexivity|split; reflexivity]].
  simpl. destruct (h (CMakedirs (VStr d)) w) as [[x|[]] w'].
  - simpl. eexists _, _. split; [reflexivity|split; reflexivity].
  - simpl. destruct (h (CAppendText _ _) w') as [r w'']. simpl.
    eexists _, _. split; [reflexivity|split; reflexivity].
Qed.

Lemma write_marker_trace (argv : list string) (e : exn) (w : W) :
  (run (write_marker argv e) w).1.1 = inr tt /\
  writes (run (write_marker argv e) w).2 = [] /\
  ((run (write_marker argv e) w).2 = [] \/
   exists c r, last (run (write_marker argv e) w).2 = Some (EvCall c r)).
Proof.
  destruct (write_marker_run argv e w) as (w2 & t2 & -> & Hcase).
  cbn [fst snd]. split; [reflexivity|].
  destruct (scan_outdir argv) as [d|];
    [|destruct Hcase as [-> _]; split; [reflexivity|left; reflexivity]].
  destruct (PyStr.truthy d);
    [|destruct Hcase as [-> _]; split; [reflexivity|left; reflexivity]].
  destruct (h (CMakedirs (VStr d)) w) as [[x|u] w'];
    destruct Hcase as [-> _];
    (split; [reflexivity|right; eexists _, _; reflexivity]).
Qed.


(** ** The runs of [main], case by case *)

Ltac early_end :=
  unfold completed_in; open_facts; trace_all; rewrite ?app_nil_r;
  split; [intros ? []|];
  split; [intros Hn; exfalso; apply Hn; reflexivity|];
  split; [intros ? ? []|].

Ltac not_saved :=
  let Ha := fresh "Ha" in
  intros Ha; apply adapter_missing_saved in Ha; destruct Ha as [Ha _];
  apply Ha; trace_all; rewrite ?app_nil_r; reflexivity.

Ltac not_written :=
  let Ho := fresh "Ho" in intros [? Ho]; discriminate Ho.

Lemma main_ends (a : args) (w : W) :
  (forall resume, In resume (train_calls (run (main a) w).2) ->
     exists od,
       outdir_at a w od /\
       resume_as_found (path_join od "hf_out") (run (main a) w).2 resume) /\
  (train_calls (run (main a) w).2 <> [] ->
     dataset_found_at a w /\
     (refuses_no_rows ->
      exists c w1 t0 lines,
        run (resolve_config a) w = (inr c, w1, t0) /\
        reads (run (main a) w).2 = [(data_path c, lines)] /\
        records_of lines <> [])) /\
  (forall p obj, In (p, obj) (dumps (run (main a) w).2) ->
     exists c w1 t0 od,
       run (resolve_config a) w = (inr c, w1, t0) /\
       outdir c = VStr od /\
       dumps (run (main a) w).2 = [(p, obj)] /\
       dumped_after_save od (normalize_base_model_id (base_model_raw c))
         (run (main a) w).2) /\
  match (run (main a) w).1.1 with
  | inr code =>
      (code = 0 /\ completed_in (run (main a) w).2 /\
       ~ dataset_not_found_at a w /\
       ~ adapter_missing_after_save (run (main a) w).2)
      \/
      (code = 1 /\ ~ completed_in (run (main a) w).2 /\
       (dataset_not_found_at a w \/
        adapter_missing_after_save (run (main a) w).2))
  | inl e =>
      ~ completed_in (run (main a) w).2 /\ ~ dataset_not_found_at a w /\
      ~ adapter_missing_after_save (run (main a) w).2
  end.
Proof.
  pose proof (config_trace _ (only_run config_call _ w (resolve_config_only a)))
    as Hq.
  rewrite main_run_eq.
  destruct (run (resolve_config a) w) as [[[e|c] w1] t0] eqn:Hc;
    cbn [fst snd] in *.
  { early_end. split; [not_written|]. split; [|not_saved].
    intros (c' & w1' & t1' & Hc' & _). rewrite Hc in Hc'. discriminate Hc'. }
  cbv zeta.
  destruct (truthy (data_path c)) eqn:Htruthy.
  2: { cbn [fst snd]. early_end. right. split; [reflexivity|].
       split; [not_written|]. left. exists c, w1, t0. auto. }
  destruct (h (CExists (data_path c)) w1) as [[e|[|]] w2] eqn:Hex.
  { cbn [fst snd]. early_end. split; [not_written|]. split; [|not_saved].
    intros (c' & w1' & t1' & Hc' & Hor). rewrite Hc in Hc'.
    inversion Hc'; subst c' w1' t1'. rewrite Hex in Hor.
    destruct Hor as [Hf|Hx]; [congruence|discriminate Hx]. }
  2: { cbn [fst snd]. early_end. right. split; [reflexivity|].
       split; [not_written|]. left. exists c, w1, t0.
       split; [exact Hc|]. right. rewrite Hex. reflexivity. }
  assert (Hfound : dataset_found_at a w).
  { exists c, w1, t0. rewrite Hex. auto. }
  assert (Hout : forall od, outdir c = VStr od -> outdir_at a w od).
  { intros od Ho. exists c, w1, t0. auto. }
  pose proof (found_excludes_not_found a w Hfound) as Hnf.
  clear Hex Htruthy.
  unfold pipeline. rewrite run_bind.
  pose proof (proj1 (wp_exec _ _ _)
                (fit_trace c (normalize_base_model_id (base_model_raw c)) w2))
    as Hfit.
  pose proof (proj1 (wp_exec _ _ _)
                (fit_setup_trace c (normalize_base_model_id (base_model_raw c)) w2))
    as Hset.
  destruct (run (fit c _) w2) as [[[e|m] w3] t3]; cbn [fst snd] in *.
  - destruct Hfit as (Hf1 & Hf2 & Hf3 & _).
    destruct Hset as (Hd & _ & _ & _ & _ & Hres & Hrows).
    unfold completed_in, resume_as_found in *. open_facts. trace_all.
    rewrite ?app_nil_r.
    split; [|split; [|split; [intros ? ? []|]]].
    + intros resume Hin. destruct (Hres resume Hin) as (od & Ho & Hr).
      exists od. split; [apply Hout, Ho|exact Hr].
    + intros Hn. split; [exact Hfound|]. intros Href.
      destruct (Hrows Href Hn) as (lines & Hr & Hne).
      exists c, w1, t0, lines. auto.
    + split; [not_written|]. split; [exact Hnf|not_saved].
  - pose proof (proj1 (wp_exec _ _ _)
                  (export_setup_trace c (normalize_base_model_id (base_model_raw c))
                     m w3)) as Hexp.
    pose proof (proj1 (wp_exec _ _ _)
                  (export_ends c (normalize_base_model_id (base_model_raw c))
                     m w3)) as Hend.
    destruct (run (export c _ m) w3) as [[r4 w4] t4]. cbn [fst snd] in *.
    destruct Hfit as (Hf1 & Hf2 & Hf3 & _).
    destruct Hset as (Hd & _ & _ & _ & _ & Hres & Hrows).
    destruct Hexp as (He1 & He2 & He3 & He4 & He5 & He6 & _ & He7 & He8).
    destruct Hend as (Hd4 & Hr4).
    match goal with
    | |- context [adapter_missing_after_save (?t0' ++ ?x :: ?y :: ?t3' ++ ?t4')] =>
        assert (HT : t0' ++ x :: y :: t3' ++ t4' = (t0' ++ x :: y :: t3') ++ t4')
          by (rewrite <- List.app_assoc; reflexivity);
        assert (Hams : adapter_missing_after_save t4' ->
                       adapter_missing_after_save (t0' ++ x :: y :: t3' ++ t4'))
          by (rewrite HT; apply adapter_missing_later);
        assert (Hdas : forall od bm, dumped_after_save od bm t4' ->
                       dumped_after_save od bm (t0' ++ x :: y :: t3' ++ t4'))
          by (intros ? ?; rewrite HT; apply dumped_later);
        assert (Hlast : forall ev, last t4' = Some ev ->
                        last (t0' ++ x :: y :: t3' ++ t4') = Some ev)
          by (intros ev Hev; rewrite HT, last_app, Hev; reflexivity);
        clear HT
    end.
    destruct r4 as [e|code].
    + destruct Hr4 as [Hw4 Hs4].
      unfold completed_in, resume_as_found in *. open_facts. trace_all.
      rewrite ?app_nil_r.
      split; [|split; [|split]].
      * intros resume Hin. destruct (Hres resume Hin) as (od & Ho & Hr).
        exists od. split; [apply Hout, Ho|exact Hr].
      * intros Hn. split; [exact Hfound|]. intros Href.
        destruct (Hrows Href Hn) as (lines & Hr & Hne).
        exists c, w1, t0, lines. auto.
      * intros p obj Hin.
        destruct (Hd4 p obj Hin) as (od & Ho & Hdumped & Hds).
        exists c, w1, t0, od. auto.
      * split; [not_written|]. split; [exact Hnf|].
        intros Ha. apply adapter_missing_saved in Ha. destruct Ha as [Hs Hl].
        destruct Hs4 as [Hs4|(cl & Hl4)].
        -- apply Hs. trace_all. rewrite ?app_nil_r. reflexivity.
        -- rewrite (Hlast _ Hl4) in Hl. discriminate Hl.
    + destruct Hr4 as [(-> & Ha4 & Hw4)|(-> & Hc4 & Hl4)].
      * unfold completed_in, resume_as_found in *. open_facts. trace_all.
        rewrite ?app_nil_r.
        split; [|split; [|split]].
        -- intros resume Hin. destruct (Hres resume Hin) as (od & Ho & Hr).
           exists od. split; [apply Hout, Ho|exact Hr].
        -- intros Hn. split; [exact Hfound|]. intros Href.
           destruct (Hrows Href Hn) as (lines & Hr & Hne).
           exists c, w1, t0, lines. auto.
        -- intros p obj Hin.
           destruct (Hd4 p obj Hin) as (od & Ho & Hdumped & Hds).
           exists c, w1, t0, od. auto.
        -- right. split; [reflexivity|]. split; [not_written|].
           right. apply Hams, Ha4.
      * unfold completed_in, resume_as_found in *. open_facts. trace_all.
        rewrite ?app_nil_r.
        split; [|split; [|split]].
        -- intros resume Hin. destruct (Hres resume Hin) as (od & Ho & Hr).
           exists od. split; [apply Hout, Ho|exact Hr].
        -- intros Hn. split; [exact Hfound|]. intros Href.
           destruct (Hrows Href Hn) as (lines & Hr & Hne).
           exists c, w1, t0, lines. auto.
        -- intros p obj Hin.
           destruct (Hd4 p obj Hin) as (od & Ho & Hdumped & Hds).
           exists c, w1, t0, od. auto.
        -- left. split; [reflexivity|]. split; [eexists; reflexivity|].
           split; [exact Hnf|].
           intros Ha. apply adapter_missing_saved in Ha. destruct Ha as [_ Hl].
           rewrite (Hlast _ Hl4) in Hl. discriminate Hl.
Qed.

(** ** Resuming *)

(** C3, as the code has it.  In every run of [main], the training call
    is given what the search of [hf_out] found: [os.path.isdir] was asked
    once, about [hf_out] in the output directory of the run.  Without
    that directory
    the entries are not listed and training starts afresh.  With it the
    entries are listed once; if no entry is named [checkpoint-...]
    training starts afresh; otherwise training resumes from an entry of
    the listing that is named so and whose suffix, read as an integer, is
    the greatest; and when every such entry is [checkpoint-] followed by
    decimal digits, it is the entry of the highest number.  Entries are
    taken by name: nothing asks whether they are directories. *)
Theorem resume_from_latest_checkpoint
    (a : args) (w : W) (resume : option string) :
  In resume (train_calls (run (main a) w).2) ->
  exists od,
    outdir_at a w od /\
    resume_as_specified (path_join od "hf_out") (run (main a) w).2 resume.
Proof.
  intros Hin.
  destruct (main_ends a w) as (Hres & _).
  destruct (Hres resume Hin) as (od & Ho & Hr).
  exists od. split; [exact Ho|]. apply resume_found_specified, Hr.
Qed.

(** ** The dataset *)


(** ** The fallback adapter configuration *)


(** ** Exit codes *)


End Platform.

End Model.

Arguments VNone {float}.
Arguments VBool {float} b.
Arguments VInt {float} z.
Arguments VStr {float} s.
Arguments VList {float} l.
Arguments VDict {float} d.
Arguments BuiltinError {float} cls op arg.
Arguments PlatformError {float} cls text.
Arguments Uncaught {float} e.
Arguments healthy {float}.
Arguments empty_file {float}.
Arguments gated {float}.
Arguments no_tokenizer {float}.
Arguments stray_checkpoint {float}.
Arguments both_keys {float}.
Arguments no_dataset {float}.
Arguments no_adapter_config {float}.
Arguments malformed {float}.
Arguments broken_file {float}.
Arguments some_keys {float}.
Arguments null_epochs {float}.
Arguments no_text_column {float}.
Arguments undecodable {float}.
Arguments unordered {float}.
Arguments stray_file {float}.

(* ===================================================================== *)
(** * Runs on the sample platform *)
(* ===================================================================== *)

Abbreviation dec := Dec.dec.
Abbreviation dec_truthy := Dec.truthy.
Abbreviation int_of_dec := Dec.to_int.
Abbreviation dec_of_int := Dec.of_int.
Abbreviation dec_of_str := Dec.of_str.

Abbreviation sample_args := (default_args dec (4, -4) (Some "data.jsonl")).
Abbreviation on_platform s p := (run dec unit (platform dec s) p tt).
Abbreviation the_main := (main dec dec_truthy int_of_dec dec_of_int dec_of_str).
Abbreviation the_script := (script dec dec_truthy int_of_dec dec_of_int dec_of_str).
Abbreviation run_main s a := (on_platform s (the_main a)).
Abbreviation run_script s argv a := (on_platform s (the_script argv a)).
Abbreviation sample_dataset :=
  (build_dataset dec dec_truthy (VStr "data.jsonl") sample_tokenizer 8).

(** C1. On the default command line the adapter is trained on
    [meta-llama/Llama-3.2-1B-Instruct], the run succeeds, and the Modelfile
    it writes names [llama3:8b], the tag of another model: the text of the
    Modelfile does not depend on the base model of the run. *)
Theorem modelfile_names_fixed_model :
  let '(r, _, t) := run_main healthy sample_args in
  r = inr 0 /\
  model_loads dec t = ["meta-llama/Llama-3.2-1B-Instruct"] /\
  writes dec t = [("artifacts/Modelfile", modelfile_text)] /\
  PyStr.first_line modelfile_text = "FROM llama3:8b" /\
  normalize_base_model_id "llama3:8b" = "meta-llama/Meta-Llama-3-8B-Instruct".
Proof. vm_compute. repeat split; reflexivity. Qed.

(** C2. On the entries [checkpoint-5], [checkpoint-20], [checkpoint-abc]
    the checkpoint search of [main] does not return [checkpoint-20]: the
    sort key applies [int] to "abc", the [ValueError] is raised, and a run
    that finds these entries in [hf_out] ends with it before any training
    call. *)
Theorem latest_checkpoint_unparsable_suffix :
  (forall hf_out : string,
     latest_checkpoint dec hf_out ["checkpoint-5"; "checkpoint-20"; "checkpoint-abc"]
     = inl (BuiltinError "ValueError" "int" (VStr "abc"))) /\
  checkpoint_key "checkpoint-abc" = None /\
  let '(r, _, t) := run_main stray_checkpoint sample_args in
  r = inl (BuiltinError "ValueError" "int" (VStr "abc")) /\
  listings dec t =
    [("artifacts/hf_out", ["checkpoint-5"; "checkpoint-20"; "checkpoint-abc"])] /\
  train_calls dec t = [].
Proof.
  split; [intros hf_out; vm_compute; reflexivity|].
  vm_compute. repeat split; reflexivity.
Qed.

(** C3, as stated, fails: [hf_out] holds no directory at all, only an
    entry named [checkpoint-7] that is not a directory, and the training
    call is told to resume from it. *)
Lemma checkpoint_file_resumed :
  (only_dirs dec ["artifacts"; "artifacts/hf_out"] stray_file
     (CIsdir dec "artifacts/hf_out/checkpoint-7") tt).1 = inr false /\
  let t := (run dec unit (only_dirs dec ["artifacts"; "artifacts/hf_out"] stray_file)
              (the_main sample_args) tt).2 in
  isdir_checks dec t = [("artifacts/hf_out", true)] /\
  listings dec t = [("artifacts/hf_out", ["checkpoint-7"])] /\
  train_calls dec t = [Some "artifacts/hf_out/checkpoint-7"].
Proof. vm_compute. repeat split; reflexivity. Qed.


(** ** The theorems at work on the sample platform *)

Lemma resume_from_latest_checkpoint_witness :
  In (Some "artifacts/hf_out/checkpoint-20")
     (train_calls dec (run_main unordered sample_args).2) /\
  listings dec (run_main unordered sample_args).2 =
    [("artifacts/hf_out", ["checkpoint-20"; "notes.txt"; "checkpoint-5"])] /\
  exists od,
    outdir_at dec dec_truthy int_of_dec dec_of_int dec_of_str unit
      (platform dec unordered) sample_args tt od /\
    resume_as_specified dec (path_join od "hf_out")
      (run_main unordered sample_args).2
      (Some "artifacts/hf_out/checkpoint-20").
Proof.
  split; [vm_compute; left; reflexivity|].
  split; [vm_compute; reflexivity|].
  apply (resume_from_latest_checkpoint dec dec_truthy int_of_dec dec_of_int
           dec_of_str unit (platform dec unordered) sample_args tt).
  vm_compute. left. reflexivity.
Defined.

(** The sample platform refuses a dataset without rows. *)
Lemma sample_refuses_no_rows (s : setup dec) :
  refuses_no_rows dec unit (platform dec s).
Proof. intros w. eexists _, _. reflexivity. Qed.

(** The run on the empty dataset file ends in [build_dataset], with the
    error of [Dataset.map]: no trainer is built and none is called. *)
Example empty_dataset_stops_before_training :
  let '(r, _, t) := run_main empty_file sample_args in
  r = inl no_text_column /\
  reads dec t = [(VStr "data.jsonl", [])] /\
  trained_on dec t = [] /\
  train_calls dec t = [].
Proof. vm_compute. repeat split; reflexivity. Qed.


Lemma resume_flag_ignored_witness :
  In "auto" resume_choices /\ In "force" resume_choices /\
  on_platform healthy
    (the_script (["train.py"] ++ "--resume" :: "auto" :: ["--outdir"; "out"])
                (with_resume dec sample_args "auto")) =
  on_platform healthy
    (the_script (["train.py"] ++ "--resume" :: "force" :: ["--outdir"; "out"])
                (with_resume dec sample_args "force")).
Proof.
  split; [simpl; auto|]. split; [simpl; auto|].
  apply (resume_flag_ignored dec dec_truthy int_of_dec dec_of_int dec_of_str
           unit (platform dec healthy) sample_args ["train.py"] ["--outdir"; "out"]
           "auto" "force" tt); simpl; auto.
Defined.


(** The sample tokenizer pads. *)
Lemma pad_to_length (n : nat) (pad : Z) (l : list Z) : length (pad_to n pad l) = n.
Proof.
  unfold pad_to. rewrite length_app, length_take, repeat_length. lia.
Qed.

Lemma sample_tokenizer_pads (s : setup dec) (n : Z) :
  0 <= n -> tokenizer_pads dec unit (platform dec s) n.
Proof.
  intros Hn tk texts w enc w' H. simpl in H. inversion H; subst; clear H.
  unfold encode. simpl.
  split; apply List.Forall_forall; intros row Hin;
    apply in_map_iff in Hin as (text & <- & _);
    rewrite pad_to_length; apply Z2Nat.id; exact Hn.
Qed.

(** The rows that [build_dataset] makes of the healthy dataset at
    [max_length = 8]. *)
Abbreviation sample_rows :=
  (match (on_platform healthy sample_dataset).1.1 with
   | inr ds => ds
   | inl _ => []
   end).

Abbreviation first_row :=
  (Example [85; 115; 101; 114; 58; 32; 72; 111] [1; 1; 1; 1; 1; 1; 1; 1]
           [85; 115; 101; 114; 58; 32; 72; 111]).

Lemma build_dataset_fixed_length_witness :
  tokenizer_pads dec unit (platform dec healthy) 8 /\
  on_platform healthy sample_dataset =
    (inr sample_rows, tt, (on_platform healthy sample_dataset).2) /\
  In first_row sample_rows /\
  fixed_length 8 first_row.
Proof.
  assert (Hpad : tokenizer_pads dec unit (platform dec healthy) 8)
    by (apply sample_tokenizer_pads; lia).
  assert (Hrun : on_platform healthy sample_dataset =
            (inr sample_rows, tt, (on_platform healthy sample_dataset).2))
    by (vm_compute; reflexivity).
  assert (Hin : In first_row sample_rows) by (vm_compute; left; reflexivity).
  split; [exact Hpad|]. split; [exact Hrun|]. split; [exact Hin|].
  apply (build_dataset_fixed_length dec dec_truthy unit (platform dec healthy)
           (VStr "data.jsonl") sample_tokenizer 8 tt tt sample_rows _ Hpad Hrun _ Hin).
Defined.

Abbreviation merged :=
  (Config dec (VStr "data.jsonl") "meta-llama/Llama-3.2-1B-Instruct" 3
          (4, -4) (VStr "artifacts") 4 512).

Lemma merge_config_batch_size_witness :
  merge_config dec dec_truthy int_of_dec dec_of_int dec_of_str both_keys sample_args =
    inr merged /\
  exists d : gmap string (pyval dec),
    both_keys = VDict d /\
    py_int dec int_of_dec (batch_size_source dec d sample_args) = inr 4 /\
    (forall z, d !! "batch_size" = Some (VInt z) -> 4 = z) /\
    (d !! "batch_size" = None -> forall z, d !! "bsz" = Some (VInt z) -> 4 = z) /\
    (d !! "batch_size" = None -> d !! "bsz" = None -> 4 = arg_bsz dec sample_args).
Proof.
  split; [vm_compute; reflexivity|].
  apply (merge_config_batch_size dec dec_truthy int_of_dec dec_of_int dec_of_str
           both_keys sample_args merged).
  vm_compute. reflexivity.
Defined.

(* ===================================================================== *)
(** * Sample runs for the further properties *)
(* ===================================================================== *)

Lemma latest_checkpoint_any_order_witness :
  Permutation ["checkpoint-5"; "checkpoint-20"; "notes.txt"]
              ["checkpoint-20"; "checkpoint-5"; "notes.txt"] /\
  latest_checkpoint dec "out/hf_out"
    ["checkpoint-5"; "checkpoint-20"; "notes.txt"] =
    inr (Some "out/hf_out/checkpoint-20") /\
  latest_checkpoint dec "out/hf_out"
    ["checkpoint-20"; "checkpoint-5"; "notes.txt"] =
    inr (Some "out/hf_out/checkpoint-20").
Proof.
  assert (Hp : Permutation ["checkpoint-5"; "checkpoint-20"; "notes.txt"]
                           ["checkpoint-20"; "checkpoint-5"; "notes.txt"])
    by apply perm_swap.
  assert (H : latest_checkpoint dec "out/hf_out"
                ["checkpoint-5"; "checkpoint-20"; "notes.txt"] =
              inr (Some "out/hf_out/checkpoint-20"))
    by (vm_compute; reflexivity).
  split; [exact Hp|]. split; [exact H|].
  apply (latest_checkpoint_any_order dec dec_truthy int_of_dec dec_of_int
           dec_of_str "out/hf_out" _ _ _ Hp); [|exact H].
  intros m n Hm Hn. vm_compute in Hm, Hn.
  destruct Hm as [<-|[<-|[]]], Hn as [<-|[<-|[]]]; vm_compute; congruence.
Defined.

Lemma checkpoint_key_nonneg_witness :
  PyStr.startswith "checkpoint-" "checkpoint--7" = true /\
  checkpoint_key "checkpoint--7" = Some 7 /\
  0 <= 7.
Proof.
  split; [reflexivity|]. split; [vm_compute; reflexivity|].
  apply (checkpoint_key_nonneg "checkpoint--7" 7); vm_compute; reflexivity.
Defined.

Abbreviation file_args := (config_args dec (4, -4)).
Abbreviation the_config :=
  (resolve_config dec dec_truthy int_of_dec dec_of_int dec_of_str file_args).

Lemma empty_config_file_witness :
  config_file dec file_args = Some "train.yaml" /\
  truthy dec dec_truthy VNone = false /\
  on_platform healthy the_config =
    (inr (args_config dec file_args), tt,
     [EvCall dec (CLoadYaml dec "train.yaml") (inr VNone)]).
Proof.
  split; [reflexivity|]. split; [reflexivity|].
  apply (empty_config_file dec dec_truthy int_of_dec dec_of_int dec_of_str
           unit (platform dec healthy) file_args "train.yaml" VNone tt tt);
    reflexivity.
Defined.

Lemma config_file_not_a_mapping_witness :
  config_file dec file_args = Some "train.yaml" /\
  truthy dec dec_truthy (VList [VStr "epochs"]) = true /\
  run dec unit (strict dec healthy) the_config tt =
    (inl (BuiltinError "AttributeError" "get" (VList [VStr "epochs"])), tt,
     [EvCall dec (CLoadYaml dec "train.yaml") (inr (VList [VStr "epochs"]))]).
Proof.
  split; [reflexivity|]. split; [reflexivity|].
  apply (config_file_not_a_mapping dec dec_truthy int_of_dec dec_of_int
           dec_of_str unit (strict dec healthy) file_args "train.yaml"
           (VList [VStr "epochs"]) tt tt);
    [reflexivity|reflexivity|reflexivity|intros d; discriminate].
Defined.

Abbreviation merged_keys :=
  (Config dec (VStr "records.jsonl") "meta-llama/Llama-3.2-1B-Instruct" 5
          (4, -4) (VStr "artifacts") 1 512).

Lemma merge_config_precedence_witness :
  merge_config dec dec_truthy int_of_dec dec_of_int dec_of_str some_keys file_args =
    inr merged_keys /\
  exists d : gmap string (pyval dec),
    some_keys = VDict d /\
    (forall v, d !! "dataset_path" = Some v -> truthy dec dec_truthy v = true ->
       data_path dec merged_keys = v) /\
    (forall v, d !! "base_model" = Some v -> truthy dec dec_truthy v = false ->
       base_model_raw dec merged_keys = PyStr.strip (arg_base dec file_args)) /\
    (forall z, d !! "epochs" = Some (VInt z) -> epochs dec merged_keys = z) /\
    (d !! "max_length" = None ->
       max_length dec merged_keys = arg_max_length dec file_args).
Proof.
  split; [vm_compute; reflexivity|].
  destruct (merge_config_precedence dec dec_truthy int_of_dec dec_of_int
              dec_of_str some_keys file_args merged_keys)
    as (d & Hd & H1 & _ & _ & _ & H5 & _ & H7 & _ & _ & _ & _ & _ & _ & H14);
    [vm_compute; reflexivity|].
  exists d. auto.
Defined.

Lemma merge_config_null_number_witness :
  (null_epochs : gmap string (pyval dec)) !! "epochs" = Some VNone /\
  exists e,
    merge_config dec dec_truthy int_of_dec dec_of_int dec_of_str
      (VDict null_epochs) sample_args = inl e.
Proof.
  assert (H : (null_epochs : gmap string (pyval dec)) !! "epochs" = Some VNone)
    by (vm_compute; reflexivity).
  split; [exact H|].
  apply (merge_config_null_number dec dec_truthy int_of_dec dec_of_int
           dec_of_str null_epochs sample_args).
  left. exact H.
Defined.

Abbreviation loaded :=
  (on_platform healthy (load_jsonl_rows dec (VStr "data.jsonl"))).
Abbreviation loaded_rows :=
  (match loaded.1.1 with
   | inr rows => rows
   | inl _ => []
   end).

Lemma load_jsonl_rows_records_witness :
  loaded = (inr loaded_rows, tt, loaded.2) /\
  exists lines,
    reads dec loaded.2 = [(VStr "data.jsonl", lines)] /\
    parse_calls dec loaded.2 = records_of lines /\
    parsed dec loaded.2 = loaded_rows /\
    length loaded_rows = length (records_of lines).
Proof.
  assert (H : loaded = (inr loaded_rows, tt, loaded.2)) by (vm_compute; reflexivity).
  split; [exact H|].
  apply (load_jsonl_rows_records dec unit (platform dec healthy)
           (VStr "data.jsonl") tt tt loaded_rows loaded.2 H).
Defined.

Abbreviation broken :=
  (run dec unit (strict dec broken_file) (load_jsonl_rows dec (VStr "data.jsonl")) tt).

Lemma load_jsonl_rows_first_error_witness :
  broken = (inl malformed, tt, broken.2) /\
  parse_calls dec broken.2 = ["{}"; "oops"] /\
  (broken.2 = [EvCall dec (CReadLines dec (VStr "data.jsonl")) (inl malformed)] \/
   exists lines err t',
     broken.2 =
       EvCall dec (CReadLines dec (VStr "data.jsonl")) (inr (lines, err)) :: t' /\
     ((exists done bad rest t'',
         records_of lines = (done ++ bad :: rest)%list /\
         parse_calls dec broken.2 = (done ++ [bad])%list /\
         t' = (t'' ++ [EvCall dec (CJsonLoads dec bad) (inl malformed)])%list) \/
      (err = Some malformed /\
       parse_calls dec broken.2 = records_of lines /\
       length (parsed dec broken.2) = length (records_of lines)))).
Proof.
  assert (H : broken = (inl malformed, tt, broken.2)) by (vm_compute; reflexivity).
  split; [exact H|]. split; [vm_compute; reflexivity|].
  apply (load_jsonl_rows_first_error dec unit (strict dec broken_file)
           (VStr "data.jsonl") tt tt malformed broken.2 H).
Defined.

Lemma build_dataset_tokenizes_every_record_witness :
  on_platform healthy sample_dataset =
    (inr sample_rows, tt, (on_platform healthy sample_dataset).2) /\
  exists lines texts,
    reads dec (on_platform healthy sample_dataset).2 = [(VStr "data.jsonl", lines)] /\
    parse_calls dec (on_platform healthy sample_dataset).2 = records_of lines /\
    map_result dec (to_text dec dec_truthy)
      (parsed dec (on_platform healthy sample_dataset).2) = inr texts /\
    from_lists dec (on_platform healthy sample_dataset).2 = [texts] /\
    concat (map fst (tokenized dec (on_platform healthy sample_dataset).2)) = texts /\
    List.Forall (fun b => (0 < length b.1 <= 1000)%nat /\ b.2 = tok_options 8)
                (tokenized dec (on_platform healthy sample_dataset).2).
Proof.
  assert (H : on_platform healthy sample_dataset =
            (inr sample_rows, tt, (on_platform healthy sample_dataset).2))
    by (vm_compute; reflexivity).
  split; [exact H|].
  apply (build_dataset_tokenizes_every_record dec dec_truthy unit
           (platform dec healthy) (VStr "data.jsonl") sample_tokenizer 8 tt tt
           sample_rows _ H).
Defined.

(** The sample tokenizer returns a row for every text. *)
Lemma sample_tokenizer_rows (s : setup dec) :
  tokenizer_rows dec unit (platform dec s).
Proof.
  intros tk texts tr pad n w enc w' H. simpl in H. inversion H; subst; clear H.
  unfold encode. simpl. apply length_map.
Qed.

Lemma build_dataset_size_witness :
  tokenizer_rows dec unit (platform dec healthy) /\
  on_platform healthy sample_dataset =
    (inr sample_rows, tt, (on_platform healthy sample_dataset).2) /\
  exists lines,
    reads dec (on_platform healthy sample_dataset).2 = [(VStr "data.jsonl", lines)] /\
    length sample_rows = length (records_of lines).
Proof.
  assert (Hrows : tokenizer_rows dec unit (platform dec healthy))
    by apply sample_tokenizer_rows.
  assert (H : on_platform healthy sample_dataset =
            (inr sample_rows, tt, (on_platform healthy sample_dataset).2))
    by (vm_compute; reflexivity).
  split; [exact Hrows|]. split; [exact H|].
  apply (build_dataset_size dec dec_truthy unit (platform dec healthy)
           (VStr "data.jsonl") sample_tokenizer 8 tt tt sample_rows _ Hrows H).
Defined.


Lemma script_returns_code_witness :
  run_main no_dataset sample_args =
    (inr 1, tt, (run_main no_dataset sample_args).2) /\
  run_script no_dataset ["train.py"; "--outdir"; "out"] sample_args =
    (inr (SysExit dec 1), tt, (run_main no_dataset sample_args).2).
Proof.
  assert (H : run_main no_dataset sample_args =
              (inr 1, tt, (run_main no_dataset sample_args).2))
    by (vm_compute; reflexivity).
  split; [exact H|].
  apply (script_returns_code dec dec_truthy int_of_dec dec_of_int dec_of_str
           unit (platform dec no_dataset) ["train.py"; "--outdir"; "out"]
           sample_args tt tt 1 _ H).
Defined.

Lemma training_uses_resolved_config_witness :
  train_calls dec (run_main healthy sample_args).2 <> [] /\
  exists c w1 t0,
    on_platform healthy
      (resolve_config dec dec_truthy int_of_dec dec_of_int dec_of_str sample_args) =
      (inr c, w1, t0) /\
    fit_uses dec c (normalize_base_model_id (base_model_raw dec c))
      (run_main healthy sample_args).2 /\
    length (train_calls dec (run_main healthy sample_args).2) = 1%nat.
Proof.
  assert (H : train_calls dec (run_main healthy sample_args).2 <> [])
    by (vm_compute; discriminate).
  split; [exact H|].
  apply (training_uses_resolved_config dec dec_truthy int_of_dec dec_of_int
           dec_of_str unit (platform dec healthy) sample_args tt H).
Defined.


Lemma modelfile_after_training_and_save_witness :
  In ("artifacts/Modelfile", modelfile_text)
     (writes dec (run_main healthy sample_args).2) /\
  exists c w1 t0 od,
    on_platform healthy
      (resolve_config dec dec_truthy int_of_dec dec_of_int dec_of_str sample_args) =
      (inr c, w1, t0) /\
    outdir dec c = VStr od /\
    "artifacts/Modelfile" = path_join od "Modelfile" /\
    modelfile_text = modelfile_text /\
    saves dec (run_main healthy sample_args).2 = [od] /\
    length (train_calls dec (run_main healthy sample_args).2) = 1%nat /\
    In (VStr (adapter_path od), true)
       (exists_checks dec (run_main healthy sample_args).2).
Proof.
  assert (H : In ("artifacts/Modelfile", modelfile_text)
                 (writes dec (run_main healthy sample_args).2))
    by (vm_compute; left; reflexivity).
  split; [exact H|].
  apply (modelfile_after_training_and_save dec dec_truthy int_of_dec dec_of_int
           dec_of_str unit (platform dec healthy) sample_args tt _ _ H).
Defined.
